(** * StudyGenie: the study-plan service

    A shallow embedding of [src/integrations/gemini/studyPlanService.ts]:
    the deadline arithmetic, the five-day window, the stable deadline sort,
    the rule-based fallback planner and the [try]/[catch] wrapper around the
    remote completion call.

    Conventions of the embedding.
    - A JavaScript [Date] is its time value, an integer number of
      milliseconds since the epoch ([Z]); the "Invalid Date" object is not
      represented.  The calendar functions are those of ECMA-262, section
      "Time Values and Time Range".
    - [new Date()] is read once per call: the clock [now] and the local
      time-zone offset [LocalTZA] are fields of [Host] and stay fixed
      while one plan is generated.
    - A JavaScript [number] that holds a count of days is a [Z] extended
      with [Infinity]; the hour budget is a rational [Q], and [Math.ceil]
      is [Qceiling].  Arithmetic is exact; [Binary64] evaluates the
      products of the planner in IEEE 754 arithmetic for comparison.
    - A JavaScript string is a [string] of bytes (its UTF-8 encoding).
    - Code that can raise returns a [JSResult]; the completion service is
      a function from the request to its answer or to the error it
      raises, and [await] is function application. *)

From Stdlib Require Import ZArith QArith Qround List String Ascii Bool Lia.
From Stdlib Require Import Permutation Sorted DecimalString SpecFloat.
Import ListNotations.

Local Open Scope Z_scope.

(** ** Exceptions *)

Inductive Error : Type :=
| JsError (message : string)        (* [new Error(message)] *)
| TypeError (message : string)      (* property access on [undefined] *)
| SyntaxError (message : string)    (* raised by [JSON.parse] *)
| HttpError (status : Z)            (* a rejected axios request *)
| NetworkError (message : string).

Inductive JSResult (A : Type) : Type :=
| Returns (a : A)
| Throws (e : Error).

Arguments Returns {A} a.
Arguments Throws {A} e.

Definition bind {A B : Type} (m : JSResult A) (k : A -> JSResult B) : JSResult B :=
  match m with
  | Returns a => k a
  | Throws e => Throws e
  end.

Notation "x <- m ;; k" := (bind m (fun x => k))
  (at level 61, m at next level, right associativity).

(** [try { body } catch (error) { handler }] *)
Definition try_catch {A : Type} (body : JSResult A) (handler : Error -> JSResult A)
  : JSResult A :=
  match body with
  | Returns a => Returns a
  | Throws e => handler e
  end.

(** [Array.prototype.map] with a callback that may raise: the first
    exception aborts the traversal. *)
Fixpoint mapM {A B : Type} (f : A -> JSResult B) (l : list A) : JSResult (list B) :=
  match l with
  | [] => Returns []
  | x :: l' => y <- f x ;; ys <- mapM f l' ;; Returns (y :: ys)
  end.

(** ** Dates (ECMA-262 time values) *)

Module JSDate.

Definition msPerDay : Z := 86400000.

Definition Day (t : Z) : Z := t / msPerDay.
Definition TimeWithinDay (t : Z) : Z := t mod msPerDay.

Definition DaysInYear (y : Z) : Z :=
    if negb (y mod 4 =? 0) then 365
    else if negb (y mod 100 =? 0) then 366
    else if negb (y mod 400 =? 0) then 365
    else 366.

Definition DayFromYear (y : Z) : Z :=
    365 * (y - 1970) + (y - 1969) / 4 - (y - 1901) / 100 + (y - 1601) / 400.

Definition TimeFromYear (y : Z) : Z := msPerDay * DayFromYear y.

(** The largest [y] with [DayFromYear y <= d]: an estimate from the mean
      length of a Gregorian year, corrected by at most one year. *)
Definition YearFromDay (d : Z) : Z :=
    let y := 1970 + (400 * d) / 146097 in
    if d <? DayFromYear y then y - 1
    else if DayFromYear (y + 1) <=? d then y + 1
    else y.

Definition YearFromTime (t : Z) : Z := YearFromDay (Day t).

Definition InLeapYear (t : Z) : Z :=
    if DaysInYear (YearFromTime t) =? 366 then 1 else 0.

Definition DayWithinYear (t : Z) : Z := Day t - DayFromYear (YearFromTime t).

(** Number of days of the year that precede month [m] (0 = January);
      [leap] is 1 in a leap year and 0 otherwise. *)
Definition monthStart (m leap : Z) : Z :=
    match m with
    | 0 => 0
    | 1 => 31
    | 2 => 59 + leap
    | 3 => 90 + leap
    | 4 => 120 + leap
    | 5 => 151 + leap
    | 6 => 181 + leap
    | 7 => 212 + leap
    | 8 => 243 + leap
    | 9 => 273 + leap
    | 10 => 304 + leap
    | _ => 334 + leap
    end.

Definition MonthFromTime (t : Z) : Z :=
    let d := DayWithinYear t in
    let leap := InLeapYear t in
    if d <? 31 then 0
    else if d <? 59 + leap then 1
    else if d <? 90 + leap then 2
    else if d <? 120 + leap then 3
    else if d <? 151 + leap then 4
    else if d <? 181 + leap then 5
    else if d <? 212 + leap then 6
    else if d <? 243 + leap then 7
    else if d <? 273 + leap then 8
    else if d <? 304 + leap then 9
    else if d <? 334 + leap then 10
    else 11.

Definition DateFromTime (t : Z) : Z :=
    DayWithinYear t - monthStart (MonthFromTime t) (InLeapYear t) + 1.

Definition WeekDay (t : Z) : Z := (Day t + 4) mod 7.

(** [MakeDay(year, month, date)]: the day number of the first of the
      month, plus [date - 1]; months outside 0..11 carry into the year. *)
Definition MakeDay (year month date : Z) : Z :=
    let ym := year + month / 12 in
    let mn := month mod 12 in
    let leap := if DaysInYear ym =? 366 then 1 else 0 in
    DayFromYear ym + monthStart mn leap + date - 1.

Definition MakeDate (day time : Z) : Z := day * msPerDay + time.

(** The civil calendar, for reference: the length of a month, the date
    that follows a date, and the date of the day with number [n]. *)
Definition daysInMonth (y m : Z) : Z :=
  match m with
  | 1 => if DaysInYear y =? 366 then 29 else 28
  | 3 | 5 | 8 | 10 => 30
  | _ => 31
  end.

Definition nextDate (ymd : Z * Z * Z) : Z * Z * Z :=
  let '(y, m, d) := ymd in
  if d <? daysInMonth y m then (y, m, d + 1)
  else if m <? 11 then (y, m + 1, 1)
  else (y + 1, 0, 1).

Definition dateOfDay (n : Z) : Z * Z * Z :=
  let t := n * msPerDay in
  (YearFromTime t, MonthFromTime t, DateFromTime t).

Section TimeZone.
(** Offset of local time from UTC, in milliseconds. *)
Variable LocalTZA : Z.

Definition LocalTime (t : Z) : Z := t + LocalTZA.
Definition UTC (t : Z) : Z := t - LocalTZA.

Definition getFullYear (d : Z) : Z := YearFromTime (LocalTime d).
Definition getMonth (d : Z) : Z := MonthFromTime (LocalTime d).
Definition getDate (d : Z) : Z := DateFromTime (LocalTime d).
Definition getDay (d : Z) : Z := WeekDay (LocalTime d).
Definition getTime (d : Z) : Z := d.

(** [d.setDate(date)]: the new time value of [d]. *)
Definition setDate (d date : Z) : Z :=
      let t := LocalTime d in
      let newDate :=
        MakeDate (MakeDay (YearFromTime t) (MonthFromTime t) date) (TimeWithinDay t) in
      UTC newDate.
End TimeZone.

End JSDate.


(** ** Strings *)

Module JSString.

Definition dquote : string := String (ascii_of_nat 34) EmptyString.
Definition newline : string := String (ascii_of_nat 10) EmptyString.

(** Case folding of one byte: only the ASCII capitals change.  None of the
    keywords searched for below can arise from folding a non-ASCII
    character, so this agrees with [String.prototype.toLowerCase] on the
    outcome of every keyword test. *)
Definition lowerAscii (c : ascii) : ascii :=
  let n := nat_of_ascii c in
  if (65 <=? n)%nat && (n <=? 90)%nat then ascii_of_nat (n + 32) else c.

Fixpoint toLowerCase (s : string) : string :=
  match s with
  | EmptyString => EmptyString
  | String c r => String (lowerAscii c) (toLowerCase r)
  end.

(** [s.includes(needle)] *)
Fixpoint includes (s needle : string) : bool :=
  String.prefix needle s
  || match s with
     | EmptyString => false
     | String _ r => includes r needle
     end.

(** Decimal rendering of an integer, as a template literal prints it. *)
Definition ofZ (z : Z) : string := NilZero.string_of_int (Z.to_int z).

(** [parts.join(sep)] *)
Definition join (sep : string) (parts : list string) : string :=
  String.concat sep parts.

(** The match of the regular expression [/\{[\s\S]*\}/]: it starts at the
    first opening brace that is followed, somewhere, by a closing brace,
    and the greedy [[\s\S]*] extends it to the last closing brace of the
    text. *)
Fixpoint fromFirstOpen (s : string) : option string :=
  match s with
  | EmptyString => None
  | String c r => if Ascii.eqb c "{" then Some r else fromFirstOpen r
  end.

Fixpoint toLastClose (s : string) : option string :=
  match s with
  | EmptyString => None
  | String c r =>
      match toLastClose r with
      | Some p => Some (String c p)
      | None => if Ascii.eqb c "}" then Some EmptyString else None
      end
  end.

Definition matchBraces (s : string) : option string :=
  match fromFirstOpen s with
  | None => None
  | Some r =>
      match toLastClose r with
      | None => None
      | Some mid => Some (String "{" (mid ++ "}"))
      end
  end.

(** Whether the character [c] occurs in [s]. *)
Fixpoint occurs (c : ascii) (s : string) : bool :=
  match s with
  | EmptyString => false
  | String c' r => Ascii.eqb c' c || occurs c r
  end.

End JSString.

(** ** JSON texts (ECMA-404), as [JSON.parse] reads them

    Numbers are kept exact ([Q]); a [\uXXXX] escape is stored as the UTF-8
    encoding of its code unit; an object keeps its members in source order. *)

Module JSON.

#[warnings="-register-all"]
Inductive value : Type :=
| Null
| Bool (b : bool)
| Number (q : Q)
| Str (s : string)
| Array (items : list value)
| Object (members : list (string * value)).

Definition isWs (c : ascii) : bool :=
  let n := nat_of_ascii c in
  (n =? 32)%nat || (n =? 9)%nat || (n =? 10)%nat || (n =? 13)%nat.

Fixpoint skipWs (s : string) : string :=
  match s with
  | EmptyString => EmptyString
  | String c r => if isWs c then skipWs r else s
  end.

Definition digitVal (c : ascii) : option Z :=
  let n := nat_of_ascii c in
  if (48 <=? n)%nat && (n <=? 57)%nat then Some (Z.of_nat (n - 48)) else None.

Definition hexVal (c : ascii) : option Z :=
  let n := nat_of_ascii c in
  if (48 <=? n)%nat && (n <=? 57)%nat then Some (Z.of_nat (n - 48))
  else if (65 <=? n)%nat && (n <=? 70)%nat then Some (Z.of_nat (n - 55))
  else if (97 <=? n)%nat && (n <=? 102)%nat then Some (Z.of_nat (n - 87))
  else None.

(** The longest run of decimal digits at the head of [s]: its value on top
    of [acc], the number of digits read, and the rest of the text. *)
Fixpoint digits (s : string) (acc : Z) (count : Z) : Z * Z * string :=
  match s with
  | EmptyString => (acc, count, s)
  | String c r =>
      match digitVal c with
      | Some d => digits r (10 * acc + d) (count + 1)
      | None => (acc, count, s)
      end
  end.

Definition parseInt (s : string) : option (Z * string) :=
  match s with
  | EmptyString => None
  | String c r =>
      match digitVal c with
      | None => None
      | Some 0 => Some (0, r)
      | Some d => let '(n, _, rest) := digits r d 1 in Some (n, rest)
      end
  end.

Definition parseFrac (s : string) : option (Z * Z * string) :=
  match s with
  | String "." r =>
      let '(n, count, rest) := digits r 0 0 in
      if count =? 0 then None else Some (n, count, rest)
  | _ => Some (0, 0, s)
  end.

Definition parseExp (s : string) : option (Z * string) :=
  let digitsOf (negative : bool) (r : string) :=
    let '(n, count, rest) := digits r 0 0 in
    if count =? 0 then None else Some (if negative then - n else n, rest) in
  match s with
  | String c r =>
      if Ascii.eqb c "e" || Ascii.eqb c "E" then
        match r with
        | String "+" r' => digitsOf false r'
        | String "-" r' => digitsOf true r'
        | _ => digitsOf false r
        end
      else Some (0, s)
  | EmptyString => Some (0, s)
  end.

Definition parseNumber (s : string) : option (Q * string) :=
  let '(negative, s1) :=
    match s with
    | String "-" r => (true, r)
    | _ => (false, s)
    end in
  match parseInt s1 with
  | None => None
  | Some (int, s2) =>
      match parseFrac s2 with
      | None => None
      | Some (frac, count, s3) =>
          match parseExp s3 with
          | None => None
          | Some (e, s4) =>
              let mantissa := int * 10 ^ count + frac in
              let signed := if negative then - mantissa else mantissa in
              Some ((inject_Z signed * Qpower (10 # 1) (e - count))%Q, s4)
          end
      end
  end.

(** UTF-8 encoding of a code unit below 65536. *)
Definition utf8 (n : Z) : string :=
  let byte (k : Z) := ascii_of_nat (Z.to_nat k) in
  if n <? 128 then String (byte n) EmptyString
  else if n <? 2048 then
    String (byte (192 + n / 64)) (String (byte (128 + n mod 64)) EmptyString)
  else
    String (byte (224 + n / 4096))
      (String (byte (128 + (n / 64) mod 64))
         (String (byte (128 + n mod 64)) EmptyString)).

(** The characters of a string up to its closing quote; [s] starts right
    after the opening quote. *)
Fixpoint parseChars (s : string) : option (string * string) :=
  let cons (c : string) (r : string) :=
    match parseChars r with
    | Some (body, rest) => Some ((c ++ body)%string, rest)
    | None => None
    end in
  match s with
  | EmptyString => None
  | String c r =>
      if Ascii.eqb c (ascii_of_nat 34) then Some (EmptyString, r)
      else if (nat_of_ascii c <? 32)%nat then None
      else if Ascii.eqb c "\" then
        match r with
        | String e r' =>
            let one (k : nat) :=
              match parseChars r' with
              | Some (body, rest) => Some (String (ascii_of_nat k) body, rest)
              | None => None
              end in
            if Ascii.eqb e (ascii_of_nat 34) then one 34%nat
            else if Ascii.eqb e "\" then one 92%nat
            else if Ascii.eqb e "/" then one 47%nat
            else if Ascii.eqb e "b" then one 8%nat
            else if Ascii.eqb e "f" then one 12%nat
            else if Ascii.eqb e "n" then one 10%nat
            else if Ascii.eqb e "r" then one 13%nat
            else if Ascii.eqb e "t" then one 9%nat
            else if Ascii.eqb e "u" then
              match r' with
              | String h1 (String h2 (String h3 (String h4 r''))) =>
                  match hexVal h1, hexVal h2, hexVal h3, hexVal h4 with
                  | Some a, Some b, Some c', Some d =>
                      match parseChars r'' with
                      | Some (body, rest) =>
                          Some ((utf8 (4096 * a + 256 * b + 16 * c' + d) ++ body)%string, rest)
                      | None => None
                      end
                  | _, _, _, _ => None
                  end
              | _ => None
              end
            else None
        | EmptyString => None
        end
      else
        match parseChars r with
        | Some (body, rest) => Some (String c body, rest)
        | None => None
        end
  end.

Definition parseLiteral (lit : string) (v : value) (s : string) : option (value * string) :=
  if String.prefix lit s
  then Some (v, String.substring (String.length lit) (String.length s - String.length lit) s)
  else None.

Section Composite.

(** The parser of one value, used for the items of arrays and objects. *)
Variable parseItem : string -> option (value * string).

(** The items of an array after its opening bracket; [s] starts at an item. *)
Fixpoint parseElements (fuel : nat) (s : string) : option (list value * string) :=
  match fuel with
  | O => None
  | S fuel' =>
      match parseItem s with
      | None => None
      | Some (v, r) =>
          match skipWs r with
          | String c r' =>
              if Ascii.eqb c "," then
                match parseElements fuel' r' with
                | Some (vs, rest) => Some (v :: vs, rest)
                | None => None
                end
              else if Ascii.eqb c "]" then Some ([v], r')
              else None
          | EmptyString => None
          end
      end
  end.

(** The members of an object after its opening brace; [s] starts at a key. *)
Fixpoint parseMembers (fuel : nat) (s : string) : option (list (string * value) * string) :=
  match fuel with
  | O => None
  | S fuel' =>
      match skipWs s with
      | String q r =>
          if Ascii.eqb q (ascii_of_nat 34) then
            match parseChars r with
            | None => None
            | Some (key, r1) =>
                match skipWs r1 with
                | String colon r2 =>
                    if Ascii.eqb colon ":" then
                      match parseItem r2 with
                      | None => None
                      | Some (v, r3) =>
                          match skipWs r3 with
                          | String c r4 =>
                              if Ascii.eqb c "," then
                                match parseMembers fuel' r4 with
                                | Some (ms, rest) => Some ((key, v) :: ms, rest)
                                | None => None
                                end
                              else if Ascii.eqb c "}" then Some ([(key, v)], r4)
                              else None
                          | EmptyString => None
                          end
                      end
                    else None
                | EmptyString => None
                end
            end
          else None
      | EmptyString => None
      end
  end.

End Composite.

Fixpoint parseValue (fuel : nat) (s : string) : option (value * string) :=
  match fuel with
  | O => None
  | S fuel' =>
      match skipWs s with
      | EmptyString => None
      | String c r =>
          if Ascii.eqb c "{" then
            match skipWs r with
            | String "}" r' => Some (Object [], r')
            | _ =>
                match parseMembers (parseValue fuel') fuel' r with
                | Some (ms, rest) => Some (Object ms, rest)
                | None => None
                end
            end
          else if Ascii.eqb c "[" then
            match skipWs r with
            | String "]" r' => Some (Array [], r')
            | _ =>
                match parseElements (parseValue fuel') fuel' r with
                | Some (vs, rest) => Some (Array vs, rest)
                | None => None
                end
            end
          else if Ascii.eqb c (ascii_of_nat 34) then
            match parseChars r with
            | Some (str, rest) => Some (Str str, rest)
            | None => None
            end
          else if Ascii.eqb c "t" then parseLiteral "true" (Bool true) (String c r)
          else if Ascii.eqb c "f" then parseLiteral "false" (Bool false) (String c r)
          else if Ascii.eqb c "n" then parseLiteral "null" Null (String c r)
          else
            match parseNumber (String c r) with
            | Some (q, rest) => Some (Number q, rest)
            | None => None
            end
      end
  end.

(** [JSON.parse(text)]: one value, with nothing but white space around it.
    Every level of nesting and every item consumes a character, so the
    length of the text bounds the recursion. *)
Definition parse (text : string) : JSResult value :=
  match parseValue (S (String.length text)) text with
  | Some (v, rest) =>
      match skipWs rest with
      | EmptyString => Returns v
      | String _ _ => Throws (SyntaxError "Unexpected non-whitespace character after JSON")
      end
  | None => Throws (SyntaxError "Unexpected token in JSON")
  end.

End JSON.

(** ** Numbers and arrays *)

Module JSNumber.

(** The integers together with the three special values that the
    arithmetic of the service can produce. *)
Inductive number : Type :=
| Int (z : Z)
| PosInfinity
| NegInfinity
| NaN.

Definition sub (a b : number) : number :=
  match a, b with
  | NaN, _ | _, NaN => NaN
  | Int x, Int y => Int (x - y)
  | Int _, PosInfinity => NegInfinity
  | Int _, NegInfinity => PosInfinity
  | PosInfinity, PosInfinity => NaN
  | PosInfinity, _ => PosInfinity
  | NegInfinity, NegInfinity => NaN
  | NegInfinity, _ => NegInfinity
  end.

(** [a % b] on integers: the sign follows the dividend, and a zero divisor
    gives [NaN]. *)
Definition rem (a b : number) : number :=
  match a, b with
  | Int x, Int y => if y =? 0 then NaN else Int (Z.rem x y)
  | Int x, (PosInfinity | NegInfinity) => Int x
  | _, _ => NaN
  end.

(** [a <= b] *)
Definition leb (a b : number) : bool :=
  match a, b with
  | NaN, _ | _, NaN => false
  | NegInfinity, _ => true
  | _, PosInfinity => true
  | Int x, Int y => x <=? y
  | _, _ => false
  end.

(** [a > b] *)
Definition gtb (a b : number) : bool :=
  match a, b with
  | NaN, _ | _, NaN => false
  | PosInfinity, PosInfinity => false
  | PosInfinity, _ => true
  | NegInfinity, _ => false
  | Int _, NegInfinity => true
  | Int _, PosInfinity => false
  | Int x, Int y => y <? x
  end.

(** [a === b] *)
Definition strictEq (a b : number) : bool :=
  match a, b with
  | Int x, Int y => x =? y
  | PosInfinity, PosInfinity => true
  | NegInfinity, NegInfinity => true
  | _, _ => false
  end.

(** The text of a number inside a template literal. *)
Definition toString (a : number) : string :=
  match a with
  | Int z => JSString.ofZ z
  | PosInfinity => "Infinity"
  | NegInfinity => "-Infinity"
  | NaN => "NaN"
  end.

(** [Math.ceil(a / b)] for integers [a] and a positive integer [b]. *)
Definition ceilDiv (a b : Z) : Z := - ((- a) / b).

End JSNumber.

Module JSArray.

Section Sort.

Context {A : Type}.
Variable comparefn : A -> A -> JSNumber.number.

(** [SortCompare]: [x] has to come after [y] when the comparator answers a
    positive number; a [NaN] answer counts as zero. *)
Definition comesAfter (x y : A) : bool :=
  JSNumber.gtb (comparefn x y) (JSNumber.Int 0).

(** [x] is placed in front of the sorted items it does not have to come
    after. *)
Fixpoint insert (x : A) (sorted : list A) : list A :=
  match sorted with
  | [] => [x]
  | y :: rest => if comesAfter x y then y :: insert x rest else x :: y :: rest
  end.

(** [Array.prototype.sort(comparefn)] on a copy of the array.  ECMA-262
    requires the result to be sorted and the sort to be stable; for a
    comparator that orders the items there is only one such arrangement
    ([sort_unique] below), and this insertion sort computes it. *)
Definition sort (items : list A) : list A := fold_right insert [] items.

End Sort.

(** [items[k]]: [undefined] outside the array and at a [NaN] index. *)
Definition get {A : Type} (items : list A) (k : JSNumber.number) : option A :=
  match k with
  | JSNumber.Int z => if z <? 0 then None else nth_error items (Z.to_nat z)
  | _ => None
  end.

Definition length {A : Type} (items : list A) : JSNumber.number :=
  JSNumber.Int (Z.of_nat (List.length items)).

(** The indices [0, 1, ...] that [map] passes along with the items. *)
Definition withIndex {A : Type} (items : list A) : list (A * Z) :=
  combine items (map Z.of_nat (seq 0 (List.length items))).

End JSArray.

(** ** Binary64 products

    The service multiplies the hour budget by the literals [0.8] and [0.5]
    in binary64 and rounds the product up.  This module evaluates that
    computation on the specification of IEEE 754 arithmetic, so that the
    exact arithmetic used below can be compared with it. *)

Module Binary64.

Definition prec : Z := 53.
Definition emax : Z := 1024.

(** The binary64 value of an integer. *)
Definition ofZ (z : Z) : spec_float := binary_normalize prec emax z 0 false.

(** The literals [0.8] and [0.5]. *)
Definition point8 : spec_float := S754_finite false 7205759403792794 (-53).
Definition point5 : spec_float := S754_finite false 4503599627370496 (-53).

Definition mul (x y : spec_float) : spec_float := SFmul prec emax x y.

(** [Math.ceil] of a finite value, as an integer. *)
Definition ceil (x : spec_float) : option Z :=
  match x with
  | S754_zero _ => Some 0
  | S754_finite negative m e =>
      let v := if negative then Z.neg m else Z.pos m in
      Some (if 0 <=? e then v * 2 ^ e else - ((- v) / 2 ^ (- e)))
  | S754_infinity _ | S754_nan => None
  end.

(** [Math.ceil(h * factor)] for a whole number [h]. *)
Definition ceilTimes (h : Z) (factor : spec_float) : option Z :=
  ceil (mul (ofZ h) factor).

(** Whether the exact ceiling agrees with the binary64 one for the whole
    budgets [0 .. bound - 1]. *)
Definition agreesBelow (bound : nat) : bool :=
  forallb
    (fun h : Z =>
       match ceilTimes h point8, ceilTimes h point5 with
       | Some a, Some b =>
           (a =? Qceiling (inject_Z h * (8 # 10)))
           && (b =? Qceiling (inject_Z h * (5 # 10)))
       | _, _ => false
       end)
    (map Z.of_nat (seq 0 bound)).

End Binary64.

(** ** The study-plan service *)

Module StudyPlanService.

Import JSNumber.

Local Open Scope string_scope.
Local Open Scope Z_scope.

(** What the service reads from its host: the clock, the time zone, and the
    two renderings that depend on the locale or on the binary form of a
    number ([Date.prototype.toLocaleDateString] and the conversion of a
    [number] to text inside a template literal). *)
Record Host : Type := {
  now : Z;
  LocalTZA : Z;
  toLocaleDateString : Z -> string;
  numberToString : Q -> string
}.

Record Subject : Type := {
  id : string;
  name : string;
  deadline : option Z
}.

Record StudyFormData : Type := {
  subjects : list Subject;
  dailyHours : Q
}.

Inductive Priority : Type := high | medium | low.

Record StudyPlanDay : Type := {
  day : string;
  date : string;
  subject : string;
  hours : Q;
  notes : string;
  priority : Priority;
  resources : option string
}.

Record StudyPlanResult : Type := {
  studyPlan : list StudyPlanDay;
  motivationalTip : string
}.

Module DayInfo.
Record t : Type := { day : string; date : string }.
End DayInfo.

Definition Priority_eqb (p q : Priority) : bool :=
  match p, q with
  | high, high | medium, medium | low, low => true
  | _, _ => false
  end.

Record ChatMessage : Type := { role : string; content : string }.

Record Request : Type := {
  model : string;
  messages : list ChatMessage;
  temperature : Q;
  max_tokens : Z
}.

Module Response.
Record Message : Type := { content : option string; role : string }.
Record Choice : Type := { message : option Message; finish_reason : string }.
Record t : Type := { choices : list Choice }.
End Response.

(** What [generateStudyPlan] resolves to: the object read by [JSON.parse],
    cast to [StudyPlanResult] without inspection, or a plan built by the
    fallback planner. *)
Inductive Resolved : Type :=
| Parsed (studyPlanData : JSON.value)
| Planned (plan : StudyPlanResult).

Definition days : list string :=
  ["Sunday"; "Monday"; "Tuesday"; "Wednesday"; "Thursday"; "Friday"; "Saturday"].

Definition months : list string :=
  ["Jan"; "Feb"; "Mar"; "Apr"; "May"; "Jun"; "Jul"; "Aug"; "Sep"; "Oct"; "Nov"; "Dec"].

(** [names[k]] inside a template literal or as a property value. *)
Definition label (names : list string) (k : Z) : string :=
  match JSArray.get names (Int k) with
  | Some s => s
  | None => "undefined"
  end.

(** The weekday and the date of the calendar day with day number [n]
    (days counted from 1 January 1970): the reference against which the
    five-day window is checked. *)
Definition calendarDay (n : Z) : DayInfo.t :=
  let '(year, month, date) := JSDate.dateOfDay n in
  {| DayInfo.day := label days (JSDate.WeekDay (n * JSDate.msPerDay));
     DayInfo.date :=
       label months month ++ " " ++ JSString.ofZ date ++ ", " ++ JSString.ofZ year |}.

(** The order of urgency, [high > medium > low], and the more urgent of
    two priorities: the reference for the priority of a two-subject day. *)
Definition urgency (p : Priority) : nat :=
  match p with
  | high => 2
  | medium => 1
  | low => 0
  end.

Definition moreUrgent (p q : Priority) : Priority :=
  if (urgency p <? urgency q)%nat then q else p.

Section WithHost.

Variable host : Host.

(** Function to calculate days until deadline for prioritization *)
Definition getDaysUntilDeadline (deadline : option Z) : number :=
  match deadline with
  | None => PosInfinity
  | Some deadlineDate =>
      let today := now host in
      let diffTime := JSDate.getTime deadlineDate - JSDate.getTime today in
      let diffDays := ceilDiv diffTime (1000 * 60 * 60 * 24) in
      Int (if 0 <? diffDays then diffDays else 0)
  end.

(** Function to get weekday names for the next 5 days *)
Definition getNextFiveDays : list DayInfo.t :=
  let tza := LocalTZA host in
  let today := now host in
  map (fun i : Z =>
         let date := JSDate.setDate tza today (JSDate.getDate tza today + i) in
         {| DayInfo.day := label days (JSDate.getDay tza date);
            DayInfo.date :=
              label months (JSDate.getMonth tza date) ++ " "
              ++ JSString.ofZ (JSDate.getDate tza date) ++ ", "
              ++ JSString.ofZ (JSDate.getFullYear tza date) |})
      [0; 1; 2; 3; 4]%Z.

(** The day number, in local time, of the moment the plan is made. *)
Definition localToday : Z := JSDate.Day (JSDate.LocalTime (LocalTZA host) (now host)).

(** The day expected at index [i] of a plan made without subjects: the
    placeholder on its own, with high priority (a reference for
    [fallback_without_subjects]). *)
Definition generalStudyDay (h : Q) (i : Z) : StudyPlanDay :=
  let dayInfo := calendarDay (localToday + i) in
  {| day := DayInfo.day dayInfo;
     date := DayInfo.date dayInfo;
     subject := "General Study";
     hours := inject_Z (Qceiling (h * (8 # 10)));
     notes :=
       "Review course materials using the Feynman technique, create summary notes with mind maps, and practice retrieval with self-quizzing"
       ++ (if i =? 4 then " - prepare for assessment" else "");
     priority := high;
     resources :=
       Some "Notion AI for note organization, Anki for flashcards, Gemini for concept explanations" |}.

(** The comparator of both sorts: [daysA - daysB]. *)
Definition byDeadline (a b : Subject) : number :=
  let daysA := getDaysUntilDeadline (deadline a) in
  let daysB := getDaysUntilDeadline (deadline b) in
  sub daysA daysB.

(** [[...data.subjects].sort((a, b) => daysA - daysB)], the expression that
    opens both [generateStudyPlan] and [generateFallbackStudyPlan]. *)
Definition sortedSubjects (data : StudyFormData) : list Subject :=
  JSArray.sort byDeadline (subjects data).

(** Generate subject-specific study notes with detailed recommendations *)
Definition getSubjectNotes (subject : string) : string :=
  let subjectLower := JSString.toLowerCase subject in
  let includes := JSString.includes subjectLower in
  if includes "math" then
    "Practice equations using spaced repetition, solve problem sets with increasing difficulty, and create concept maps for formulas and theorems"
  else if includes "physics" then
    "Review key concepts through visual diagrams, solve numerical problems, and watch simulations of physical phenomena"
  else if includes "chemistry" then
    "Create flashcards for chemical reactions, practice balancing equations, and review periodic table relationships"
  else if includes "biology" then
    "Draw detailed diagrams of biological systems, create concept maps for processes, and review key terminology"
  else if includes "history" || includes "social" then
    "Create timeline charts, practice active recall of key events, and analyze primary sources using the Cornell note-taking method"
  else if includes "english" || includes "literature" || includes "lang" then
    "Read assigned texts using active reading techniques, practice writing essays with clear thesis statements, and build vocabulary through contextual learning"
  else if includes "computer" || includes "programming" || includes "coding" then
    "Work on coding projects with test-driven development, debug exercises systematically, and document your learning process in a coding journal"
  else
    "Review course materials using the Feynman technique, create summary notes with mind maps, and practice retrieval with self-quizzing".

(** Generate subject-specific AI tool recommendations *)
Definition getSubjectResources (subject : string) : string :=
  let subjectLower := JSString.toLowerCase subject in
  let includes := JSString.includes subjectLower in
  if includes "math" then
    "Wolfram Alpha for equation solving, Khan Academy for tutorials, Desmos for graphing"
  else if includes "physics" then
    "PhET simulations, Brilliant.org physics courses, Gemini for problem-solving assistance"
  else if includes "chemistry" then
    "Periodic Table apps, Molecular modeling tools, ChemCollective virtual labs"
  else if includes "biology" then
    "BioDigital Human for 3D models, Labster for virtual labs, Quizlet for terminology"
  else if includes "history" || includes "social" then
    "Timeline JS for visual timelines, Google Arts & Culture for primary sources, Gemini for historical context"
  else if includes "english" || includes "literature" || includes "lang" then
    "Grammarly for writing assistance, ThesaurusAI for vocabulary, Gemini models for essay feedback"
  else if includes "computer" || includes "programming" || includes "coding" then
    "GitHub Copilot for coding assistance, LeetCode for practice, Stack Overflow for problem-solving"
  else
    "Notion AI for note organization, Anki for flashcards, Gemini for concept explanations".

(** Ensure we have at least some subjects to work with *)
Definition availableSubjects (sorted : list Subject) : list Subject :=
  if gtb (JSArray.length sorted) (Int 0)
  then sorted
  else [ {| id := "1"; name := "General Study"; deadline := Some (now host) |} ].

(** Get priority based on deadline *)
Definition getPriorityByDeadline (subject : Subject) : Priority :=
  let days := getDaysUntilDeadline (deadline subject) in
  if leb days (Int 7) then high
  else if leb days (Int 14) then medium
  else low.

(** Reading a property of [items[k]]: a [TypeError] when the item is
    [undefined]. *)
Definition item (items : list Subject) (k : number) : JSResult Subject :=
  match JSArray.get items k with
  | Some s => Returns s
  | None => Throws (TypeError "Cannot read properties of undefined (reading 'name')")
  end.

Definition isMultiSubjectDay (available : list Subject) (index : Z) : bool :=
  strictEq (rem (Int index) (Int 2)) (Int 0)
  && gtb (JSArray.length available) (Int 1).

Definition assessmentSuffix (index : Z) : string :=
  if strictEq (Int index) (Int 4) then " - prepare for assessment" else "".

(** [Math.ceil(dailyHours * factor)] *)
Definition ceilHours (dailyHours factor : Q) : Q :=
  inject_Z (Qceiling (dailyHours * factor)).

(** Determine the higher priority subject *)
Definition highestPriority (priority1 priority2 : Priority) : Priority :=
  if Priority_eqb priority1 high || Priority_eqb priority2 high then high
  else if Priority_eqb priority1 medium || Priority_eqb priority2 medium then medium
  else low.

(** The object returned for a day with two subjects. *)
Definition multiSubjectDay (data : StudyFormData) (dayInfo : DayInfo.t) (index : Z)
    (subject1 subject2 : Subject) : StudyPlanDay :=
  let combinedSubjects := name subject1 ++ ", " ++ name subject2 in
  let priority1 := getPriorityByDeadline subject1 in
  let priority2 := getPriorityByDeadline subject2 in
  (* Create combined notes *)
  let notes :=
    name subject1 ++ ": " ++ getSubjectNotes (name subject1) ++ ". "
    ++ name subject2 ++ ": " ++ getSubjectNotes (name subject2)
    ++ assessmentSuffix index in
  (* Create combined resources *)
  let resources :=
    name subject1 ++ ": " ++ getSubjectResources (name subject1) ++ ". "
    ++ name subject2 ++ ": " ++ getSubjectResources (name subject2) in
  {| day := DayInfo.day dayInfo;
     date := DayInfo.date dayInfo;
     subject := combinedSubjects;
     hours := dailyHours data;
     notes := notes;
     priority := highestPriority priority1 priority2;
     resources := Some resources |}.

(** The object returned for a single subject day. *)
Definition singleSubjectDay (data : StudyFormData) (dayInfo : DayInfo.t) (index : Z)
    (subject : Subject) : StudyPlanDay :=
  {| day := DayInfo.day dayInfo;
     date := DayInfo.date dayInfo;
     subject := name subject;
     hours :=
       ceilHours (dailyHours data)
         (if Priority_eqb (getPriorityByDeadline subject) high then 8 # 10 else 5 # 10);
     notes := getSubjectNotes (name subject) ++ assessmentSuffix index;
     priority := getPriorityByDeadline subject;
     resources := Some (getSubjectResources (name subject)) |}.

(** The callback of [nextFiveDays.map((dayInfo, index) => ...)]. *)
Definition planDay (data : StudyFormData) (available : list Subject)
    (entry : DayInfo.t * Z) : JSResult StudyPlanDay :=
  let '(dayInfo, index) := entry in
  let length := JSArray.length available in
  if isMultiSubjectDay available index then
    (* Get two subjects for this day *)
    subject1 <- item available (rem (Int index) length) ;;
    subject2 <- item available (rem (Int (index + 1)) length) ;;
    Returns (multiSubjectDay data dayInfo index subject1 subject2)
  else
    subject <- item available (rem (Int index) length) ;;
    Returns (singleSubjectDay data dayInfo index subject).

Definition tip : string :=
  "Remember, consistency beats intensity! Study a little every day rather than cramming. Your future self will thank you for the disciplined effort you put in today. Stay focused and believe in yourself! ðŸŽ¯âœ¨".

(** Fallback function to generate a basic study plan if Gemini fails *)
Definition generateFallbackStudyPlan (data : StudyFormData) : JSResult StudyPlanResult :=
  let available := availableSubjects (sortedSubjects data) in
  let nextFiveDays := getNextFiveDays in
  studyPlan <- mapM (planDay data available) (JSArray.withIndex nextFiveDays) ;;
  Returns {| studyPlan := studyPlan; motivationalTip := tip |}.

(** *** The remote completion call *)

(** [gemini.chat.completions.create]: the answer of the completion service
    to a request, or the exception it raises. *)
Variable gemini : Request -> JSResult Response.t.

(** Prepare subject information for the prompt *)
Definition subjectInfo (sorted : list Subject) : string :=
  JSString.join JSString.newline
    (map (fun subject =>
            let daysUntil := getDaysUntilDeadline (deadline subject) in
            let deadlineInfo :=
              match deadline subject with
              | Some d =>
                  "deadline in " ++ toString daysUntil ++ " days ("
                  ++ toLocaleDateString host d ++ ")"
              | None => "no specific deadline"
              end in
            "- " ++ name subject ++ ": " ++ deadlineInfo)
       sorted).

(** Create the prompt for Gemini *)
Definition prompt (data : StudyFormData) (info : string) (first : DayInfo.t) : string :=
  let nl := JSString.newline in
  let q (s : string) := JSString.dquote ++ s ++ JSString.dquote in
  "Create a detailed 5-day study plan for a student with the following subjects:" ++ nl
  ++ info ++ nl ++ nl
  ++ "The student can study " ++ numberToString host (dailyHours data)
  ++ " hours per day." ++ nl ++ nl
  ++ "For each day, provide the following:" ++ nl
  ++ "1. Assign multiple subjects per day when appropriate (comma-separated)" ++ nl
  ++ "2. Allocate study hours (not exceeding daily limit)" ++ nl
  ++ "3. Create detailed, subject-specific study notes with actionable techniques" ++ nl
  ++ "4. Assign priority (high/medium/low) based on deadline proximity" ++ nl
  ++ "5. Include specific learning strategies tailored to each subject type (math, science, language, etc.)" ++ nl
  ++ nl
  ++ "Prioritize subjects with closer deadlines. Distribute study time effectively across all subjects, with more time for subjects with closer deadlines."
  ++ nl ++ nl
  ++ "Format your response as a JSON object with this structure:" ++ nl
  ++ "{" ++ nl
  ++ "  " ++ q "studyPlan" ++ ": [" ++ nl
  ++ "    {" ++ nl
  ++ "      " ++ q "day" ++ ": " ++ q (DayInfo.day first) ++ "," ++ nl
  ++ "      " ++ q "date" ++ ": " ++ q (DayInfo.date first) ++ "," ++ nl
  ++ "      " ++ q "subject" ++ ": " ++ q "Subject Name" ++ "," ++ nl
  ++ "      " ++ q "hours" ++ ": 2," ++ nl
  ++ "      " ++ q "notes" ++ ": " ++ q "Detailed study notes with specific techniques" ++ "," ++ nl
  ++ "      " ++ q "priority" ++ ": " ++ q "high" ++ "," ++ nl
  ++ "      " ++ q "resources" ++ ": " ++ q "Recommended tools and resources" ++ nl
  ++ "    }," ++ nl
  ++ "    // More days..." ++ nl
  ++ "  ]," ++ nl
  ++ "  " ++ q "motivationalTip" ++ ": " ++ q "A motivational message for the student" ++ nl
  ++ "}".

(** [response.choices[0]?.message?.content] *)
Definition firstContent (response : Response.t) : option string :=
  match JSArray.get (Response.choices response) (Int 0) with
  | None => None
  | Some choice =>
      match Response.message choice with
      | None => None
      | Some message => Response.content message
      end
  end.

(** The argument of [gemini.chat.completions.create]. *)
Definition completionRequest (userPrompt : string) : Request :=
  {| model := "gpt-3.5-turbo";
     messages :=
       [ {| role := "system";
            content := "You are an expert study planner and academic advisor." |};
         {| role := "user"; content := userPrompt |} ];
     temperature := 7 # 10;
     max_tokens := 1000 |}.

(** The first half of the [try] block: sort, build the prompt, call the
    completion service. *)
Definition callGemini (data : StudyFormData) : JSResult Response.t :=
  (* Sort subjects by deadline (closest first) *)
  let sorted := sortedSubjects data in
  let info := subjectInfo sorted in
  (* Get the next 5 days for the study plan *)
  let nextFiveDays := getNextFiveDays in
  first <- match JSArray.get nextFiveDays (Int 0) with
           | Some d => Returns d
           | None => Throws (TypeError "Cannot read properties of undefined (reading 'day')")
           end ;;
  (* Call Gemini API *)
  gemini (completionRequest (prompt data info first)).

(** The second half: parse the response. *)
Definition parseResponse (response : Response.t) : JSResult JSON.value :=
  match firstContent response with
  | None | Some EmptyString => Throws (JsError "No response from Gemini")
  | Some content =>
      (* Extract the JSON from the response *)
      match JSString.matchBraces content with
      | None => Throws (JsError "Could not parse JSON from Gemini response")
      | Some jsonMatch => JSON.parse jsonMatch
      end
  end.

(** The body of the [try] block of [generateStudyPlan]. *)
Definition requestStudyPlan (data : StudyFormData) : JSResult JSON.value :=
  response <- callGemini data ;; parseResponse response.

(** Generate a study plan using Gemini.  The [console.error] of the handler
    writes to the log only and is left out. *)
Definition generateStudyPlan (data : StudyFormData) : JSResult Resolved :=
  try_catch
    (studyPlanData <- requestStudyPlan data ;; Returns (Parsed studyPlanData))
    (fun error =>
       (* Fallback to a basic plan if Gemini fails *)
       plan <- generateFallbackStudyPlan data ;; Returns (Planned plan)).

End WithHost.

End StudyPlanService.

Import StudyPlanService.

(** ** A host and sample data for the worked examples *)

Module Sample.

Local Open Scope string_scope.
Local Open Scope Z_scope.

(** Wednesday 20 August 2025, 05:00:15 UTC, on a host that runs on UTC and
    prints dates as month/day/year. *)
Definition host : Host :=
  {| now := 1755666015000;
     LocalTZA := 0;
     toLocaleDateString := fun d =>
       JSString.ofZ (JSDate.getMonth 0 d + 1) ++ "/" ++ JSString.ofZ (JSDate.getDate 0 d)
       ++ "/" ++ JSString.ofZ (JSDate.getFullYear 0 d);
     numberToString := fun q => JSString.ofZ (Qfloor q) |}.

Definition inDays (n : Z) : option Z := Some (now host + n * JSDate.msPerDay).

Definition math : Subject := {| id := "1"; name := "Math"; deadline := inDays 5 |}.
Definition history : Subject := {| id := "2"; name := "World History"; deadline := inDays 10 |}.
Definition essay : Subject := {| id := "3"; name := "English essay"; deadline := inDays 30 |}.
Definition reading : Subject := {| id := "4"; name := "Reading"; deadline := None |}.
Definition lateReport : Subject := {| id := "5"; name := "Lab report"; deadline := inDays (-1) |}.
Definition lateEssay : Subject := {| id := "6"; name := "Essay"; deadline := inDays (-2) |}.

Definition form : StudyFormData :=
  {| subjects := [reading; essay; math; history]; dailyHours := 4 |}.

(** The fallback plan for [form]. *)
Definition plan : StudyPlanResult :=
  Eval cbv in
    match generateFallbackStudyPlan host form with
    | Returns p => p
    | Throws _ => {| studyPlan := []; motivationalTip := "" |}
    end.

Definition wednesday : StudyPlanDay :=
  Eval cbv in nth 0 (studyPlan plan) (generalStudyDay host 0 0).

Definition thursday : StudyPlanDay :=
  Eval cbv in nth 1 (studyPlan plan) (generalStudyDay host 0 0).

Definition offline : Request -> JSResult Response.t :=
  fun _ => Throws (NetworkError "network timeout").

Definition answering (text : string) : Request -> JSResult Response.t :=
  fun _ =>
    Returns
      {| Response.choices :=
           [ {| Response.message :=
                  Some {| Response.content := Some text; Response.role := "assistant" |};
                Response.finish_reason := "stop" |} ] |}.

(** A completion that holds a whole five-day plan as JSON text. *)
Definition quoted (s : string) : string := JSString.dquote ++ s ++ JSString.dquote.

Definition dayText (day date subject hours notes priority : string) : string :=
  "{" ++ quoted "day" ++ ": " ++ quoted day ++ ", "
  ++ quoted "date" ++ ": " ++ quoted date ++ ", "
  ++ quoted "subject" ++ ": " ++ quoted subject ++ ", "
  ++ quoted "hours" ++ ": " ++ hours ++ ", "
  ++ quoted "notes" ++ ": " ++ quoted notes ++ ", "
  ++ quoted "priority" ++ ": " ++ quoted priority ++ "}".

Definition planText : string :=
  "{" ++ quoted "studyPlan" ++ ": ["
  ++ JSString.join ", "
       [ dayText "Wednesday" "Aug 20, 2025" "Math" "3" "Drill integrals" "high";
         dayText "Thursday" "Aug 21, 2025" "Math, World History" "4" "Timeline" "high";
         dayText "Friday" "Aug 22, 2025" "World History" "2" "Primary sources" "medium";
         dayText "Saturday" "Aug 23, 2025" "English essay" "2" "Outline" "low";
         dayText "Sunday" "Aug 24, 2025" "Reading" "1" "Review" "low" ]
  ++ "], " ++ quoted "motivationalTip" ++ ": " ++ quoted "Keep going" ++ "}".

(** [planText] without its outer braces. *)
Definition planInner : string :=
  Eval cbv in String.substring 1 (String.length planText - 2)%nat planText.

Definition planObject : JSON.value :=
  Eval cbv in
    match JSON.parse planText with
    | Returns v => v
    | Throws _ => JSON.Null
    end.

End Sample.



(** * The callers of the service: client, assistant, form and dashboard *)

(** ** More of [String.prototype] *)

Module JSText.

(** The white space that [trim] removes (ECMA-262 WhiteSpace and
    LineTerminator), by the bytes of its UTF-8 encoding: one byte for TAB,
    LF, VT, FF, CR and SP; two for U+00A0; three for U+1680, U+2000 to
    U+200A, U+2028, U+2029, U+202F, U+205F, U+3000 and U+FEFF. *)
Definition white1 (a : ascii) : bool :=
  let a := nat_of_ascii a in
  ((9 <=? a) && (a <=? 13) || (a =? 32))%nat.

Definition white2 (a b : ascii) : bool :=
  ((nat_of_ascii a =? 194) && (nat_of_ascii b =? 160))%nat.

Definition white3 (a b c : ascii) : bool :=
  let a := nat_of_ascii a in
  let b := nat_of_ascii b in
  let c := nat_of_ascii c in
  ((a =? 225) && (b =? 154) && (c =? 128)
   || (a =? 226) && (b =? 128)
      && ((128 <=? c) && (c <=? 138) || (c =? 168) || (c =? 169) || (c =? 175))
   || (a =? 226) && (b =? 129) && (c =? 159)
   || (a =? 227) && (b =? 128) && (c =? 128)
   || (a =? 239) && (b =? 187) && (c =? 191))%nat.

(** [s.trimStart()] *)
Fixpoint trimStart (s : string) : string :=
  match s with
  | EmptyString => EmptyString
  | String a r1 =>
      if white1 a then trimStart r1
      else
        match r1 with
        | EmptyString => s
        | String b r2 =>
            if white2 a b then trimStart r2
            else
              match r2 with
              | EmptyString => s
              | String c r3 => if white3 a b c then trimStart r3 else s
              end
        end
  end.

(** Whether [s] is white space from end to end. *)
Fixpoint allWhite (s : string) : bool :=
  match s with
  | EmptyString => true
  | String a r1 =>
      if white1 a then allWhite r1
      else
        match r1 with
        | EmptyString => false
        | String b r2 =>
            if white2 a b then allWhite r2
            else
              match r2 with
              | EmptyString => false
              | String c r3 => if white3 a b c then allWhite r3 else false
              end
        end
  end.

(** [s.trimEnd()]: the text is cut where only white space follows. *)
Fixpoint trimEnd (s : string) : string :=
  match s with
  | EmptyString => EmptyString
  | String a r => if allWhite s then EmptyString else String a (trimEnd r)
  end.

(** [s.trim()] *)
Definition trim (s : string) : string := trimEnd (trimStart s).

(** [s.split(sep)] for a separator of one character: the pieces between
    the separators, at least one piece. *)
Fixpoint split (sep : ascii) (s : string) : list string :=
  match s with
  | EmptyString => [EmptyString]
  | String c r =>
      if Ascii.eqb c sep then EmptyString :: split sep r
      else
        match split sep r with
        | piece :: pieces => String c piece :: pieces
        | [] => [String c EmptyString]
        end
  end.

End JSText.

(** ** What [catch] handlers read from an error *)

Module JSError.

Local Open Scope string_scope.

(** [error.response?.status]: only a rejected HTTP request carries one. *)
Definition status (error : Error) : option Z :=
  match error with
  | HttpError s => Some s
  | _ => None
  end.

(** [error.message]; axios words the message of a rejected request
    itself. *)
Definition message (error : Error) : string :=
  match error with
  | JsError m | TypeError m | SyntaxError m | NetworkError m => m
  | HttpError s => "Request failed with status code " ++ JSString.ofZ s
  end.

End JSError.

(** ** The Gemini client ([integrations/gemini/client]) *)

Module GeminiClient.

Local Open Scope string_scope.
Local Open Scope Z_scope.

Definition GEMINI_API_URL : string :=
  "https://generativelanguage.googleapis.com/v1beta/models/gemini-2.0-flash:generateContent".

Record GeminiResponsePart : Type := { text : string }.

Record GeminiResponseContent : Type := {
  parts : list GeminiResponsePart;
  role : string
}.

Record Candidate : Type := {
  content : GeminiResponseContent;
  finishReason : string;
  index : Z
}.

Record GeminiResponse : Type := { candidates : list Candidate }.

(** The arguments of [axios.post]: the address, the payload
    ([contents[i].parts[j].text]) and the two headers, of which the key is
    [undefined] when the environment has none. *)
Record Post : Type := {
  url : string;
  contents : list (list string);
  contentType : string;
  apiKeyHeader : option string
}.

Record KeyValidation : Type := { valid : bool; error : option string }.

(** Enhanced API key validation with more detailed checks *)
Definition validateApiKey (apiKey : option string) : KeyValidation :=
  match apiKey with
  | None | Some EmptyString => {| valid := false; error := Some "API key is missing" |}
  | Some key =>
      if String.eqb key "your-api-key-here" || String.eqb key "GEMINI_API_KEY"
      then {| valid := false; error := Some "API key is a placeholder" |}
      else {| valid := true; error := None |}
  end.

Inductive ErrorType : Type :=
| rate_limit
| auth_error
| server_error
| network_error
| unknown_error.

Record ErrorInfo : Type := { type : ErrorType; message : string }.

(** Custom error handler for Gemini API errors *)
Definition handleGeminiError (error : Error) : ErrorInfo :=
  let status := JSError.status error in
  let hasStatus (code : Z) :=
    match status with
    | Some s => s =? code
    | None => false
    end in
  (* Rate limit errors *)
  if hasStatus 429 then
    {| type := rate_limit;
       message := "Rate limit exceeded. Please try again in a few minutes." |}
  (* Authentication errors *)
  else if hasStatus 401 || hasStatus 403 then
    {| type := auth_error;
       message := "Invalid API key. Please check your Gemini API key." |}
  (* Server errors *)
  else if match status with
          | Some s => 500 <=? s
          | None => false
          end then
    {| type := server_error;
       message := "Gemini servers are experiencing issues. Please try again later." |}
  (* Network errors *)
  else if negb (String.eqb (JSError.message error) "")
          && (JSString.includes (JSError.message error) "network"
              || JSString.includes (JSError.message error) "timeout") then
    {| type := network_error;
       message := "Network error. Please check your internet connection." |}
  (* Default error *)
  else
    {| type := unknown_error;
       message :=
         if String.eqb (JSError.message error) ""
         then "An unexpected error occurred."
         else JSError.message error |}.

(** The object that [chat.completions.create] returns, in a format similar
    to OpenAI's response. *)
Definition completion (generated : string) : Response.t :=
  {| Response.choices :=
       [ {| Response.message :=
              Some {| Response.content := Some generated;
                      Response.role := "assistant" |};
            Response.finish_reason := "stop" |} ] |}.

Section WithEnvironment.

(** [import.meta.env.VITE_GEMINI_API_KEY] and the outcome of
    [axios.post]: the body of the response, or the rejection. *)
Variable apiKey : option string.
Variable post : Post -> JSResult GeminiResponse.

(** [response.data.candidates[0]?.content.parts[0]?.text] *)
Definition generatedText (response : GeminiResponse) : option string :=
  match JSArray.get (candidates response) (JSNumber.Int 0) with
  | None => None
  | Some candidate =>
      match JSArray.get (parts (content candidate)) (JSNumber.Int 0) with
      | None => None
      | Some part => Some (text part)
      end
  end.

(** Create a function to generate content using Gemini API.  The result of
    [validateApiKey] is logged and not looked at; the [catch] block throws
    again what it caught. *)
Definition generateContent (prompt : string) (systemPrompt : option string)
  : JSResult string :=
  let _ := validateApiKey apiKey in
  try_catch
    (let payload :=
       [ [ match systemPrompt with
           | None | Some EmptyString => prompt
           | Some system => system ++ JSString.newline ++ JSString.newline ++ prompt
           end ] ] in
     response <- post {| url := GEMINI_API_URL;
                         contents := payload;
                         contentType := "application/json";
                         apiKeyHeader := apiKey |} ;;
     match generatedText response with
     | None | Some EmptyString => Throws (JsError "No response from Gemini API")
     | Some generated => Returns generated
     end)
    (fun error => Throws error).

(** [messages.find(msg => msg.role === wanted)?.content || ''] *)
Definition contentOf (wanted : string) (messages : list ChatMessage) : string :=
  match find (fun msg => String.eqb (StudyPlanService.role msg) wanted) messages with
  | Some msg => StudyPlanService.content msg
  | None => ""
  end.

(** The body of [chat.completions.create], which reads the messages of its
    argument and nothing else. *)
Definition complete (messages : list ChatMessage) : JSResult Response.t :=
  (* Extract the system message and user message *)
  let systemMessage := contentOf "system" messages in
  let userMessage := contentOf "user" messages in
  (* Generate content using Gemini *)
  generated <- generateContent userMessage (Some systemMessage) ;;
  Returns (completion generated).

(** [chat.completions.create] *)
Definition create (request : Request) : JSResult Response.t :=
  complete (messages request).

End WithEnvironment.

End GeminiClient.

(** ** The landing page ([pages/Index]) *)

Module IndexPage.

(** Legacy mock study plan function - kept as fallback *)
Definition generateMockStudyPlan (host : Host) (gemini : Request -> JSResult Response.t)
    (data : StudyFormData) : JSResult Resolved :=
  try_catch
    (aiGeneratedPlan <- generateStudyPlan host gemini data ;; Returns aiGeneratedPlan)
    (fun error => Throws error).

End IndexPage.

(** ** The study assistant ([components/AIStudyAssistant]) *)

Module StudyAssistant.

Local Open Scope string_scope.
Local Open Scope Z_scope.

Inductive AssistantMode : Type :=
| explanation
| practice
| summary
| flashcards
| strategy.

(** Get mode-specific prompt *)
Definition getModePrompt (userQuery : string) (mode : AssistantMode)
    (subject : option string) : string :=
  let nl := JSString.newline in
  let subjectContext :=
    match subject with
    | None | Some EmptyString => ""
    | Some subject => "for the subject: " ++ subject
    end in
  match mode with
  | explanation =>
      "Explain the following concept " ++ subjectContext
      ++ " in a clear, concise way with examples:" ++ nl ++ nl ++ userQuery
  | practice =>
      "Generate 3-5 practice questions " ++ subjectContext ++ " about:" ++ nl ++ nl
      ++ userQuery ++ nl ++ nl ++ "Include answers and explanations."
  | summary =>
      "Summarize the following information " ++ subjectContext
      ++ " into key points and concepts:" ++ nl ++ nl ++ userQuery
  | flashcards =>
      "Create 5 flashcards " ++ subjectContext ++ " about:" ++ nl ++ nl
      ++ userQuery ++ nl ++ nl ++ "Format as Term: Definition pairs."
  | strategy =>
      "Suggest effective learning strategies " ++ subjectContext
      ++ " for mastering:" ++ nl ++ nl ++ userQuery
  end.

(** Get mode title *)
Definition getModeTitle (mode : AssistantMode) : string :=
  match mode with
  | explanation => "Ask for Explanations"
  | practice => "Generate Practice Questions"
  | summary => "Summarize Complex Topics"
  | flashcards => "Create Flashcards"
  | strategy => "Get Learning Strategies"
  end.

(** What a run of the component does besides changing its state: calls of
    the wrapped function, pauses, and messages put on the screen. *)
Inductive Event : Type :=
| Called (attempt : nat)
| Waited (delay : Z)
| Shown (message : string).

Section Retry.

Context {A : Type}.

(** The outcome of the call of [fn] number 0, 1, 2, ... *)
Variable fn : nat -> JSResult A.

Definition retryMessage (retries maxRetries : Z) : string :=
  "Rate limit reached. Retrying (" ++ JSString.ofZ retries ++ "/"
  ++ JSString.ofZ maxRetries ++ ")...".

(** The [while] loop of [retryWithBackoff], from the state
    [(retries, delay)]; [None] when [fuel] rounds do not finish it.  A
    result of [Returns None] is the [undefined] of a loop that ends
    without [return]. *)
Fixpoint retryLoop (fuel : nat) (maxRetries retries delay : Z)
  : option (list Event * JSResult (option A)) :=
  if retries <? maxRetries then
    match fuel with
    | O => None
    | S fuel' =>
        let attempt := Z.to_nat retries in
        match fn attempt with
        | Returns value => Some ([Called attempt], Returns (Some value))
        | Throws error =>
            (* If it's not a rate limit error, throw immediately *)
            if negb match JSError.status error with
                    | Some s => s =? 429
                    | None => false
                    end
            then Some ([Called attempt], Throws error)
            (* If we've reached max retries, throw the error *)
            else if retries =? maxRetries - 1
            then Some ([Called attempt], Throws error)
            else
              (* Wait, double the delay, count the retry, update the UI *)
              match retryLoop fuel' maxRetries (retries + 1) (delay * 2) with
              | Some (events, outcome) =>
                  Some (Called attempt :: Waited delay
                          :: Shown (retryMessage (retries + 1) maxRetries) :: events,
                        outcome)
              | None => None
              end
        end
    end
  else Some ([], Returns None).

(** Retry function with exponential backoff.  [maxRetries] rounds always
    finish the loop ([retryLoop_finishes] below). *)
Definition retryWithBackoff (maxRetries initialDelay : Z)
  : list Event * JSResult (option A) :=
  match retryLoop (Z.to_nat maxRetries) maxRetries 0 initialDelay with
  | Some run => run
  | None => ([], Returns None)
  end.

End Retry.

Definition calls (events : list Event) : list nat :=
  flat_map (fun e => match e with Called k => [k] | _ => [] end) events.

Definition waits (events : list Event) : list Z :=
  flat_map (fun e => match e with Waited d => [d] | _ => [] end) events.

Definition shown (events : list Event) : list string :=
  flat_map (fun e => match e with Shown m => [m] | _ => [] end) events.

Record State : Type := {
  mode : AssistantMode;
  query : string;
  result : string;
  error : string;
  isLoading : bool
}.

Definition setResult (value : string) (st : State) : State :=
  {| mode := mode st; query := query st; result := value; error := error st;
     isLoading := isLoading st |}.

Definition setError (value : string) (st : State) : State :=
  {| mode := mode st; query := query st; result := result st; error := value;
     isLoading := isLoading st |}.

Definition setIsLoading (value : bool) (st : State) : State :=
  {| mode := mode st; query := query st; result := result st; error := error st;
     isLoading := value |}.

(** Handle mode change *)
Definition handleModeChange (newMode : AssistantMode) (st : State) : State :=
  {| mode := newMode; query := query st; result := ""; error := "";
     isLoading := isLoading st |}.

(** The message that the [catch] block of [handleSubmit] puts on the
    screen. *)
Definition failureMessage (err : Error) : string :=
  (* Use the enhanced error handler *)
  let errorInfo := GeminiClient.handleGeminiError err in
  match GeminiClient.type errorInfo with
  | GeminiClient.rate_limit =>
      GeminiClient.message errorInfo
      ++ " This happens when too many requests are made to the Gemini API. You can: 1) Wait a few minutes and try again, 2) Get your own API key from Google AI Studio, or 3) Upgrade to a paid Google Cloud plan for higher limits."
  | GeminiClient.auth_error =>
      GeminiClient.message errorInfo
      ++ " Please check your API key in the .env file. If you don't have an API key, you can get one from Google AI Studio."
  | GeminiClient.server_error =>
      GeminiClient.message errorInfo
      ++ " This is an issue with Google's servers and not with your request."
  | GeminiClient.network_error =>
      GeminiClient.message errorInfo
      ++ " Please check your internet connection and try again when your connection is stable."
  | GeminiClient.unknown_error =>
      if JSString.includes (JSError.message err) "API key" then
        "Gemini API key error: Please check your API key configuration in the .env file. You can get an API key from Google AI Studio."
      else
        "Failed to get a response: " ++ GeminiClient.message errorInfo
        ++ ". Please try again later."
  end.

Section Submit.

(** The property [subject] of the component, the key of the environment,
    and the completion service: the outcome of the call number 0, 1, ... of
    [gemini.chat.completions.create] with the given messages. *)
Variable subject : option string.
Variable apiKey : option string.
Variable gemini : nat -> list ChatMessage -> JSResult Response.t.

(** The body of the [try] block of [handleSubmit]: the events, and the
    content to show or the error raised. *)
Definition ask (st : State) : list Event * JSResult string :=
  (* Validate Gemini API key *)
  let keyValidation := GeminiClient.validateApiKey apiKey in
  if negb (GeminiClient.valid keyValidation) then
    ([], Throws (JsError ("Gemini API key error: "
                          ++ match GeminiClient.error keyValidation with
                             | Some e => e
                             | None => "null"
                             end)))
  else
    let prompt := getModePrompt (query st) (mode st) subject in
    (* Use retry with backoff for API calls *)
    let '(events, outcome) :=
      retryWithBackoff
        (fun attempt =>
           gemini attempt
             [ {| role := "system";
                  content := "You are an expert study assistant helping students learn effectively." |};
               {| role := "user"; content := prompt |} ])
        3 1000 in
    (events,
     response <- outcome ;;
     match response with
     | None => Throws (TypeError "Cannot read properties of undefined (reading 'choices')")
     | Some response =>
         match firstContent response with
         | None | Some EmptyString => Throws (JsError "No response from AI")
         | Some content => Returns content
         end
     end).

(** Handle query submission: the events and the state once the handler
    has run to its end. *)
Definition handleSubmit (st : State) : list Event * State :=
  if String.eqb (JSText.trim (query st)) "" then
    ([], setError "Please enter a query" st)
  else
    let st := setError "" (setIsLoading true st) in
    let '(events, outcome) := ask st in
    let st := fold_left (fun st m => setError m st) (shown events) st in
    let st :=
      match outcome with
      | Returns content => setResult content st
      | Throws err => setError (failureMessage err) st
      end in
    (events, setIsLoading false st).

End Submit.

End StudyAssistant.

(** ** The form ([components/StudyPlanForm]) *)

Module StudyPlanForm.

Local Open Scope string_scope.
Local Open Scope Z_scope.

Record State : Type := {
  subjects : list Subject;
  dailyHours : Q
}.

(** [useState] initial values *)
Definition initial : State :=
  {| subjects := [ {| id := "1"; name := ""; deadline := None |} ];
     dailyHours := 4 |}.

Definition setSubjects (value : list Subject) (st : State) : State :=
  {| subjects := value; dailyHours := dailyHours st |}.

(** [addSubject], with [Date.now()] read as [nowMs]. *)
Definition addSubject (nowMs : Z) (st : State) : State :=
  let newSubject := {| id := JSString.ofZ nowMs; name := ""; deadline := None |} in
  setSubjects (subjects st ++ [newSubject])%list st.

Definition removeSubject (id : string) (st : State) : State :=
  if JSNumber.gtb (JSArray.length (subjects st)) (JSNumber.Int 1) then
    setSubjects
      (filter (fun subject => negb (String.eqb (StudyPlanService.id subject) id))
              (subjects st))
      st
  else st.

(** The two ways in which the form calls [updateSubject]: with the text
    of the name field, and with the date picked in the calendar. *)
Inductive Update : Type :=
| Name (value : string)
| Deadline (value : Z).

Definition updateSubject (id : string) (update : Update) (st : State) : State :=
  setSubjects
    (map (fun subject =>
            if String.eqb (StudyPlanService.id subject) id then
              match update with
              | Name value =>
                  {| id := StudyPlanService.id subject; name := value;
                     deadline := deadline subject |}
              | Deadline value =>
                  {| id := StudyPlanService.id subject; name := name subject;
                     deadline := Some value |}
              end
            else subject)
         (subjects st))
    st.

Inductive Submission : Type :=
| Alert (message : string)
| Submit (data : StudyFormData).

Definition handleSubmit (st : State) : Submission :=
  let validSubjects :=
    filter (fun subject =>
              negb (String.eqb (JSText.trim (name subject)) "")
              && match deadline subject with
                 | Some _ => true
                 | None => false
                 end)
           (subjects st) in
  if JSNumber.strictEq (JSArray.length validSubjects) (JSNumber.Int 0) then
    Alert "Please add at least one subject with a deadline"
  else
    Submit {| StudyPlanService.subjects := validSubjects;
              StudyPlanService.dailyHours := dailyHours st |}.

End StudyPlanForm.

(** ** The dashboard ([components/StudyDashboard]) *)

Module StudyDashboard.

Local Open Scope string_scope.

(** [studyPlan.reduce((total, session) => total + session.hours, 0)] *)
Definition totalHours (studyPlan : list StudyPlanDay) : Q :=
  fold_left (fun total session => (total + hours session)%Q) studyPlan 0%Q.

(** [[...new Set(values)]]: every value once, in the order of first
    appearance. *)
Definition unique (values : list string) : list string :=
  fold_left
    (fun seen value =>
       if existsb (String.eqb value) seen then seen else (seen ++ [value])%list)
    values [].

Definition uniqueSubjects (studyPlan : list StudyPlanDay) : list string :=
  unique (map subject studyPlan).

Inductive Icon : Type :=
| Calculator
| Atom
| Beaker
| History
| BookText
| Code
| Lightbulb.

(** Get subject-specific icon based on subject name *)
Definition getSubjectIcon (subject : string) : Icon :=
  let subjectLower := JSText.trim (JSString.toLowerCase subject) in
  let includes := JSString.includes subjectLower in
  if includes "math" then Calculator
  else if includes "physics" then Atom
  else if includes "chemistry" then Beaker
  else if includes "biology" then Atom
  else if includes "history" || includes "social" then History
  else if includes "english" || includes "literature" || includes "lang" then BookText
  else if includes "computer" || includes "programming" || includes "coding" then Code
  else Lightbulb.

(** The badges of the subject column: one for each piece of
    [session.subject.split(',')], with its icon and its trimmed text. *)
Definition subjectBadges (session : StudyPlanDay) : list (Icon * string) :=
  map (fun subj => (getSubjectIcon subj, JSText.trim subj))
      (JSText.split "," (subject session)).

End StudyDashboard.

(** ** A service for the examples *)

Module ClientSample.

Local Open Scope string_scope.

(** The body of a response with one candidate of one part. *)
Definition body (generated : string) : GeminiClient.GeminiResponse :=
  {| GeminiClient.candidates :=
       [ {| GeminiClient.content :=
              {| GeminiClient.parts := [ {| GeminiClient.text := generated |} ];
                 GeminiClient.role := "model" |};
            GeminiClient.finishReason := "STOP";
            GeminiClient.index := 0 |} ] |}.

(** A service that answers every request with [generated]. *)
Definition answers (generated : string)
  : GeminiClient.Post -> JSResult GeminiClient.GeminiResponse :=
  fun _ => Returns (body generated).

End ClientSample.
(** * Properties *)

Local Open Scope string_scope.
Local Open Scope Z_scope.

(** ** The calendar *)

Section CalendarFacts.

Import JSDate.

Lemma YearFromDay_spec (d : Z) :
  DayFromYear (YearFromDay d) <= d < DayFromYear (YearFromDay d + 1).
Proof.
  unfold YearFromDay.
  destruct (Z.ltb_spec d (DayFromYear (1970 + 400 * d / 146097)));
    [| destruct (Z.leb_spec (DayFromYear (1970 + 400 * d / 146097 + 1)) d)];
    unfold DayFromYear in *; Z.to_euclidean_division_equations; lia.
Qed.

Lemma DayFromYear_succ (y : Z) :
  DayFromYear (y + 1) = DayFromYear y + DaysInYear y.
Proof.
  unfold DayFromYear, DaysInYear.
  destruct (Z.eqb_spec (y mod 4) 0); destruct (Z.eqb_spec (y mod 100) 0);
    destruct (Z.eqb_spec (y mod 400) 0); cbn [negb];
    Z.to_euclidean_division_equations; lia.
Qed.

Lemma DaysInYear_cases (y : Z) : DaysInYear y = 365 \/ DaysInYear y = 366.
Proof.
  unfold DaysInYear.
  destruct (y mod 4 =? 0), (y mod 100 =? 0), (y mod 400 =? 0); cbn; auto.
Qed.

Lemma InLeapYear_days (t : Z) : DaysInYear (YearFromTime t) = 365 + InLeapYear t.
Proof.
  unfold InLeapYear.
  destruct (DaysInYear_cases (YearFromTime t)) as [E | E]; rewrite E; reflexivity.
Qed.

Lemma DayWithinYear_range (t : Z) : 0 <= DayWithinYear t < 365 + InLeapYear t.
Proof.
  rewrite <- InLeapYear_days.
  unfold DayWithinYear, YearFromTime.
  pose proof (YearFromDay_spec (Day t)) as H.
  rewrite DayFromYear_succ in H. lia.
Qed.

Lemma MonthFromTime_range (t : Z) : 0 <= MonthFromTime t <= 11.
Proof.
  unfold MonthFromTime.
  repeat match goal with |- context [if ?b then _ else _] => destruct b end; lia.
Qed.

Lemma DateFromTime_range (t : Z) : 1 <= DateFromTime t <= 31.
Proof.
  pose proof (DayWithinYear_range t) as R.
  assert (L : InLeapYear t = 0 \/ InLeapYear t = 1)
    by (unfold InLeapYear; destruct (_ =? _); auto).
  unfold DateFromTime, MonthFromTime.
  repeat match goal with
         | |- context [if ?a <? ?b then _ else _] => destruct (Z.ltb_spec a b)
         end; cbn [monthStart]; lia.
Qed.

Lemma WeekDay_range (t : Z) : 0 <= WeekDay t <= 6.
Proof. unfold WeekDay. pose proof (Z.mod_pos_bound (Day t + 4) 7). lia. Qed.

(** Taking a date apart and putting it together again, [i] days later. *)
Lemma MakeDay_fields (t i : Z) :
  MakeDay (YearFromTime t) (MonthFromTime t) (DateFromTime t + i) = Day t + i.
Proof.
  pose proof (MonthFromTime_range t) as R.
  unfold MakeDay.
  rewrite (Z.div_small (MonthFromTime t) 12), (Z.mod_small (MonthFromTime t) 12) by lia.
  rewrite Z.add_0_r.
  fold (InLeapYear t).
  unfold DateFromTime, DayWithinYear. lia.
Qed.

Lemma Day_MakeDate (d t : Z) : Day (MakeDate d (TimeWithinDay t)) = d.
Proof.
  unfold Day, MakeDate, TimeWithinDay, msPerDay.
  Z.to_euclidean_division_equations; lia.
Qed.

Lemma Day_midnight (n : Z) : Day (n * msPerDay) = n.
Proof. unfold Day, msPerDay. apply Z.div_mul. lia. Qed.

Lemma LocalTime_UTC (tza t : Z) : LocalTime tza (UTC tza t) = t.
Proof. unfold LocalTime, UTC. lia. Qed.

(** [date.setDate(today.getDate() + i)] lands on the [i]-th day after
    today, also across the end of a month or of a year. *)
Lemma setDate_Day (tza d i : Z) :
  Day (LocalTime tza (setDate tza d (getDate tza d + i))) = Day (LocalTime tza d) + i.
Proof.
  unfold setDate, getDate.
  rewrite LocalTime_UTC, Day_MakeDate. apply MakeDay_fields.
Qed.

(** The calendar fields of a time value are those of its day. *)
Lemma fields_of_Day (t u : Z) :
  Day t = Day u ->
  YearFromTime t = YearFromTime u /\ MonthFromTime t = MonthFromTime u
  /\ DateFromTime t = DateFromTime u /\ WeekDay t = WeekDay u.
Proof.
  intros E.
  assert (Y : YearFromTime t = YearFromTime u) by (unfold YearFromTime; now rewrite E).
  assert (L : InLeapYear t = InLeapYear u) by (unfold InLeapYear; now rewrite Y).
  assert (W : DayWithinYear t = DayWithinYear u) by (unfold DayWithinYear; now rewrite E, Y).
  assert (M : MonthFromTime t = MonthFromTime u) by (unfold MonthFromTime; now rewrite W, L).
  repeat split; trivial.
  - unfold DateFromTime. now rewrite W, M, L.
  - unfold WeekDay. now rewrite E.
Qed.

Lemma DayFromYear_mono (y z : Z) : y <= z -> DayFromYear y <= DayFromYear z.
Proof. unfold DayFromYear. intros H. Z.to_euclidean_division_equations; lia. Qed.

Lemma YearFromDay_unique (y d : Z) :
  DayFromYear y <= d < DayFromYear (y + 1) -> YearFromDay d = y.
Proof.
  intros H. pose proof (YearFromDay_spec d) as S.
  destruct (Z.lt_total (YearFromDay d) y) as [L | [E | L]]; trivial.
  - pose proof (DayFromYear_mono (YearFromDay d + 1) y). lia.
  - pose proof (DayFromYear_mono (y + 1) (YearFromDay d)). lia.
Qed.

(** Decide the comparisons of the goal one at a time, innermost first,
    and drop the cases that contradict what is known. *)
Ltac decide_tests :=
  repeat (match goal with
          | |- context [?a <? ?b] =>
              lazymatch a with
              | context [if _ then _ else _] => fail
              | _ => idtac
              end;
              lazymatch b with
              | context [if _ then _ else _] => fail
              | _ => idtac
              end;
              destruct (Z.ltb_spec a b); try lia
          end;
          cbv beta iota; cbn [monthStart]).

(** The day after the day with number [n] bears the next date of the civil
    calendar, and the next day of the week. *)
Lemma dateOfDay_succ (n : Z) : dateOfDay (n + 1) = nextDate (dateOfDay n).
Proof.
  unfold dateOfDay, nextDate, DateFromTime, MonthFromTime, DayWithinYear, InLeapYear,
    YearFromTime, daysInMonth.
  rewrite !Day_midnight.
  pose proof (YearFromDay_spec n) as S.
  rewrite DayFromYear_succ in S.
  set (y := YearFromDay n) in *.
  destruct (Z.lt_ge_cases (n + 1) (DayFromYear y + DaysInYear y)) as [In | Out].
  - rewrite (YearFromDay_unique y (n + 1)) by (rewrite DayFromYear_succ; lia).
    replace (n + 1 - DayFromYear y) with (n - DayFromYear y + 1) by lia.
    set (d := n - DayFromYear y) in *.
    assert (R : 0 <= d /\ d + 1 < DaysInYear y) by lia. clearbody d. clear S In.
    destruct (DaysInYear_cases y) as [E | E]; rewrite E in *; cbn [Z.eqb Pos.eqb];
      decide_tests; repeat (f_equal; try lia).
  - assert (Y : YearFromDay (n + 1) = y + 1).
    { apply YearFromDay_unique. rewrite !DayFromYear_succ.
      destruct (DaysInYear_cases (y + 1)); lia. }
    rewrite Y, DayFromYear_succ.
    replace (n + 1 - (DayFromYear y + DaysInYear y)) with 0 by lia.
    set (d := n - DayFromYear y) in *.
    assert (R : d + 1 = DaysInYear y) by lia. clearbody d. clear S Out Y.
    destruct (DaysInYear_cases y) as [E | E], (DaysInYear_cases (y + 1)) as [E' | E'];
      rewrite E, ?E' in *; cbn [Z.eqb Pos.eqb];
      decide_tests; repeat (f_equal; try lia).
Qed.

Lemma WeekDay_succ (n : Z) :
  WeekDay ((n + 1) * msPerDay) = (WeekDay (n * msPerDay) + 1) mod 7.
Proof.
  unfold WeekDay. rewrite !Day_midnight.
  Z.to_euclidean_division_equations; lia.
Qed.

End CalendarFacts.

(** ** Sorting with a comparator *)

Section SortFacts.

Context {A : Type}.
Variable comparefn : A -> A -> JSNumber.number.

Lemma insert_Permutation (x : A) (l : list A) :
  Permutation (x :: l) (JSArray.insert comparefn x l).
Proof.
  induction l as [| y l IH]; cbn.
  - apply Permutation_refl.
  - destruct (JSArray.comesAfter comparefn x y).
    + rewrite perm_swap. now apply perm_skip.
    + apply Permutation_refl.
Qed.

Lemma sort_Permutation (l : list A) : Permutation l (JSArray.sort comparefn l).
Proof.
  induction l as [| x l IH]; cbn.
  - constructor.
  - rewrite <- insert_Permutation. now apply perm_skip.
Qed.

(** Items of one class of the comparator keep their order: an item is
    never moved past another item that it does not have to come after. *)
Lemma insert_filter (p : A -> bool) (x : A) (l : list A) :
  (forall y, p x = true -> p y = true -> JSArray.comesAfter comparefn x y = false) ->
  filter p (JSArray.insert comparefn x l) = filter p (x :: l).
Proof.
  intros Hp. induction l as [| y l IH]; cbn.
  - reflexivity.
  - destruct (JSArray.comesAfter comparefn x y) eqn:E; [| reflexivity].
    cbn in *. destruct (p x) eqn:Px, (p y) eqn:Py; rewrite IH; trivial.
    rewrite Hp in E; [discriminate | trivial | trivial].
Qed.

Lemma sort_stable (p : A -> bool) (l : list A) :
  (forall x y, p x = true -> p y = true -> JSArray.comesAfter comparefn x y = false) ->
  filter p (JSArray.sort comparefn l) = filter p l.
Proof.
  intros Hp. induction l as [| x l IH].
  - reflexivity.
  - change (JSArray.sort comparefn (x :: l))
      with (JSArray.insert comparefn x (JSArray.sort comparefn l)).
    rewrite insert_filter by (intros y; apply Hp). cbn. now rewrite IH.
Qed.

(** A comparator that orders the items: of two items at most one has to
    come after the other, and "may stay in front of" is transitive. *)
Hypothesis comesAfter_total :
  forall x y, JSArray.comesAfter comparefn x y = true ->
              JSArray.comesAfter comparefn y x = false.
Hypothesis comesAfter_trans :
  forall x y z, JSArray.comesAfter comparefn x y = false ->
                JSArray.comesAfter comparefn y z = false ->
                JSArray.comesAfter comparefn x z = false.

Lemma insert_sorted (x : A) (l : list A) :
  StronglySorted (fun a b => JSArray.comesAfter comparefn a b = false) l ->
  StronglySorted (fun a b => JSArray.comesAfter comparefn a b = false)
                 (JSArray.insert comparefn x l).
Proof.
  induction 1 as [| y l Hl IH Hy]; cbn.
  - repeat constructor.
  - destruct (JSArray.comesAfter comparefn x y) eqn:E.
    + constructor; [exact IH |].
      apply (Permutation_Forall (insert_Permutation x l)).
      constructor; [now apply comesAfter_total | exact Hy].
    + constructor; [now constructor |].
      constructor; [exact E |].
      eapply Forall_impl; [| exact Hy]. intros z Hz.
      now apply comesAfter_trans with y.
Qed.

Lemma sort_sorted (l : list A) :
  StronglySorted (fun a b => JSArray.comesAfter comparefn a b = false)
                 (JSArray.sort comparefn l).
Proof.
  induction l as [| x l IH]; cbn.
  - constructor.
  - now apply insert_sorted.
Qed.

Hypothesis comesAfter_irrefl : forall x, JSArray.comesAfter comparefn x x = false.

(** Two sorted arrangements in which every class of the comparator appears
    in the same order are the same list. *)
Lemma sorted_stable_unique (l1 l2 : list A) :
  StronglySorted (fun a b => JSArray.comesAfter comparefn a b = false) l1 ->
  StronglySorted (fun a b => JSArray.comesAfter comparefn a b = false) l2 ->
  (forall x,
      filter (fun y => negb (JSArray.comesAfter comparefn x y)
                       && negb (JSArray.comesAfter comparefn y x)) l1
      = filter (fun y => negb (JSArray.comesAfter comparefn x y)
                         && negb (JSArray.comesAfter comparefn y x)) l2) ->
  l1 = l2.
Proof.
  intros S1. revert l2.
  induction S1 as [| x l1 S1 IH Hx]; intros l2 S2 F.
  - destruct l2 as [| y l2]; trivial.
    specialize (F y). cbn in F. rewrite comesAfter_irrefl in F. discriminate F.
  - destruct S2 as [| y l2 S2 Hy].
    + specialize (F x). cbn in F. rewrite comesAfter_irrefl in F. discriminate F.
    + assert (E : x = y).
      { pose proof (F x) as Fx. cbn in Fx. rewrite comesAfter_irrefl in Fx.
        cbn in Fx. destruct (JSArray.comesAfter comparefn x y) eqn:XY; cbn in Fx.
        - (* [x] would have to come after [y], yet [y] occurs behind [x]. *)
          pose proof (F y) as Fy. cbn in Fy. rewrite comesAfter_irrefl, XY in Fy.
          cbn in Fy. rewrite andb_false_r in Fy.
          assert (I : In y (filter (fun z => negb (JSArray.comesAfter comparefn y z)
                                            && negb (JSArray.comesAfter comparefn z y)) l1))
            by (rewrite Fy; now left).
          apply filter_In in I. destruct I as (I & _).
          rewrite Forall_forall in Hx. rewrite (Hx y I) in XY. discriminate XY.
        - destruct (JSArray.comesAfter comparefn y x) eqn:YX; cbn in Fx.
          + assert (I : In x (filter (fun z => negb (JSArray.comesAfter comparefn x z)
                                              && negb (JSArray.comesAfter comparefn z x)) l2))
              by (rewrite <- Fx; now left).
            apply filter_In in I. destruct I as (I & _).
            rewrite Forall_forall in Hy. rewrite (Hy x I) in YX. discriminate YX.
          + now injection Fx. }
      subst y. f_equal. apply IH; trivial.
      intros z. specialize (F z). cbn in F.
      destruct (negb (JSArray.comesAfter comparefn z x)
                && negb (JSArray.comesAfter comparefn x z));
        [now injection F | exact F].
Qed.

(** Hence the outcome of [sort] does not depend on the sorting method: any
    sorted and stable arrangement of the items is the one computed here. *)
Lemma sort_unique (l sorted : list A) :
  StronglySorted (fun a b => JSArray.comesAfter comparefn a b = false) sorted ->
  (forall x,
      filter (fun y => negb (JSArray.comesAfter comparefn x y)
                       && negb (JSArray.comesAfter comparefn y x)) sorted
      = filter (fun y => negb (JSArray.comesAfter comparefn x y)
                         && negb (JSArray.comesAfter comparefn y x)) l) ->
  sorted = JSArray.sort comparefn l.
Proof.
  intros S F. apply sorted_stable_unique; [exact S | apply sort_sorted |].
  intros x. rewrite F. symmetry. apply sort_stable.
  intros a b Ha Hb.
  apply andb_true_iff in Ha, Hb. destruct Ha as (_ & Ha), Hb as (Hb & _).
  apply negb_true_iff in Ha, Hb. now apply comesAfter_trans with x.
Qed.

End SortFacts.

Lemma StronglySorted_weaken {A : Type} (R S : A -> A -> Prop) (l : list A) :
  (forall a b, R a b -> S a b) -> StronglySorted R l -> StronglySorted S l.
Proof.
  intros HRS. induction 1 as [| x l Hl IH Hx]; constructor; trivial.
  eapply Forall_impl; [| exact Hx]. intros b. apply HRS.
Qed.

Lemma StronglySorted_nth {A : Type} (R : A -> A -> Prop) (l : list A) :
  StronglySorted R l ->
  forall i j a b, (i < j)%nat -> nth_error l i = Some a -> nth_error l j = Some b -> R a b.
Proof.
  induction 1 as [| x l Hl IH Hx]; intros i j a b Hij Ha Hb.
  - destruct i; discriminate.
  - destruct j as [| j]; [lia |]. cbn in Hb.
    destruct i as [| i]; cbn in Ha.
    + injection Ha as <-. rewrite Forall_forall in Hx.
      apply Hx. now apply nth_error_In with j.
    + apply (IH i j); trivial; lia.
Qed.

(** ** Days until a deadline *)

Import JSNumber.

Lemma ceilDiv_spec (a b : Z) :
  0 < b -> b * (ceilDiv a b - 1) < a <= b * ceilDiv a b.
Proof.
  intros Hb. unfold ceilDiv.
  pose proof (Z.div_mod (- a) b) as E.
  pose proof (Z.mod_pos_bound (- a) b Hb) as R.
  nia.
Qed.

Lemma ceilDiv_mono (a a' b : Z) : 0 < b -> a <= a' -> ceilDiv a b <= ceilDiv a' b.
Proof.
  intros Hb Ha. unfold ceilDiv.
  assert (- a' / b <= - a / b) by (apply Z.div_le_mono; lia). lia.
Qed.

Lemma ceilDiv_nonpos (a b : Z) : 0 < b -> a <= 0 -> ceilDiv a b <= 0.
Proof.
  intros Hb Ha. unfold ceilDiv.
  assert (0 <= - a / b) by (apply Z.div_pos; lia). lia.
Qed.

Lemma getDaysUntilDeadline_Some (host : Host) (d : Z) :
  getDaysUntilDeadline host (Some d)
  = Int (Z.max 0 (ceilDiv (d - now host) JSDate.msPerDay)).
Proof.
  unfold getDaysUntilDeadline, JSDate.getTime.
  change (1000 * 60 * 60 * 24) with JSDate.msPerDay.
  destruct (Z.ltb_spec 0 (ceilDiv (d - now host) JSDate.msPerDay)); f_equal; lia.
Qed.

(** The count is [Infinity] or a natural number, nothing else. *)
Lemma getDaysUntilDeadline_cases (host : Host) (d : option Z) :
  getDaysUntilDeadline host d = PosInfinity
  \/ exists n, 0 <= n /\ getDaysUntilDeadline host d = Int n.
Proof.
  destruct d as [d |]; [right | now left].
  rewrite getDaysUntilDeadline_Some. eexists; split; [| reflexivity]. lia.
Qed.

Lemma getDaysUntilDeadline_mono (host : Host) (d d' : Z) :
  d <= d' ->
  leb (getDaysUntilDeadline host (Some d)) (getDaysUntilDeadline host (Some d')) = true.
Proof.
  intros H. rewrite !getDaysUntilDeadline_Some. cbn.
  apply Z.leb_le.
  pose proof (ceilDiv_mono (d - now host) (d' - now host) JSDate.msPerDay) as M.
  unfold JSDate.msPerDay in *. lia.
Qed.

Lemma getDaysUntilDeadline_passed (host : Host) (d : Z) :
  d <= now host -> getDaysUntilDeadline host (Some d) = Int 0.
Proof.
  intros H. rewrite getDaysUntilDeadline_Some. f_equal.
  pose proof (ceilDiv_nonpos (d - now host) JSDate.msPerDay) as M.
  unfold JSDate.msPerDay in *. lia.
Qed.

(** The comparator [daysA - daysB] asks for a swap exactly when the first
    subject has more days left; two subjects without a deadline give [NaN],
    which the sort reads as "equal". *)
Lemma comesAfter_byDeadline (host : Host) (a b : Subject) :
  JSArray.comesAfter (byDeadline host) a b
  = negb (leb (getDaysUntilDeadline host (deadline a))
              (getDaysUntilDeadline host (deadline b))).
Proof.
  unfold JSArray.comesAfter, byDeadline.
  destruct (getDaysUntilDeadline_cases host (deadline a)) as [-> | (m & _ & ->)],
           (getDaysUntilDeadline_cases host (deadline b)) as [-> | (n & _ & ->)];
    cbn; trivial.
  destruct (Z.ltb_spec 0 (m - n)), (Z.leb_spec m n); trivial; lia.
Qed.

Lemma leb_days_total (host : Host) (d e : option Z) :
  leb (getDaysUntilDeadline host d) (getDaysUntilDeadline host e) = false ->
  leb (getDaysUntilDeadline host e) (getDaysUntilDeadline host d) = true.
Proof.
  destruct (getDaysUntilDeadline_cases host d) as [-> | (m & _ & ->)],
           (getDaysUntilDeadline_cases host e) as [-> | (n & _ & ->)];
    cbn; trivial; try discriminate.
  rewrite Z.leb_gt, Z.leb_le. lia.
Qed.

Lemma leb_days_trans (host : Host) (d e f : option Z) :
  leb (getDaysUntilDeadline host d) (getDaysUntilDeadline host e) = true ->
  leb (getDaysUntilDeadline host e) (getDaysUntilDeadline host f) = true ->
  leb (getDaysUntilDeadline host d) (getDaysUntilDeadline host f) = true.
Proof.
  destruct (getDaysUntilDeadline_cases host d) as [-> | (m & _ & ->)],
           (getDaysUntilDeadline_cases host e) as [-> | (n & _ & ->)],
           (getDaysUntilDeadline_cases host f) as [-> | (k & _ & ->)];
    cbn; trivial; try discriminate.
  rewrite !Z.leb_le. lia.
Qed.

Lemma leb_days_antisym (host : Host) (d e : option Z) :
  leb (getDaysUntilDeadline host d) (getDaysUntilDeadline host e) = true ->
  leb (getDaysUntilDeadline host e) (getDaysUntilDeadline host d) = true ->
  getDaysUntilDeadline host d = getDaysUntilDeadline host e.
Proof.
  destruct (getDaysUntilDeadline_cases host d) as [-> | (m & _ & ->)],
           (getDaysUntilDeadline_cases host e) as [-> | (n & _ & ->)];
    cbn; trivial; try discriminate.
  rewrite !Z.leb_le. intros. f_equal. lia.
Qed.

Lemma sortedSubjects_ascending (host : Host) (data : StudyFormData) :
  StronglySorted
    (fun a b => leb (getDaysUntilDeadline host (deadline a))
                    (getDaysUntilDeadline host (deadline b)) = true)
    (sortedSubjects host data).
Proof.
  apply StronglySorted_weaken
    with (R := fun a b => JSArray.comesAfter (byDeadline host) a b = false).
  - intros a b H. rewrite comesAfter_byDeadline in H.
    now apply negb_false_iff in H.
  - apply sort_sorted.
    + intros x y. rewrite !comesAfter_byDeadline, negb_true_iff, negb_false_iff.
      apply leb_days_total.
    + intros x y z. rewrite !comesAfter_byDeadline, !negb_false_iff.
      apply leb_days_trans.
Qed.

Lemma strictEq_eq (a b : number) : strictEq a b = true -> a = b.
Proof.
  destruct a, b; cbn; try discriminate; trivial.
  intros H. apply Z.eqb_eq in H. now subst.
Qed.

Lemma leb_days_refl (host : Host) (d : option Z) :
  leb (getDaysUntilDeadline host d) (getDaysUntilDeadline host d) = true.
Proof.
  destruct (getDaysUntilDeadline_cases host d) as [-> | (m & _ & ->)]; cbn; trivial.
  apply Z.leb_refl.
Qed.

Lemma sortedSubjects_stable (host : Host) (data : StudyFormData) (k : number) :
  filter (fun s => strictEq (getDaysUntilDeadline host (deadline s)) k)
         (sortedSubjects host data)
  = filter (fun s => strictEq (getDaysUntilDeadline host (deadline s)) k)
           (subjects data).
Proof.
  apply sort_stable. intros x y Hx Hy.
  apply strictEq_eq in Hx, Hy.
  rewrite comesAfter_byDeadline, negb_false_iff, Hx, <- Hy.
  apply leb_days_refl.
Qed.

(** Any arrangement of the subjects that is ascending in the days left and
    keeps subjects with equal days in their input order is the one computed
    by [sortedSubjects]: the result does not depend on the sorting method of
    the engine. *)
Lemma sortedSubjects_unique (host : Host) (data : StudyFormData) (sorted : list Subject) :
  StronglySorted
    (fun a b => leb (getDaysUntilDeadline host (deadline a))
                    (getDaysUntilDeadline host (deadline b)) = true)
    sorted ->
  (forall k,
      filter (fun s => strictEq (getDaysUntilDeadline host (deadline s)) k) sorted
      = filter (fun s => strictEq (getDaysUntilDeadline host (deadline s)) k)
               (subjects data)) ->
  sorted = sortedSubjects host data.
Proof.
  intros S F.
  assert (Class : forall x y,
             negb (JSArray.comesAfter (byDeadline host) x y)
             && negb (JSArray.comesAfter (byDeadline host) y x)
             = strictEq (getDaysUntilDeadline host (deadline y))
                        (getDaysUntilDeadline host (deadline x))).
  { intros x y. rewrite !comesAfter_byDeadline, !negb_involutive.
    destruct (getDaysUntilDeadline_cases host (deadline x)) as [-> | (m & _ & ->)],
             (getDaysUntilDeadline_cases host (deadline y)) as [-> | (n & _ & ->)];
      cbn; trivial.
    destruct (Z.leb_spec m n), (Z.leb_spec n m), (Z.eqb_spec n m); trivial; lia. }
  apply sort_unique.
  - intros x y. rewrite !comesAfter_byDeadline, negb_true_iff, negb_false_iff.
    apply leb_days_total.
  - intros x y z. rewrite !comesAfter_byDeadline, !negb_false_iff.
    apply leb_days_trans.
  - intros x. rewrite comesAfter_byDeadline, negb_false_iff. apply leb_days_refl.
  - apply StronglySorted_weaken with (2 := S).
    intros a b H. now rewrite comesAfter_byDeadline, negb_false_iff.
  - intros x.
    rewrite (filter_ext _ _ (Class x) sorted), (filter_ext _ _ (Class x) (subjects data)).
    apply F.
Qed.

(** ** Claim C7 *)

(** C7, refuted as stated: with the clock of [Sample.host], a report that
    was due yesterday is listed before an essay that was due two days ago
    when the form lists them in that order.  Both deadlines floor to zero
    days, the comparator answers zero, and the stable sort keeps the input
    order, so the subject with the earlier deadline comes later. *)
Lemma earlier_deadline_may_come_later :
  ~ (forall (host : Host) (data : StudyFormData) (i j : nat) (a b : Subject) (da db : Z),
        nth_error (sortedSubjects host data) i = Some a ->
        nth_error (sortedSubjects host data) j = Some b ->
        deadline a = Some da -> deadline b = Some db -> da < db ->
        (i <= j)%nat).
Proof.
  intros H.
  specialize (H Sample.host
                {| subjects := [Sample.lateReport; Sample.lateEssay]; dailyHours := 4 |}
                1%nat 0%nat Sample.lateEssay Sample.lateReport
                (now Sample.host + -2 * JSDate.msPerDay)
                (now Sample.host + -1 * JSDate.msPerDay)
                eq_refl eq_refl eq_refl eq_refl).
  cbn in H. lia.
Qed.

(** C7, as amended.  [sortedSubjects] is the expression with which both
    generation paths start: its value feeds the prompt of the completion
    call and the fallback planner.  It is a stable sort of the submitted
    subjects, ascending by days until the deadline, where a missing
    deadline counts as [Infinity] (after every dated subject) and a passed
    deadline as zero days.  Of two dated subjects the one with the earlier
    deadline appears no later than the other, unless both have the same
    number of days left; subjects with the same number of days left keep
    the order of the input. *)
Theorem sortedSubjects_by_days_until_deadline
    (host : Host) (gemini : Request -> JSResult Response.t) (data : StudyFormData) :
  let daysOf := fun s : Subject => getDaysUntilDeadline host (deadline s) in
  let sorted := sortedSubjects host data in
  (exists first,
      callGemini host gemini data
      = gemini (completionRequest (prompt host data (subjectInfo host sorted) first)))
  /\ generateFallbackStudyPlan host data
     = (studyPlan <- mapM (planDay host data (availableSubjects host sorted))
                          (JSArray.withIndex (getNextFiveDays host)) ;;
        Returns {| studyPlan := studyPlan; motivationalTip := tip |})
  /\ Permutation (subjects data) sorted
  /\ (forall i j a b,
         (i < j)%nat -> nth_error sorted i = Some a -> nth_error sorted j = Some b ->
         leb (daysOf a) (daysOf b) = true)
  /\ (forall k,
         filter (fun s => strictEq (daysOf s) k) sorted
         = filter (fun s => strictEq (daysOf s) k) (subjects data))
  /\ (forall s, deadline s = None -> daysOf s = PosInfinity)
  /\ (forall s d, deadline s = Some d -> d <= now host -> daysOf s = Int 0)
  /\ (forall i j a b da,
         nth_error sorted i = Some a -> nth_error sorted j = Some b ->
         deadline a = Some da -> deadline b = None -> (i < j)%nat)
  /\ (forall i j a b da db,
         nth_error sorted i = Some a -> nth_error sorted j = Some b ->
         deadline a = Some da -> deadline b = Some db -> da < db ->
         (i <= j)%nat \/ daysOf a = daysOf b).
Proof.
  intros daysOf sorted.
  pose proof (StronglySorted_nth _ _ (sortedSubjects_ascending host data)) as Asc.
  fold sorted in Asc.
  repeat apply conj.
  - eexists. reflexivity.
  - reflexivity.
  - apply sort_Permutation.
  - exact Asc.
  - intros k. apply sortedSubjects_stable.
  - intros s E. unfold daysOf. now rewrite E.
  - intros s d E H. unfold daysOf. rewrite E. now apply getDaysUntilDeadline_passed.
  - intros i j a b da Ha Hb Da Db.
    destruct (Nat.lt_total i j) as [L | [-> | L]]; trivial.
    + rewrite Ha in Hb. injection Hb as <-. congruence.
    + specialize (Asc j i b a L Hb Ha). cbn beta in Asc.
      rewrite Da, Db, getDaysUntilDeadline_Some in Asc. discriminate.
  - intros i j a b da db Ha Hb Da Db Lt.
    destruct (Nat.le_gt_cases i j) as [L | L]; [now left | right].
    specialize (Asc j i b a L Hb Ha). cbn beta in Asc.
    apply leb_days_antisym; trivial.
    unfold daysOf. rewrite Da, Db. apply getDaysUntilDeadline_mono. lia.
Qed.

(** The amended C7 at work on four subjects, one of them without a
    deadline: history (10 days) before the undated reading, and math
    (5 days) before history. *)
Lemma sortedSubjects_by_days_until_deadline_witness :
  let data := {| subjects := [Sample.reading; Sample.essay; Sample.math; Sample.history];
                 dailyHours := 4 |} in
  sortedSubjects Sample.host data
  = [Sample.math; Sample.history; Sample.essay; Sample.reading]
  /\ (1 < 3)%nat
  /\ ((0 <= 1)%nat
      \/ getDaysUntilDeadline Sample.host (deadline Sample.math)
         = getDaysUntilDeadline Sample.host (deadline Sample.history)).
Proof.
  intros data.
  destruct (sortedSubjects_by_days_until_deadline Sample.host Sample.offline data)
    as (_ & _ & _ & _ & _ & _ & _ & Undated & Dated).
  split; [reflexivity | split].
  - apply (Undated 1%nat 3%nat Sample.history Sample.reading
                   (now Sample.host + 10 * JSDate.msPerDay));
      reflexivity.
  - apply (Dated 0%nat 1%nat Sample.math Sample.history
                 (now Sample.host + 5 * JSDate.msPerDay)
                 (now Sample.host + 10 * JSDate.msPerDay));
      reflexivity.
Defined.

(** ** The five-day window *)

Lemma getNextFiveDays_calendar (host : Host) :
  getNextFiveDays host
  = map (fun i => calendarDay (localToday host + i)) [0; 1; 2; 3; 4].
Proof.
  unfold getNextFiveDays. apply map_ext. intros i.
  pose proof (setDate_Day (LocalTZA host) (now host) i) as D.
  fold (localToday host) in D. rewrite <- (Day_midnight (localToday host + i)) in D.
  destruct (fields_of_Day _ _ D) as (Y & M & T & W).
  set (date := JSDate.setDate _ _ _) in *. cbv zeta.
  unfold calendarDay, JSDate.dateOfDay, JSDate.getDay, JSDate.getMonth,
    JSDate.getFullYear.
  unfold JSDate.getDate.
  now rewrite Y, M, T, W.
Qed.

(** The labels of a calendar day are real names, never ["undefined"]. *)
Lemma calendarDay_labels (n : Z) :
  In (DayInfo.day (calendarDay n)) days
  /\ exists month, In month months
       /\ DayInfo.date (calendarDay n)
          = (month ++ " " ++ JSString.ofZ (JSDate.DateFromTime (n * JSDate.msPerDay))
               ++ ", " ++ JSString.ofZ (JSDate.YearFromTime (n * JSDate.msPerDay)))%string.
Proof.
  unfold calendarDay, JSDate.dateOfDay. cbn [DayInfo.day DayInfo.date].
  pose proof (WeekDay_range (n * JSDate.msPerDay)) as W.
  pose proof (MonthFromTime_range (n * JSDate.msPerDay)) as M.
  split.
  - assert (C : In (JSDate.WeekDay (n * JSDate.msPerDay)) [0; 1; 2; 3; 4; 5; 6])
      by (cbn; lia).
    cbn in C. decompose [or] C; try contradiction;
      match goal with E : _ = JSDate.WeekDay _ |- _ => rewrite <- E end;
      cbn; tauto.
  - eexists; split; [| reflexivity].
    assert (C : In (JSDate.MonthFromTime (n * JSDate.msPerDay))
                   [0; 1; 2; 3; 4; 5; 6; 7; 8; 9; 10; 11])
      by (cbn; lia).
    cbn in C. decompose [or] C; try contradiction;
      match goal with E : _ = JSDate.MonthFromTime _ |- _ => rewrite <- E end;
      cbn; tauto.
Qed.

(** ** The fallback planner, day by day *)

Lemma availableSubjects_nil (host : Host) :
  availableSubjects host []
  = [ {| id := "1"; name := "General Study"; deadline := Some (now host) |} ].
Proof. reflexivity. Qed.

Lemma availableSubjects_cons (host : Host) (s : Subject) (l : list Subject) :
  availableSubjects host (s :: l) = s :: l.
Proof.
  unfold availableSubjects, JSArray.length, gtb.
  destruct (Z.ltb_spec 0 (Z.of_nat (List.length (s :: l)))) as [_ | H]; trivial.
  cbn [List.length] in H. lia.
Qed.

Lemma availableSubjects_nonempty (host : Host) (l : list Subject) :
  availableSubjects host l <> [].
Proof.
  destruct l; [rewrite availableSubjects_nil | rewrite availableSubjects_cons];
    discriminate.
Qed.

Lemma sortedSubjects_nil (host : Host) (data : StudyFormData) :
  subjects data = [] -> sortedSubjects host data = [].
Proof. unfold sortedSubjects. now intros ->. Qed.

(** [available[k % available.length]] on a non-empty array. *)
Lemma item_modulo (available : list Subject) (k : nat) :
  available <> [] ->
  exists s,
    nth_error available (k mod List.length available) = Some s
    /\ item available (rem (Int (Z.of_nat k)) (JSArray.length available)) = Returns s.
Proof.
  intros NE.
  assert (L : (0 < List.length available)%nat)
    by (destruct available; [contradiction | cbn; lia]).
  assert (B : (k mod List.length available < List.length available)%nat)
    by (apply Nat.mod_upper_bound; lia).
  destruct (nth_error available (k mod List.length available)) as [s |] eqn:E;
    [| apply nth_error_None in E; lia].
  exists s. split; trivial.
  unfold item, JSArray.length, rem, JSArray.get.
  destruct (Z.eqb_spec (Z.of_nat (List.length available)) 0) as [Z0 | _]; [lia |].
  rewrite Z.rem_mod_nonneg by lia.
  rewrite <- Nat2Z.inj_mod.
  destruct (Z.ltb_spec (Z.of_nat (k mod List.length available)) 0); [lia |].
  now rewrite Nat2Z.id, E.
Qed.

Lemma rem2_even (i : nat) : (Z.rem (Z.of_nat i) 2 =? 0) = Nat.even i.
Proof.
  rewrite Z.rem_mod_nonneg by lia.
  destruct (Nat.even i) eqn:E.
  - apply Nat.even_spec in E. destruct E as (m & ->).
    apply Z.eqb_eq. rewrite Nat2Z.inj_mul, Z.mul_comm. apply Z.mod_mul. lia.
  - apply Z.eqb_neq.
    assert (O : Nat.odd i = true) by (unfold Nat.odd; now rewrite E).
    apply Nat.odd_spec in O. destruct O as (m & ->).
    rewrite Nat2Z.inj_add, Nat2Z.inj_mul, Z.add_comm, Z.mul_comm, Z.mod_add; cbn; lia.
Qed.

Lemma isMultiSubjectDay_spec (available : list Subject) (i : nat) :
  isMultiSubjectDay available (Z.of_nat i)
  = Nat.even i && (2 <=? List.length available)%nat.
Proof.
  unfold isMultiSubjectDay, rem, strictEq, JSArray.length, gtb. cbn [Z.eqb].
  f_equal.
  - apply rem2_even.
  - destruct (Z.ltb_spec 1 (Z.of_nat (List.length available))),
             (Nat.leb_spec 2 (List.length available)); trivial; lia.
Qed.

Lemma planDay_cases (host : Host) (data : StudyFormData) (available : list Subject)
    (dayInfo : DayInfo.t) (i : nat) :
  available <> [] ->
  let n := List.length available in
  if Nat.even i && (2 <=? n)%nat
  then exists s1 s2,
      nth_error available (i mod n) = Some s1
      /\ nth_error available ((i + 1) mod n) = Some s2
      /\ planDay host data available (dayInfo, Z.of_nat i)
         = Returns (multiSubjectDay host data dayInfo (Z.of_nat i) s1 s2)
  else exists s,
      nth_error available (i mod n) = Some s
      /\ planDay host data available (dayInfo, Z.of_nat i)
         = Returns (singleSubjectDay host data dayInfo (Z.of_nat i) s).
Proof.
  intros NE n. unfold planDay. rewrite isMultiSubjectDay_spec. fold n.
  destruct (item_modulo available i NE) as (s1 & N1 & I1).
  destruct (item_modulo available (i + 1) NE) as (s2 & N2 & I2).
  replace (Z.of_nat (i + 1)) with (Z.of_nat i + 1) in I2 by lia.
  destruct (Nat.even i && (2 <=? n)%nat).
  - exists s1, s2. rewrite I1, I2. auto.
  - exists s1. rewrite I1. auto.
Qed.

Lemma planDay_total (host : Host) (data : StudyFormData) (available : list Subject)
    (dayInfo : DayInfo.t) (i : nat) :
  available <> [] ->
  exists d, planDay host data available (dayInfo, Z.of_nat i) = Returns d.
Proof.
  intros NE. pose proof (planDay_cases host data available dayInfo i NE) as C.
  cbv zeta in C.
  destruct (Nat.even i && _) in C;
    [destruct C as (? & ? & _ & _ & ->) | destruct C as (? & _ & ->)]; eauto.
Qed.

(** The fallback planner returns five days; the day at position [i] is the
    one the callback builds for the [i]-th calendar day from today. *)
Lemma generateFallbackStudyPlan_days (host : Host) (data : StudyFormData) :
  exists d0 d1 d2 d3 d4,
    generateFallbackStudyPlan host data
    = Returns {| studyPlan := [d0; d1; d2; d3; d4]; motivationalTip := tip |}
    /\ forall i d,
        nth_error [d0; d1; d2; d3; d4] i = Some d ->
        (i < 5)%nat
        /\ planDay host data (availableSubjects host (sortedSubjects host data))
             (calendarDay (localToday host + Z.of_nat i), Z.of_nat i)
           = Returns d.
Proof.
  unfold generateFallbackStudyPlan. rewrite getNextFiveDays_calendar.
  set (available := availableSubjects host (sortedSubjects host data)).
  assert (NE : available <> []) by apply availableSubjects_nonempty.
  change (JSArray.withIndex (map (fun i => calendarDay (localToday host + i)) [0; 1; 2; 3; 4]))
    with [ (calendarDay (localToday host + Z.of_nat 0), Z.of_nat 0);
           (calendarDay (localToday host + Z.of_nat 1), Z.of_nat 1);
           (calendarDay (localToday host + Z.of_nat 2), Z.of_nat 2);
           (calendarDay (localToday host + Z.of_nat 3), Z.of_nat 3);
           (calendarDay (localToday host + Z.of_nat 4), Z.of_nat 4) ].
  destruct (planDay_total host data available (calendarDay (localToday host + Z.of_nat 0)) 0 NE) as (d0 & E0).
  destruct (planDay_total host data available (calendarDay (localToday host + Z.of_nat 1)) 1 NE) as (d1 & E1).
  destruct (planDay_total host data available (calendarDay (localToday host + Z.of_nat 2)) 2 NE) as (d2 & E2).
  destruct (planDay_total host data available (calendarDay (localToday host + Z.of_nat 3)) 3 NE) as (d3 & E3).
  destruct (planDay_total host data available (calendarDay (localToday host + Z.of_nat 4)) 4 NE) as (d4 & E4).
  exists d0, d1, d2, d3, d4.
  cbn [mapM]. rewrite E0, E1, E2, E3, E4. cbn [bind]. split; [reflexivity |].
  intros i d H.
  destruct i as [| [| [| [| [| i]]]]]; cbn in H;
    try (injection H as <-; split; [lia | assumption]).
  destruct i; discriminate.
Qed.

Lemma fallback_day (host : Host) (data : StudyFormData) (plan : StudyPlanResult)
    (i : nat) (d : StudyPlanDay) :
  generateFallbackStudyPlan host data = Returns plan ->
  nth_error (studyPlan plan) i = Some d ->
  (i < 5)%nat
  /\ planDay host data (availableSubjects host (sortedSubjects host data))
       (calendarDay (localToday host + Z.of_nat i), Z.of_nat i)
     = Returns d.
Proof.
  destruct (generateFallbackStudyPlan_days host data)
    as (d0 & d1 & d2 & d3 & d4 & E & Days).
  rewrite E. intros [= <-]. apply Days.
Qed.

(** The shape of the day at position [i] of a fallback plan. *)
Lemma fallback_day_cases (host : Host) (data : StudyFormData) (plan : StudyPlanResult)
    (i : nat) (d : StudyPlanDay) :
  generateFallbackStudyPlan host data = Returns plan ->
  nth_error (studyPlan plan) i = Some d ->
  let available := availableSubjects host (sortedSubjects host data) in
  let n := List.length available in
  let dayInfo := calendarDay (localToday host + Z.of_nat i) in
  if Nat.even i && (2 <=? n)%nat
  then exists s1 s2,
      nth_error available (i mod n) = Some s1
      /\ nth_error available ((i + 1) mod n) = Some s2
      /\ d = multiSubjectDay host data dayInfo (Z.of_nat i) s1 s2
  else exists s,
      nth_error available (i mod n) = Some s
      /\ d = singleSubjectDay host data dayInfo (Z.of_nat i) s.
Proof.
  intros G N available n dayInfo.
  destruct (fallback_day host data plan i d G N) as (_ & P). fold available dayInfo in P.
  pose proof (planDay_cases host data available dayInfo i
                (availableSubjects_nonempty host _)) as C.
  cbv zeta in C. fold n in C.
  destruct (Nat.even i && (2 <=? n)%nat).
  - destruct C as (s1 & s2 & N1 & N2 & E). exists s1, s2. intuition congruence.
  - destruct C as (s & N1 & E). exists s. intuition congruence.
Qed.

Lemma planDay_label (host : Host) (data : StudyFormData) (available : list Subject)
    (dayInfo : DayInfo.t) (i : nat) (d : StudyPlanDay) :
  available <> [] ->
  planDay host data available (dayInfo, Z.of_nat i) = Returns d ->
  {| DayInfo.day := day d; DayInfo.date := date d |} = dayInfo.
Proof.
  intros NE P. pose proof (planDay_cases host data available dayInfo i NE) as C.
  cbv zeta in C. rewrite P in C.
  destruct (Nat.even i && _) in C;
    [destruct C as (? & ? & _ & _ & [= ->]) | destruct C as (? & _ & [= ->])];
    now destruct dayInfo.
Qed.

(** ** A plan without subjects *)

Lemma placeholder_priority (host : Host) :
  getPriorityByDeadline host
    {| id := "1"; name := "General Study"; deadline := Some (now host) |} = high.
Proof.
  unfold getPriorityByDeadline. cbn [deadline].
  rewrite getDaysUntilDeadline_passed by lia. reflexivity.
Qed.

Lemma planDay_placeholder (host : Host) (data : StudyFormData) (i : Z) :
  In i [0; 1; 2; 3; 4] ->
  planDay host data
    [ {| id := "1"; name := "General Study"; deadline := Some (now host) |} ]
    (calendarDay (localToday host + i), i)
  = Returns (generalStudyDay host (dailyHours data) i).
Proof.
  intros H.
  assert (E : generalStudyDay host (dailyHours data) i
              = singleSubjectDay host data (calendarDay (localToday host + i)) i
                  {| id := "1"; name := "General Study"; deadline := Some (now host) |}).
  { unfold singleSubjectDay. rewrite placeholder_priority.
    cbn in H. decompose [or] H; try contradiction; subst i; reflexivity. }
  rewrite E.
  cbn in H. decompose [or] H; try contradiction; subst i; reflexivity.
Qed.

Lemma fallback_without_subjects (host : Host) (h : Q) :
  generateFallbackStudyPlan host {| subjects := []; dailyHours := h |}
  = Returns {| studyPlan := map (generalStudyDay host h) [0; 1; 2; 3; 4];
               motivationalTip := tip |}.
Proof.
  unfold generateFallbackStudyPlan.
  rewrite getNextFiveDays_calendar, sortedSubjects_nil, availableSubjects_nil by reflexivity.
  set (data := {| subjects := []; dailyHours := h |}).
  cbn [map JSArray.withIndex combine seq List.length Z.of_nat Pos.of_succ_nat Pos.succ mapM].
  rewrite !planDay_placeholder by (cbn; tauto).
  reflexivity.
Qed.

(** ** Claim C3 *)

(** C3.  For every list of subjects, the empty one included, and every hour
    budget the fallback planner returns a plan (it does not raise); the
    plan has exactly five days, labelled with today and the four calendar
    days after it, in order, where each day number bears the date that
    follows the date of the day before in the civil calendar.  When no
    subject is submitted, the single placeholder subject "General Study"
    stands in, and every day is about it. *)
Theorem generateFallbackStudyPlan_five_days (host : Host) :
  (forall data : StudyFormData,
      exists plan,
        generateFallbackStudyPlan host data = Returns plan
        /\ List.length (studyPlan plan) = 5%nat
        /\ map (fun d => {| DayInfo.day := day d; DayInfo.date := date d |})
               (studyPlan plan)
           = map (fun i => calendarDay (localToday host + i)) [0; 1; 2; 3; 4])
  /\ (forall n : Z, JSDate.dateOfDay (n + 1) = JSDate.nextDate (JSDate.dateOfDay n))
  /\ (forall h : Q,
         let data := {| subjects := []; dailyHours := h |} in
         availableSubjects host (sortedSubjects host data)
         = [ {| id := "1"; name := "General Study"; deadline := Some (now host) |} ]
         /\ exists plan,
             generateFallbackStudyPlan host data = Returns plan
             /\ List.length (studyPlan plan) = 5%nat
             /\ Forall (fun d => subject d = "General Study"%string) (studyPlan plan)).
Proof.
  split.
  - intros data.
    destruct (generateFallbackStudyPlan_days host data)
      as (d0 & d1 & d2 & d3 & d4 & E & Days).
    eexists. split; [exact E |]. split; [reflexivity |].
    pose proof (availableSubjects_nonempty host (sortedSubjects host data)) as NE.
    cbn [studyPlan map].
    rewrite (planDay_label _ _ _ _ 0 d0 NE (proj2 (Days 0%nat d0 eq_refl))).
    rewrite (planDay_label _ _ _ _ 1 d1 NE (proj2 (Days 1%nat d1 eq_refl))).
    rewrite (planDay_label _ _ _ _ 2 d2 NE (proj2 (Days 2%nat d2 eq_refl))).
    rewrite (planDay_label _ _ _ _ 3 d3 NE (proj2 (Days 3%nat d3 eq_refl))).
    rewrite (planDay_label _ _ _ _ 4 d4 NE (proj2 (Days 4%nat d4 eq_refl))).
    reflexivity.
  - split; [exact dateOfDay_succ |].
    intros h data. split; [reflexivity |].
    eexists. split; [apply fallback_without_subjects |]. split; [reflexivity |].
    cbn [studyPlan map]. repeat constructor.
Qed.

(** ** Claim C10 *)

(** C10.  Without subjects, each of the five fallback days is a
    single-subject day for the placeholder "General Study", whose deadline
    is the moment of the call: the priority is high, the hours are
    [ceil(dailyHours * 0.8)], and the notes of the day at index 4 end with
    " - prepare for assessment". *)
Theorem generateFallbackStudyPlan_without_subjects (host : Host) (h : Q) :
  let data := {| subjects := []; dailyHours := h |} in
  let placeholder :=
    {| id := "1"; name := "General Study"; deadline := Some (now host) |} in
  availableSubjects host (sortedSubjects host data) = [placeholder]
  /\ getDaysUntilDeadline host (deadline placeholder) = Int 0
  /\ getPriorityByDeadline host placeholder = high
  /\ (forall i, isMultiSubjectDay [placeholder] i = false)
  /\ generateFallbackStudyPlan host data
     = Returns
         {| studyPlan :=
              map (fun i =>
                     {| day := DayInfo.day (calendarDay (localToday host + i));
                        date := DayInfo.date (calendarDay (localToday host + i));
                        subject := "General Study";
                        hours := inject_Z (Qceiling (h * (8 # 10)));
                        notes :=
                          getSubjectNotes "General Study"
                          ++ (if i =? 4 then " - prepare for assessment" else "");
                        priority := high;
                        resources := Some (getSubjectResources "General Study") |})
                  [0; 1; 2; 3; 4];
            motivationalTip := tip |}.
Proof.
  intros data placeholder. repeat apply conj.
  - reflexivity.
  - apply getDaysUntilDeadline_passed. cbn. lia.
  - apply placeholder_priority.
  - intros i. unfold isMultiSubjectDay. apply andb_false_r.
  - apply fallback_without_subjects.
Qed.

(** ** Claim C8 *)

(** C8.  The day at index [i] (0..4) of a fallback plan is a multi-subject
    day exactly when [i] is even and at least two subjects are available.
    A multi-subject day combines the subjects at positions [i mod n] and
    [(i + 1) mod n] of the sorted list, their names joined by a comma and a
    space; any other day is the single-subject day of the subject at
    position [i mod n]. *)
Theorem fallback_day_subjects (host : Host) (data : StudyFormData)
    (plan : StudyPlanResult) (i : nat) (d : StudyPlanDay) :
  generateFallbackStudyPlan host data = Returns plan ->
  nth_error (studyPlan plan) i = Some d ->
  let available := availableSubjects host (sortedSubjects host data) in
  let n := List.length available in
  let dayInfo := calendarDay (localToday host + Z.of_nat i) in
  (i < 5)%nat
  /\ isMultiSubjectDay available (Z.of_nat i) = Nat.even i && (2 <=? n)%nat
  /\ if isMultiSubjectDay available (Z.of_nat i)
     then exists s1 s2,
         nth_error available (i mod n) = Some s1
         /\ nth_error available ((i + 1) mod n) = Some s2
         /\ subject d = (name s1 ++ ", " ++ name s2)%string
         /\ d = multiSubjectDay host data dayInfo (Z.of_nat i) s1 s2
     else exists s,
         nth_error available (i mod n) = Some s
         /\ subject d = name s
         /\ d = singleSubjectDay host data dayInfo (Z.of_nat i) s.
Proof.
  intros G N available n dayInfo.
  split; [apply (fallback_day host data plan i d G N) |].
  split; [apply isMultiSubjectDay_spec |].
  rewrite isMultiSubjectDay_spec. fold n.
  pose proof (fallback_day_cases host data plan i d G N) as C.
  cbv zeta in C. fold available n dayInfo in C.
  destruct (Nat.even i && (2 <=? n)%nat).
  - destruct C as (s1 & s2 & N1 & N2 & ->). exists s1, s2. auto.
  - destruct C as (s & N1 & ->). exists s. auto.
Qed.

(** C8 on the sample form: Wednesday (index 0) joins the two most urgent
    subjects. *)
Lemma fallback_day_subjects_witness :
  subject Sample.wednesday = "Math, World History"%string.
Proof.
  destruct (fallback_day_subjects Sample.host Sample.form Sample.plan 0
              Sample.wednesday)
    as (_ & _ & C); [vm_compute; reflexivity | reflexivity |].
  replace (isMultiSubjectDay _ _) with true in C by (vm_compute; reflexivity).
  destruct C as (s1 & s2 & N1 & N2 & S & _).
  vm_compute in N1, N2. injection N1 as <-. injection N2 as <-. exact S.
Defined.

(** ** Claims C5 and C4: hours *)

Lemma Binary64_agreesBelow_spec (bound : nat) (h : Z) :
  Binary64.agreesBelow bound = true ->
  0 <= h < Z.of_nat bound ->
  Binary64.ceilTimes h Binary64.point8 = Some (Qceiling (inject_Z h * (8 # 10)))
  /\ Binary64.ceilTimes h Binary64.point5 = Some (Qceiling (inject_Z h * (5 # 10))).
Proof.
  intros A H.
  unfold Binary64.agreesBelow in A. rewrite forallb_forall in A.
  assert (I : In h (map Z.of_nat (seq 0 bound))).
  { rewrite <- (Z2Nat.id h) by lia. apply in_map, in_seq. lia. }
  apply A in I.
  destruct (Binary64.ceilTimes h Binary64.point8) as [a |]; [| discriminate I].
  destruct (Binary64.ceilTimes h Binary64.point5) as [b |]; [| discriminate I].
  apply andb_true_iff in I. destruct I as (Ea & Eb).
  apply Z.eqb_eq in Ea, Eb. now subst.
Qed.

(** For whole budgets below 4096 hours the rounded-up binary64 products
    [h * 0.8] and [h * 0.5] are the exact ceilings used in this file. *)
Lemma Binary64_ceilTimes_exact (h : Z) :
  0 <= h < 4096 ->
  Binary64.ceilTimes h Binary64.point8 = Some (Qceiling (inject_Z h * (8 # 10)))
  /\ Binary64.ceilTimes h Binary64.point5 = Some (Qceiling (inject_Z h * (5 # 10))).
Proof.
  intros H. apply (Binary64_agreesBelow_spec (Z.to_nat 4096)).
  - vm_compute. reflexivity.
  - rewrite Z2Nat.id; lia.
Qed.

(** C5.  In a fallback plan a multi-subject day gets the whole daily
    budget; a single-subject day gets [ceil(dailyHours * 0.8)] hours when
    its priority is high and [ceil(dailyHours * 0.5)] hours otherwise. *)
Theorem fallback_day_hours (host : Host) (data : StudyFormData)
    (plan : StudyPlanResult) (i : nat) (d : StudyPlanDay) :
  generateFallbackStudyPlan host data = Returns plan ->
  nth_error (studyPlan plan) i = Some d ->
  hours d
  = if isMultiSubjectDay (availableSubjects host (sortedSubjects host data)) (Z.of_nat i)
    then dailyHours data
    else inject_Z (Qceiling (dailyHours data
                             * match priority d with
                               | high => 8 # 10
                               | _ => 5 # 10
                               end)).
Proof.
  intros G N. rewrite isMultiSubjectDay_spec.
  pose proof (fallback_day_cases host data plan i d G N) as C. cbv zeta in C.
  destruct (Nat.even i && _).
  - destruct C as (s1 & s2 & _ & _ & ->). reflexivity.
  - destruct C as (s & _ & ->). cbn [hours priority singleSubjectDay].
    unfold ceilHours. now destruct (getPriorityByDeadline host s).
Qed.

(** The example of the specification: one subject, "Math", due in five days,
    and four hours a day.  Day 0 is a single-subject day of high priority
    with [ceil(4 * 0.8) = 4] hours. *)
Example math_in_five_days :
  exists d0 rest,
    generateFallbackStudyPlan Sample.host
      {| subjects := [Sample.math]; dailyHours := 4 |}
    = Returns {| studyPlan := d0 :: rest; motivationalTip := tip |}
    /\ subject d0 = "Math" /\ priority d0 = high /\ hours d0 = 4%Q.
Proof. vm_compute. do 2 eexists. repeat split. Qed.

(** C5 on the sample form, budget 4: Thursday is a single-subject day of
    medium priority and gets [ceil(4 * 0.5) = 2] hours. *)
Lemma fallback_day_hours_witness : hours Sample.thursday = 2%Q.
Proof.
  rewrite (fallback_day_hours Sample.host Sample.form Sample.plan 1 Sample.thursday);
    [reflexivity | vm_compute; reflexivity | reflexivity].
Defined.

Lemma ceil_fraction_le (h a b : Z) :
  0 <= h -> 0 <= a <= b -> 0 < b ->
  Qceiling (inject_Z h * (a # Z.to_pos b)) <= h.
Proof.
  intros Hh Ha Hb.
  unfold Qceiling, Qfloor, Qopp, Qmult, inject_Z. cbn [Qnum Qden].
  rewrite Pos.mul_1_l, Z2Pos.id by lia.
  assert (h * a <= h * b) by nia.
  assert (- (h * a) / b >= - h).
  { apply Z.le_ge. apply Z.div_le_lower_bound; lia. }
  lia.
Qed.

(** C4.  With a positive whole number of daily hours, no day of a fallback
    plan exceeds the budget: a multi-subject day uses exactly the budget,
    and neither [ceil(dailyHours * 0.8)] nor [ceil(dailyHours * 0.5)] is
    larger than a whole [dailyHours]. *)
Theorem fallback_day_within_budget (host : Host) (data : StudyFormData) (h : Z)
    (plan : StudyPlanResult) (i : nat) (d : StudyPlanDay) :
  0 < h ->
  dailyHours data = inject_Z h ->
  generateFallbackStudyPlan host data = Returns plan ->
  nth_error (studyPlan plan) i = Some d ->
  (hours d <= dailyHours data)%Q
  /\ (if isMultiSubjectDay (availableSubjects host (sortedSubjects host data)) (Z.of_nat i)
      then hours d = dailyHours data
      else hours d = inject_Z (Qceiling (inject_Z h * (8 # 10)))
           \/ hours d = inject_Z (Qceiling (inject_Z h * (5 # 10))))
  /\ Qceiling (inject_Z h * (8 # 10)) <= h
  /\ Qceiling (inject_Z h * (5 # 10)) <= h.
Proof.
  intros Hh Hd G N.
  assert (C8 : Qceiling (inject_Z h * (8 # 10)) <= h)
    by (apply (ceil_fraction_le h 8 10); lia).
  assert (C5 : Qceiling (inject_Z h * (5 # 10)) <= h)
    by (apply (ceil_fraction_le h 5 10); lia).
  rewrite isMultiSubjectDay_spec.
  pose proof (fallback_day_cases host data plan i d G N) as C. cbv zeta in C.
  destruct (Nat.even i && _).
  - destruct C as (s1 & s2 & _ & _ & ->). cbn [hours multiSubjectDay].
    repeat split; trivial. apply Qle_refl.
  - destruct C as (s & _ & ->). cbn [hours singleSubjectDay].
    unfold ceilHours. rewrite Hd.
    destruct (getPriorityByDeadline host s); cbn [Priority_eqb];
      repeat split; auto; rewrite <- Zle_Qle; assumption.
Qed.

(** C4 on the sample form, budget 4: Wednesday, a multi-subject day, stays
    within the four hours. *)
Lemma fallback_day_within_budget_witness :
  (hours Sample.wednesday <= 4)%Q.
Proof.
  apply (fallback_day_within_budget Sample.host Sample.form 4 Sample.plan 0
           Sample.wednesday);
    [lia | reflexivity | vm_compute; reflexivity | reflexivity].
Defined.

(** ** Claim C6: priorities *)

Lemma highestPriority_moreUrgent (p q : Priority) :
  highestPriority p q = moreUrgent p q.
Proof. destruct p, q; reflexivity. Qed.

(** C6.  A subject with at most 7 days until its deadline has priority
    high, one with at most 14 days has priority medium, any other (a
    subject without deadline included) has priority low; the priority of a
    multi-subject day is the more urgent of the priorities of its two
    subjects, in the order high > medium > low. *)
Theorem priority_by_deadline (host : Host) :
  (forall s n, getDaysUntilDeadline host (deadline s) = Int n -> n <= 7 ->
               getPriorityByDeadline host s = high)
  /\ (forall s n, getDaysUntilDeadline host (deadline s) = Int n -> 7 < n <= 14 ->
                  getPriorityByDeadline host s = medium)
  /\ (forall s n, getDaysUntilDeadline host (deadline s) = Int n -> 14 < n ->
                  getPriorityByDeadline host s = low)
  /\ (forall s, getDaysUntilDeadline host (deadline s) = PosInfinity ->
                getPriorityByDeadline host s = low)
  /\ (forall p q, urgency (moreUrgent p q) = Nat.max (urgency p) (urgency q))
  /\ (forall data plan i d,
         generateFallbackStudyPlan host data = Returns plan ->
         nth_error (studyPlan plan) i = Some d ->
         let available := availableSubjects host (sortedSubjects host data) in
         let n := List.length available in
         isMultiSubjectDay available (Z.of_nat i) = true ->
         exists s1 s2,
           nth_error available (i mod n) = Some s1
           /\ nth_error available ((i + 1) mod n) = Some s2
           /\ priority d
              = moreUrgent (getPriorityByDeadline host s1) (getPriorityByDeadline host s2)).
Proof.
  repeat apply conj.
  - intros s n E H. unfold getPriorityByDeadline. rewrite E. cbn.
    destruct (Z.leb_spec n 7); [reflexivity | lia].
  - intros s n E H. unfold getPriorityByDeadline. rewrite E. cbn.
    destruct (Z.leb_spec n 7); [lia |]. destruct (Z.leb_spec n 14); [reflexivity | lia].
  - intros s n E H. unfold getPriorityByDeadline. rewrite E. cbn.
    destruct (Z.leb_spec n 7); [lia |]. destruct (Z.leb_spec n 14); [lia | reflexivity].
  - intros s E. unfold getPriorityByDeadline. now rewrite E.
  - intros [] []; reflexivity.
  - intros data plan i d G N available n M.
    pose proof (fallback_day_cases host data plan i d G N) as C. cbv zeta in C.
    fold available n in C. rewrite isMultiSubjectDay_spec in M. fold n in M.
    rewrite M in C. destruct C as (s1 & s2 & N1 & N2 & ->).
    exists s1, s2. repeat split; trivial. apply highestPriority_moreUrgent.
Qed.

(** C6 on the sample form: math is due in 5 days, hence high; Wednesday
    joins math (high) and history (medium) and is high. *)
Lemma priority_by_deadline_witness :
  getPriorityByDeadline Sample.host Sample.math = high
  /\ priority Sample.wednesday = high.
Proof.
  destruct (priority_by_deadline Sample.host) as (High & _ & _ & _ & _ & Multi).
  split.
  - apply (High Sample.math 5); [reflexivity | lia].
  - destruct (Multi Sample.form Sample.plan 0%nat Sample.wednesday)
      as (s1 & s2 & N1 & N2 & P); [vm_compute; reflexivity | reflexivity | reflexivity |].
    vm_compute in N1, N2. injection N1 as <-. injection N2 as <-. exact P.
Defined.

(** ** The brace-delimited substring of a completion *)

Section MatchBraces.

Import JSString.


Lemma fromFirstOpen_app (pre r : string) :
  occurs "{" pre = false -> fromFirstOpen (pre ++ String "{" r) = Some r.
Proof.
  induction pre as [| c pre IH]; cbn; trivial.
  destruct (Ascii.eqb c "{"); cbn; [discriminate | exact IH].
Qed.

Lemma toLastClose_none (s : string) :
  occurs "}" s = false -> toLastClose s = None.
Proof.
  induction s as [| c r IH]; cbn; trivial.
  destruct (Ascii.eqb c "}"); cbn; [discriminate |].
  intros H. now rewrite IH.
Qed.

Lemma toLastClose_app (mid post : string) :
  occurs "}" post = false -> toLastClose (mid ++ String "}" post) = Some mid.
Proof.
  intros H. induction mid as [| c mid IH]; cbn.
  - now rewrite toLastClose_none.
  - now rewrite IH.
Qed.

Lemma fromFirstOpen_inv (s r : string) :
  fromFirstOpen s = Some r ->
  exists pre, s = pre ++ String "{" r /\ occurs "{" pre = false.
Proof.
  revert r. induction s as [| c s IH]; cbn; [discriminate |]. intros r.
  destruct (Ascii.eqb_spec c "{") as [-> | NE].
  - intros [= ->]. now exists "".
  - intros H. destruct (IH r H) as (pre & -> & O).
    exists (String c pre). split; [reflexivity |]. cbn.
    destruct (Ascii.eqb_spec c "{"); [contradiction | exact O].
Qed.

Lemma toLastClose_inv (s mid : string) :
  toLastClose s = Some mid ->
  exists post, s = mid ++ String "}" post /\ occurs "}" post = false.
Proof.
  revert mid. induction s as [| c s IH]; cbn; [discriminate |]. intros mid.
  destruct (toLastClose s) as [p |] eqn:E.
  - intros [= <-]. destruct (IH p eq_refl) as (post & -> & O).
    now exists post.
  - destruct (Ascii.eqb_spec c "}") as [-> | NE]; [| discriminate].
    intros [= <-]. exists s. split; [reflexivity |].
    clear IH. induction s as [| c s IH]; cbn in *; trivial.
    destruct (toLastClose s); [discriminate |].
    destruct (Ascii.eqb c "}"); [discriminate |]. now apply IH.
Qed.

(** The match is the text from the first opening brace to the last closing
    brace. *)
Lemma matchBraces_exact (pre mid post : string) :
  occurs "{" pre = false -> occurs "}" post = false ->
  matchBraces (pre ++ String "{" (mid ++ String "}" post))
  = Some (String "{" (mid ++ "}")).
Proof.
  intros Hpre Hpost. unfold matchBraces.
  now rewrite fromFirstOpen_app, toLastClose_app.
Qed.

Lemma matchBraces_inv (s m : string) :
  matchBraces s = Some m ->
  exists pre mid post,
    s = pre ++ String "{" (mid ++ String "}" post)
    /\ m = String "{" (mid ++ "}")
    /\ occurs "{" pre = false /\ occurs "}" post = false.
Proof.
  unfold matchBraces.
  destruct (fromFirstOpen s) as [r |] eqn:F; [| discriminate].
  destruct (toLastClose r) as [mid |] eqn:L; [| discriminate].
  intros [= <-].
  destruct (fromFirstOpen_inv s r F) as (pre & -> & Hpre).
  destruct (toLastClose_inv r mid L) as (post & -> & Hpost).
  now exists pre, mid, post.
Qed.


End MatchBraces.

(** ** The completion call and its handler *)

Lemma generateFallbackStudyPlan_total (host : Host) (data : StudyFormData) :
  exists plan, generateFallbackStudyPlan host data = Returns plan.
Proof.
  destruct (generateFallbackStudyPlan_days host data) as (d0 & d1 & d2 & d3 & d4 & E & _).
  eauto.
Qed.

Lemma generateStudyPlan_returned (host : Host) (gemini : Request -> JSResult Response.t)
    (data : StudyFormData) (v : JSON.value) :
  requestStudyPlan host gemini data = Returns v ->
  generateStudyPlan host gemini data = Returns (Parsed v).
Proof. unfold generateStudyPlan. now intros ->. Qed.

Lemma generateStudyPlan_caught (host : Host) (gemini : Request -> JSResult Response.t)
    (data : StudyFormData) (plan : StudyPlanResult) (e : Error) :
  generateFallbackStudyPlan host data = Returns plan ->
  requestStudyPlan host gemini data = Throws e ->
  generateStudyPlan host gemini data = Returns (Planned plan).
Proof. unfold generateStudyPlan. now intros -> ->. Qed.

Lemma parseResponse_no_content (response : Response.t) :
  firstContent response = None \/ firstContent response = Some "" ->
  parseResponse response = Throws (JsError "No response from Gemini").
Proof. unfold parseResponse. now intros [-> | ->]. Qed.


Lemma parseResponse_match (response : Response.t) (content jsonMatch : string) :
  firstContent response = Some content ->
  JSString.matchBraces content = Some jsonMatch ->
  parseResponse response = JSON.parse jsonMatch.
Proof.
  unfold parseResponse. intros -> M.
  destruct content; [discriminate M | now rewrite M].
Qed.

(** ** Claim C1 *)



(** ** Claim C2 *)

(** C2, refuted as stated: with the completion service out of reach the
    call made inside [generateStudyPlan] raises, yet [generateStudyPlan]
    does not: it returns a plan. *)
Lemma generateStudyPlan_offline_does_not_throw :
  ~ (forall (host : Host) (gemini : Request -> JSResult Response.t)
            (data : StudyFormData) (e : Error),
        callGemini host gemini data = Throws e ->
        exists e', generateStudyPlan host gemini data = Throws e').
Proof.
  intros H.
  destruct (H Sample.host Sample.offline Sample.form
              (NetworkError "network timeout") eq_refl) as (e' & E).
  vm_compute in E. discriminate E.
Qed.

(** C2, as amended.  The request step of [generateStudyPlan] (the body of
    its [try] block) raises when the completion call raises, when the
    response has no content, when the content has no brace-delimited text,
    and when [JSON.parse] rejects that text.  [generateStudyPlan] catches
    each of these errors and returns the fallback plan instead, so nothing
    reaches its caller.  A text that parses is returned as it is: no field
    is looked at, and an object without any field goes through. *)
Theorem requestStudyPlan_failures_are_caught
    (host : Host) (gemini : Request -> JSResult Response.t) (data : StudyFormData) :
  (forall e,
      callGemini host gemini data = Throws e ->
      requestStudyPlan host gemini data = Throws e)
  /\ (forall response,
         callGemini host gemini data = Returns response ->
         firstContent response = None \/ firstContent response = Some "" ->
         requestStudyPlan host gemini data = Throws (JsError "No response from Gemini"))
  /\ (forall response content,
         callGemini host gemini data = Returns response ->
         firstContent response = Some content -> content <> "" ->
         JSString.matchBraces content = None ->
         requestStudyPlan host gemini data
         = Throws (JsError "Could not parse JSON from Gemini response"))
  /\ (forall response content jsonMatch e,
         callGemini host gemini data = Returns response ->
         firstContent response = Some content ->
         JSString.matchBraces content = Some jsonMatch ->
         JSON.parse jsonMatch = Throws e ->
         requestStudyPlan host gemini data = Throws e)
  /\ (forall e,
         requestStudyPlan host gemini data = Throws e ->
         exists plan,
           generateFallbackStudyPlan host data = Returns plan
           /\ generateStudyPlan host gemini data = Returns (Planned plan))
  /\ (forall v,
         requestStudyPlan host gemini data = Returns v ->
         generateStudyPlan host gemini data = Returns (Parsed v))
  /\ (forall response,
         callGemini host gemini data = Returns response ->
         firstContent response = Some "{}" ->
         generateStudyPlan host gemini data = Returns (Parsed (JSON.Object []))).
Proof.
  repeat apply conj.
  - intros e C. unfold requestStudyPlan. now rewrite C.
  - intros response C N. unfold requestStudyPlan. rewrite C. cbn [bind].
    now apply parseResponse_no_content.
  - intros response content C S NE M. unfold requestStudyPlan. rewrite C. cbn [bind].
    unfold parseResponse. rewrite S, M. destruct content; [contradiction | reflexivity].
  - intros response content jsonMatch e C S M P. unfold requestStudyPlan.
    rewrite C. cbn [bind]. now rewrite (parseResponse_match response content jsonMatch S M).
  - intros e R. destruct (generateFallbackStudyPlan_total host data) as (plan & F).
    exists plan. split; trivial. now apply generateStudyPlan_caught with e.
  - intros v. apply generateStudyPlan_returned.
  - intros response C S. apply generateStudyPlan_returned.
    unfold requestStudyPlan. rewrite C. cbn [bind].
    now rewrite (parseResponse_match response "{}" "{}" S eq_refl).
Qed.

(** The amended C2 at work: the request step raises when the service is
    out of reach, the error is caught, and a completion that is just an
    empty object is returned unchecked. *)
Lemma requestStudyPlan_failures_are_caught_witness :
  requestStudyPlan Sample.host Sample.offline Sample.form
  = Throws (NetworkError "network timeout")
  /\ (exists plan,
         generateFallbackStudyPlan Sample.host Sample.form = Returns plan
         /\ generateStudyPlan Sample.host Sample.offline Sample.form
            = Returns (Planned plan))
  /\ generateStudyPlan Sample.host (Sample.answering "{}") Sample.form
     = Returns (Parsed (JSON.Object [])).
Proof.
  destruct (requestStudyPlan_failures_are_caught Sample.host Sample.offline Sample.form)
    as (Call & _ & _ & _ & Caught & _).
  destruct (requestStudyPlan_failures_are_caught Sample.host (Sample.answering "{}")
              Sample.form)
    as (_ & _ & _ & _ & _ & _ & Empty).
  split; [| split].
  - apply Call. reflexivity.
  - apply (Caught (NetworkError "network timeout")). apply Call. reflexivity.
  - apply (Empty _ eq_refl). reflexivity.
Defined.

(** ** Claim C9 *)

(** C9, refuted as stated: the completion below holds the valid plan
    [Sample.planText] after a remark with braces of its own.  The match
    runs from the brace of the remark to the end of the plan, [JSON.parse]
    rejects it, and the caller gets the fallback plan, not the embedded
    object. *)
Lemma braces_in_prose_defeat_extraction :
  let text := "Here is the plan {draft}: " ++ Sample.planText ++ " Good luck!" in
  JSON.parse Sample.planText = Returns Sample.planObject
  /\ generateStudyPlan Sample.host (Sample.answering text) Sample.form
     = Returns (Planned Sample.plan)
  /\ generateStudyPlan Sample.host (Sample.answering text) Sample.form
     <> Returns (Parsed Sample.planObject).
Proof.
  intros text.
  assert (G : generateStudyPlan Sample.host (Sample.answering text) Sample.form
              = Returns (Planned Sample.plan)) by (vm_compute; reflexivity).
  split; [vm_compute; reflexivity | split; [exact G |]].
  rewrite G. discriminate.
Qed.

(** C9, as amended.  When the completion consists of a text [object] in
    braces, preceded by a text without an opening brace and followed by a
    text without a closing brace, [generateStudyPlan] matches exactly
    [object], the text from the first opening to the last closing brace;
    if [JSON.parse] accepts it, the parsed object is what the caller
    gets. *)
Theorem generateStudyPlan_extracts_embedded_object
    (host : Host) (gemini : Request -> JSResult Response.t) (data : StudyFormData)
    (response : Response.t) (pre inner post : string) (v : JSON.value) :
  let object := String "{" (inner ++ "}") in
  callGemini host gemini data = Returns response ->
  firstContent response = Some (pre ++ object ++ post) ->
  JSString.occurs "{" pre = false ->
  JSString.occurs "}" post = false ->
  JSON.parse object = Returns v ->
  JSString.matchBraces (pre ++ object ++ post) = Some object
  /\ generateStudyPlan host gemini data = Returns (Parsed v).
Proof.
  intros object C S Hpre Hpost P.
  assert (E : pre ++ object ++ post = pre ++ String "{" (inner ++ String "}" post)).
  { unfold object. cbn. f_equal. f_equal.
    clear. induction inner as [| c r IH]; cbn; [reflexivity | now rewrite IH]. }
  assert (M : JSString.matchBraces (pre ++ object ++ post) = Some object)
    by (rewrite E; now apply matchBraces_exact).
  split; [exact M |].
  apply generateStudyPlan_returned. unfold requestStudyPlan. rewrite C. cbn [bind].
  now rewrite (parseResponse_match response _ object S M).
Qed.

(** The amended C9 on a completion with prose on both sides of the plan. *)
Lemma generateStudyPlan_extracts_embedded_object_witness :
  generateStudyPlan Sample.host
    (Sample.answering ("Here is your plan: " ++ Sample.planText ++ " Good luck!"))
    Sample.form
  = Returns (Parsed Sample.planObject).
Proof.
  refine (proj2 (generateStudyPlan_extracts_embedded_object Sample.host
                   (Sample.answering ("Here is your plan: " ++ Sample.planText ++ " Good luck!"))
                   Sample.form _ "Here is your plan: " Sample.planInner
                   " Good luck!" Sample.planObject _ _ _ _ _));
    vm_compute; reflexivity.
Defined.

(** * More properties of the service and of its callers *)

(** ** Priority and time *)

(** X1.  The priority of a dated subject in terms of the time that is left:
    high when the deadline is at most seven times 24 hours after the
    moment of the call (passed deadlines included), medium when it is at
    most fourteen times 24 hours after it, low beyond that. *)
Theorem priority_by_time_left (host : Host) (s : Subject) (d : Z) :
  deadline s = Some d ->
  (d <= now host + 7 * JSDate.msPerDay -> getPriorityByDeadline host s = high)
  /\ (now host + 7 * JSDate.msPerDay < d <= now host + 14 * JSDate.msPerDay ->
      getPriorityByDeadline host s = medium)
  /\ (now host + 14 * JSDate.msPerDay < d -> getPriorityByDeadline host s = low).
Proof.
  intros D. unfold getPriorityByDeadline. rewrite D, getDaysUntilDeadline_Some.
  pose proof (ceilDiv_spec (d - now host) JSDate.msPerDay eq_refl) as C.
  set (c := ceilDiv (d - now host) JSDate.msPerDay) in *.
  unfold JSDate.msPerDay in *. cbn [leb].
  repeat split; intros H;
    destruct (Z.leb_spec (Z.max 0 c) 7), (Z.leb_spec (Z.max 0 c) 14);
    trivial; lia.
Qed.

Lemma priority_by_time_left_witness :
  getPriorityByDeadline Sample.host Sample.history = medium.
Proof.
  apply (priority_by_time_left Sample.host Sample.history
           (now Sample.host + 10 * JSDate.msPerDay) eq_refl).
  cbn. lia.
Defined.

(** ** More on the fallback plan *)

Lemma ceil_fraction_pos (h a b : Z) :
  0 < h -> 0 < a -> 0 < b -> 1 <= Qceiling (inject_Z h * (a # Z.to_pos b)).
Proof.
  intros Hh Ha Hb.
  unfold Qceiling, Qfloor, Qopp, Qmult, inject_Z. cbn [Qnum Qden].
  rewrite Pos.mul_1_l, Z2Pos.id by lia.
  assert (- (h * a) / b < 0) by (apply Z.div_lt_upper_bound; nia).
  lia.
Qed.

(** X2.  With a positive whole number of daily hours, the hours of every
    day of a fallback plan are a whole number, at least one and at most
    the budget. *)
Theorem fallback_hours_whole (host : Host) (data : StudyFormData) (h : Z)
    (plan : StudyPlanResult) (i : nat) (d : StudyPlanDay) :
  0 < h ->
  dailyHours data = inject_Z h ->
  generateFallbackStudyPlan host data = Returns plan ->
  nth_error (studyPlan plan) i = Some d ->
  exists k, hours d = inject_Z k /\ 1 <= k <= h.
Proof.
  intros Hh Hd G N.
  pose proof (fallback_day_cases host data plan i d G N) as C. cbv zeta in C.
  destruct (Nat.even i && _).
  - destruct C as (s1 & s2 & _ & _ & ->). exists h. cbn [hours multiSubjectDay].
    split; [exact Hd | lia].
  - destruct C as (s & _ & ->). cbn [hours singleSubjectDay]. unfold ceilHours.
    rewrite Hd. eexists. split; [reflexivity |].
    destruct (Priority_eqb _ _).
    + split; [apply (ceil_fraction_pos h 8 10) | apply (ceil_fraction_le h 8 10)]; lia.
    + split; [apply (ceil_fraction_pos h 5 10) | apply (ceil_fraction_le h 5 10)]; lia.
Qed.

Lemma fallback_hours_whole_witness :
  exists k, hours Sample.thursday = inject_Z k /\ 1 <= k <= 4.
Proof.
  apply (fallback_hours_whole Sample.host Sample.form 4 Sample.plan 1 Sample.thursday);
    [lia | reflexivity | vm_compute; reflexivity | reflexivity].
Defined.

Lemma fallback_has_day (host : Host) (data : StudyFormData) (plan : StudyPlanResult)
    (i : nat) :
  generateFallbackStudyPlan host data = Returns plan ->
  (i < 5)%nat ->
  exists d, nth_error (studyPlan plan) i = Some d.
Proof.
  destruct (generateFallbackStudyPlan_days host data)
    as (d0 & d1 & d2 & d3 & d4 & E & _).
  rewrite E. intros [= <-] H.
  destruct i as [| [| [| [| [| i]]]]]; cbn; eauto. lia.
Qed.

(** X3.  Which subjects a fallback plan schedules.  Each of the first six
    subjects of the sorted list is the subject, or one of the two subjects,
    of some day; and every day is made of subjects among these first six,
    so that a seventh or later subject is left out of the plan. *)
Theorem fallback_schedules_first_six (host : Host) (data : StudyFormData)
    (plan : StudyPlanResult) :
  generateFallbackStudyPlan host data = Returns plan ->
  let available := availableSubjects host (sortedSubjects host data) in
  (forall k s,
      (k < 6)%nat -> nth_error available k = Some s ->
      exists i d dayInfo,
        nth_error (studyPlan plan) i = Some d
        /\ (d = singleSubjectDay host data dayInfo (Z.of_nat i) s
            \/ (exists s', d = multiSubjectDay host data dayInfo (Z.of_nat i) s s')
            \/ (exists s', d = multiSubjectDay host data dayInfo (Z.of_nat i) s' s)))
  /\ (forall i d,
         nth_error (studyPlan plan) i = Some d ->
         exists dayInfo k s,
           (k < 6)%nat /\ nth_error available k = Some s
           /\ (d = singleSubjectDay host data dayInfo (Z.of_nat i) s
               \/ exists k' s',
                   (k' < 6)%nat /\ nth_error available k' = Some s'
                   /\ d = multiSubjectDay host data dayInfo (Z.of_nat i) s s')).
Proof.
  intros G available. split.
  - intros k s K N.
    assert (L : (k < List.length available)%nat)
      by (apply nth_error_Some; congruence).
    (* the day on which position [k] comes up *)
    set (i := if (k =? 5)%nat then 4%nat else k).
    assert (I : (i < 5)%nat) by (subst i; destruct (Nat.eqb_spec k 5); lia).
    destruct (fallback_has_day host data plan i G I) as (d & D).
    exists i, d, (calendarDay (localToday host + Z.of_nat i)). split; [exact D |].
    pose proof (fallback_day_cases host data plan i d G D) as C. cbv zeta in C.
    fold available in C.
    destruct (Nat.even i && (2 <=? List.length available)%nat) eqn:M.
    + destruct C as (s1 & s2 & N1 & N2 & ->).
      apply andb_true_iff in M. destruct M as (Ev & _).
      subst i. destruct (Nat.eqb_spec k 5) as [-> | NE].
      * rewrite (Nat.mod_small (4 + 1)) in N2 by (cbn; lia).
        cbn [Nat.add] in N2. rewrite N in N2. injection N2 as <-. eauto.
      * rewrite Nat.mod_small in N1 by lia. rewrite N in N1. injection N1 as <-. eauto.
    + destruct C as (s1 & N1 & ->). left.
      subst i. destruct (Nat.eqb_spec k 5) as [-> | NE].
      * (* five subjects before position 5: day 4 is a multi-subject day *)
        cbn [Nat.even andb] in M. apply Nat.leb_gt in M. lia.
      * rewrite Nat.mod_small in N1 by lia. rewrite N in N1. now injection N1 as <-.
  - intros i d D.
    destruct (fallback_day host data plan i d G D) as (I & _).
    pose proof (fallback_day_cases host data plan i d G D) as C. cbv zeta in C.
    fold available in C.
    assert (NZ : List.length available <> 0%nat).
    { pose proof (availableSubjects_nonempty host (sortedSubjects host data)) as NE.
      fold available in NE. destruct available; [contradiction | discriminate]. }
    assert (B : forall j, (j <= 5)%nat -> (j mod List.length available < 6)%nat).
    { intros j J. pose proof (Nat.Div0.mod_le j (List.length available)). lia. }
    exists (calendarDay (localToday host + Z.of_nat i)).
    destruct (Nat.even i && _).
    + destruct C as (s1 & s2 & N1 & N2 & ->).
      exists (i mod List.length available)%nat, s1.
      split; [apply B; lia | split; [exact N1 |]]. right.
      exists ((i + 1) mod List.length available)%nat, s2.
      split; [apply B; lia | auto].
    + destruct C as (s1 & N1 & ->).
      exists (i mod List.length available)%nat, s1.
      split; [apply B; lia | auto].
Qed.

Lemma fallback_schedules_first_six_witness :
  exists i d dayInfo,
    nth_error (studyPlan Sample.plan) i = Some d
    /\ (d = singleSubjectDay Sample.host Sample.form dayInfo (Z.of_nat i) Sample.reading
        \/ (exists s',
               d = multiSubjectDay Sample.host Sample.form dayInfo (Z.of_nat i)
                     Sample.reading s')
        \/ (exists s',
               d = multiSubjectDay Sample.host Sample.form dayInfo (Z.of_nat i) s'
                     Sample.reading)).
Proof.
  refine (proj1 (fallback_schedules_first_six Sample.host Sample.form Sample.plan _)
            3%nat Sample.reading _ _).
  - vm_compute. reflexivity.
  - lia.
  - vm_compute. reflexivity.
Defined.

Lemma urgency_antitone (host : Host) (a b : Subject) :
  leb (getDaysUntilDeadline host (deadline a)) (getDaysUntilDeadline host (deadline b)) = true ->
  (urgency (getPriorityByDeadline host b) <= urgency (getPriorityByDeadline host a))%nat.
Proof.
  unfold getPriorityByDeadline.
  destruct (getDaysUntilDeadline_cases host (deadline a)) as [-> | (m & _ & ->)],
           (getDaysUntilDeadline_cases host (deadline b)) as [-> | (n & _ & ->)];
    cbn [leb]; try discriminate; intros H.
  - cbn. lia.
  - cbn. destruct (m <=? 7), (m <=? 14); cbn; lia.
  - apply Z.leb_le in H.
    destruct (Z.leb_spec m 7), (Z.leb_spec m 14), (Z.leb_spec n 7), (Z.leb_spec n 14);
      cbn; lia.
Qed.

Lemma moreUrgent_l (p q : Priority) : (urgency p <= urgency (moreUrgent p q))%nat.
Proof. destruct p, q; cbn; lia. Qed.

(** X4.  The first day of a fallback plan is as urgent as the form gets: no
    submitted subject has a priority more urgent than the priority of the
    day at index 0. *)
Theorem fallback_first_day_most_urgent (host : Host) (data : StudyFormData)
    (plan : StudyPlanResult) (d0 : StudyPlanDay) (s : Subject) :
  generateFallbackStudyPlan host data = Returns plan ->
  nth_error (studyPlan plan) 0 = Some d0 ->
  In s (subjects data) ->
  (urgency (getPriorityByDeadline host s) <= urgency (priority d0))%nat.
Proof.
  intros G D Member.
  pose proof (sort_Permutation (byDeadline host) (subjects data)) as P.
  fold (sortedSubjects host data) in P.
  assert (Sorted' : In s (sortedSubjects host data))
    by (eapply Permutation_in; eassumption).
  pose proof (StronglySorted_nth _ _ (sortedSubjects_ascending host data)) as Asc.
  destruct (sortedSubjects host data) as [| first rest] eqn:E; [contradiction |].
  (* the first subject of the sorted list is at least as urgent as [s] *)
  assert (F : (urgency (getPriorityByDeadline host s)
               <= urgency (getPriorityByDeadline host first))%nat).
  { apply urgency_antitone.
    destruct Sorted' as [<- | R]; [apply leb_days_refl |].
    apply In_nth_error in R. destruct R as (j & R).
    apply (Asc 0%nat (Datatypes.S j)); [lia | reflexivity | exact R]. }
  pose proof (fallback_day_cases host data plan 0 d0 G D) as C. cbv zeta in C.
  rewrite E, availableSubjects_cons in C.
  destruct (Nat.even 0 && _).
  - destruct C as (s1 & s2 & N1 & _ & ->).
    rewrite Nat.Div0.mod_0_l in N1. injection N1 as <-.
    cbn [priority multiSubjectDay]. rewrite highestPriority_moreUrgent.
    pose proof (moreUrgent_l (getPriorityByDeadline host first)
                             (getPriorityByDeadline host s2)). lia.
  - destruct C as (s1 & N1 & ->).
    rewrite Nat.Div0.mod_0_l in N1. injection N1 as <-. exact F.
Qed.

Lemma fallback_first_day_most_urgent_witness :
  (urgency (getPriorityByDeadline Sample.host Sample.essay)
   <= urgency (priority Sample.wednesday))%nat.
Proof.
  apply (fallback_first_day_most_urgent Sample.host Sample.form Sample.plan);
    [vm_compute; reflexivity | reflexivity | cbn; tauto].
Defined.

(** ** Notes and tools *)



(** ** What a completion can be read as *)

Lemma parse_brace_object (r : string) (v : JSON.value) :
  JSON.parse (String "{" r) = Returns v -> exists members, v = JSON.Object members.
Proof.
  unfold JSON.parse.
  change (JSON.parseValue (S (String.length (String "{" r))) (String "{" r))
    with (match JSON.skipWs r with
          | String "}" r' => Some (JSON.Object [], r')
          | _ =>
              match JSON.parseMembers
                      (JSON.parseValue (String.length (String "{" r)))
                      (String.length (String "{" r)) r with
              | Some (ms, rest) => Some (JSON.Object ms, rest)
              | None => None
              end
          end).
  destruct (JSON.parseMembers _ _ r) as [(ms, rest) |];
    (destruct (JSON.skipWs r) as [| a r']; [| destruct a as [[] [] [] [] [] [] [] []]]);
    cbv beta iota;
    try discriminate;
    match goal with
    | |- context [JSON.skipWs ?x] => destruct (JSON.skipWs x)
    end;
    intros [= <-]; eauto.
Qed.

(** X6.  Whatever the completion service answers, a value that
    [generateStudyPlan] takes from the completion is a JSON object: never
    an array, a string, a number, a truth value or [null]. *)
Theorem generateStudyPlan_parsed_is_object
    (host : Host) (gemini : Request -> JSResult Response.t) (data : StudyFormData)
    (v : JSON.value) :
  generateStudyPlan host gemini data = Returns (Parsed v) ->
  exists members, v = JSON.Object members.
Proof.
  unfold generateStudyPlan, requestStudyPlan.
  destruct (callGemini host gemini data) as [response | e]; cbn [bind try_catch].
  - unfold parseResponse.
    destruct (firstContent response) as [[| c content] |]; cbn [bind try_catch].
    + destruct (generateFallbackStudyPlan host data); discriminate.
    + destruct (JSString.matchBraces (String c content)) as [m |] eqn:M;
        cbn [bind try_catch].
      * destruct (matchBraces_inv _ _ M) as (pre & mid & post & _ & -> & _).
        destruct (JSON.parse (String "{" (mid ++ "}"))) as [w | e] eqn:P;
          cbn [bind try_catch].
        -- intros [= <-]. now apply parse_brace_object with (mid ++ "}").
        -- destruct (generateFallbackStudyPlan host data); discriminate.
      * destruct (generateFallbackStudyPlan host data); discriminate.
    + destruct (generateFallbackStudyPlan host data); discriminate.
  - destruct (generateFallbackStudyPlan host data); discriminate.
Qed.

Lemma generateStudyPlan_parsed_is_object_witness :
  exists members, Sample.planObject = JSON.Object members.
Proof.
  apply (generateStudyPlan_parsed_is_object Sample.host
           (Sample.answering ("Here is your plan: " ++ Sample.planText ++ " Good luck!"))
           Sample.form).
  vm_compute. reflexivity.
Defined.

Lemma occurs_app (c : ascii) (a b : string) :
  JSString.occurs c (a ++ b) = JSString.occurs c a || JSString.occurs c b.
Proof.
  induction a as [| x a IH]; cbn; [reflexivity |]. now rewrite IH, orb_assoc.
Qed.

Lemma fromFirstOpen_some (a r : string) :
  exists r', JSString.fromFirstOpen (a ++ String "{" r) = Some r'
             /\ forall c, JSString.occurs c r = true -> JSString.occurs c r' = true.
Proof.
  induction a as [| x a IH]; cbn.
  - eauto.
  - destruct (Ascii.eqb x "{").
    + eexists. split; [reflexivity |]. intros c H.
      rewrite occurs_app. cbn. rewrite H. now rewrite !orb_true_r.
    + exact IH.
Qed.

Lemma toLastClose_some (s : string) :
  JSString.occurs "}" s = true -> JSString.toLastClose s <> None.
Proof.
  intros H N. induction s as [| c s IH]; cbn in *; [discriminate |].
  destruct (JSString.toLastClose s); [discriminate |].
  destruct (Ascii.eqb c "}"); [discriminate |]. cbn in H. auto.
Qed.

(** X7.  The text that [generateStudyPlan] hands to [JSON.parse].  A
    completion has a match exactly when it holds an opening brace with a
    closing brace somewhere after it; the match then starts at the first
    opening brace of the completion and ends at its last closing brace. *)
Theorem matchBraces_widest (content : string) :
  (forall m,
      JSString.matchBraces content = Some m <->
      exists pre mid post,
        content = pre ++ String "{" (mid ++ String "}" post)
        /\ m = String "{" (mid ++ "}")
        /\ JSString.occurs "{" pre = false /\ JSString.occurs "}" post = false)
  /\ (JSString.matchBraces content = None <->
      forall a b c, content <> a ++ String "{" (b ++ String "}" c)).
Proof.
  split.
  - intros m. split.
    + apply matchBraces_inv.
    + intros (pre & mid & post & -> & -> & Hpre & Hpost).
      now apply matchBraces_exact.
  - split.
    + intros N a b c ->.
      unfold JSString.matchBraces in N.
      destruct (fromFirstOpen_some a (b ++ String "}" c)) as (r' & F & O).
      rewrite F in N.
      destruct (JSString.toLastClose r') eqn:L; [discriminate |].
      apply (toLastClose_some r'); trivial.
      apply O. rewrite occurs_app. cbn. now rewrite orb_true_r.
    + intros H. destruct (JSString.matchBraces content) as [m |] eqn:M; trivial.
      destruct (matchBraces_inv _ _ M) as (pre & mid & post & E & _).
      now destruct (H pre mid post).
Qed.

Lemma matchBraces_widest_witness :
  JSString.matchBraces "Plan: {a} and {b}." = Some "{a} and {b}".
Proof.
  apply (proj1 (matchBraces_widest "Plan: {a} and {b}.")).
  exists "Plan: ", "a} and {b", ".". repeat split.
Defined.

(** ** The Gemini client *)



Lemma create_cases (apiKey : option string)
    (post : GeminiClient.Post -> JSResult GeminiClient.GeminiResponse)
    (messages : list ChatMessage) :
  let sent :=
    {| GeminiClient.url := GeminiClient.GEMINI_API_URL;
       GeminiClient.contents :=
         [ [ match GeminiClient.contentOf "system" messages with
             | EmptyString => GeminiClient.contentOf "user" messages
             | String _ _ =>
                 GeminiClient.contentOf "system" messages
                 ++ JSString.newline ++ JSString.newline
                 ++ GeminiClient.contentOf "user" messages
             end ] ];
       GeminiClient.contentType := "application/json";
       GeminiClient.apiKeyHeader := apiKey |} in
  GeminiClient.complete apiKey post messages
  = match post sent with
    | Throws e => Throws e
    | Returns body =>
        match GeminiClient.generatedText body with
        | None | Some EmptyString => Throws (JsError "No response from Gemini API")
        | Some generated => Returns (GeminiClient.completion generated)
        end
    end.
Proof.
  intros sent. unfold GeminiClient.complete, GeminiClient.generateContent.
  fold sent. destruct (post sent) as [body | e]; cbn [bind try_catch]; trivial.
  destruct (GeminiClient.generatedText body) as [[| c g] |]; reflexivity.
Qed.

(** X9.  A completion that the client returns holds exactly one choice, and
    that choice holds a non-empty text, the text of the first part of the
    first candidate of the service.  So the check of [generateStudyPlan]
    for a response without content never fires behind this client. *)
Theorem create_returns_text (apiKey : option string)
    (post : GeminiClient.Post -> JSResult GeminiClient.GeminiResponse)
    (request : Request) (response : Response.t) :
  GeminiClient.create apiKey post request = Returns response ->
  exists generated,
    generated <> ""
    /\ response = GeminiClient.completion generated
    /\ List.length (Response.choices response) = 1%nat
    /\ firstContent response = Some generated
    /\ (exists sent body,
           post sent = Returns body
           /\ GeminiClient.generatedText body = Some generated)
    /\ parseResponse response <> Throws (JsError "No response from Gemini").
Proof.
  unfold GeminiClient.create. rewrite create_cases. cbv zeta.
  match goal with |- context [post ?p] => set (sent := p) end.
  destruct (post sent) as [body | e] eqn:P; [| discriminate].
  destruct (GeminiClient.generatedText body) as [[| c g] |] eqn:T; try discriminate.
  intros [= <-]. exists (String c g).
  repeat split; try discriminate; eauto.
  unfold parseResponse. cbn [firstContent GeminiClient.completion Response.choices
    JSArray.get Z.ltb Z.compare Z.to_nat nth_error Response.message Response.content].
  destruct (JSString.matchBraces (String c g)); [| discriminate].
  unfold JSON.parse. destruct (JSON.parseValue _ _) as [(v, rest) |];
    [destruct (JSON.skipWs rest) |]; discriminate.
Qed.

Lemma create_returns_text_witness :
  exists generated,
    generated <> ""
    /\ firstContent (GeminiClient.completion "Day 1: algebra") = Some generated.
Proof.
  destruct (create_returns_text (Some "key") (ClientSample.answers "Day 1: algebra")
              (completionRequest "Plan my week")
              (GeminiClient.completion "Day 1: algebra"))
    as (generated & NE & _ & _ & First & _).
  - reflexivity.
  - exists generated. split; [exact NE | exact First].
Defined.

Lemma getNextFiveDays_today (host : Host) :
  JSArray.get (getNextFiveDays host) (Int 0) = Some (calendarDay (localToday host)).
Proof.
  rewrite getNextFiveDays_calendar. cbn. now rewrite Z.add_0_r.
Qed.

(** X10.  The whole way from the form to the plan, through the page, the
    service and the client.  One request goes out: the sentence for the
    system, an empty line and the prompt, with the key of the environment
    in its header whether or not that key is valid.  The page gets the
    object parsed from the answer when the request succeeds, its first
    candidate has a non-empty text, this text has a brace-delimited part
    and [JSON.parse] accepts that part; in every other case it gets the
    fallback plan.  It never gets an error. *)
Theorem generateMockStudyPlan_end_to_end (host : Host) (apiKey : option string)
    (post : GeminiClient.Post -> JSResult GeminiClient.GeminiResponse)
    (data : StudyFormData) :
  let sent :=
    {| GeminiClient.url := GeminiClient.GEMINI_API_URL;
       GeminiClient.contents :=
         [ [ "You are an expert study planner and academic advisor."
             ++ JSString.newline ++ JSString.newline
             ++ prompt host data (subjectInfo host (sortedSubjects host data))
                  (calendarDay (localToday host)) ] ];
       GeminiClient.contentType := "application/json";
       GeminiClient.apiKeyHeader := apiKey |} in
  exists plan,
    generateFallbackStudyPlan host data = Returns plan
    /\ IndexPage.generateMockStudyPlan host (GeminiClient.create apiKey post) data
       = match post sent with
         | Throws _ => Returns (Planned plan)
         | Returns body =>
             match GeminiClient.generatedText body with
             | None | Some EmptyString => Returns (Planned plan)
             | Some generated =>
                 match JSString.matchBraces generated with
                 | None => Returns (Planned plan)
                 | Some jsonMatch =>
                     match JSON.parse jsonMatch with
                     | Returns studyPlanData => Returns (Parsed studyPlanData)
                     | Throws _ => Returns (Planned plan)
                     end
                 end
             end
         end.
Proof.
  intros sent.
  destruct (generateFallbackStudyPlan_total host data) as (plan & F).
  exists plan. split; [exact F |].
  unfold IndexPage.generateMockStudyPlan, generateStudyPlan, requestStudyPlan, callGemini.
  rewrite getNextFiveDays_today. cbn [bind].
  unfold GeminiClient.create. rewrite create_cases. cbv zeta.
  change (post _) with (post sent).
  destruct (post sent) as [body | e]; cbn [bind try_catch]; [| now rewrite F].
  destruct (GeminiClient.generatedText body) as [[| c g] |];
    cbn [bind try_catch]; try (now rewrite F).
  unfold parseResponse.
  cbn [firstContent GeminiClient.completion Response.choices
    JSArray.get Z.ltb Z.compare Z.to_nat nth_error Response.message Response.content].
  destruct (JSString.matchBraces (String c g)) as [m |];
    cbn [bind try_catch]; [| now rewrite F].
  destruct (JSON.parse m); cbn [bind try_catch]; [reflexivity | now rewrite F].
Qed.

(** ** Retrying with backoff *)

Section RetryFacts.

Import StudyAssistant.

Context {A : Type}.
Variable fn : nat -> JSResult A.

(** As many rounds as [maxRetries] exceeds [retries] finish the loop. *)
Lemma retryLoop_finishes (fuel : nat) (maxRetries retries delay : Z) :
  (Z.to_nat (maxRetries - retries) <= fuel)%nat ->
  retryLoop fn fuel maxRetries retries delay <> None.
Proof.
  revert retries delay. induction fuel as [| fuel IH]; intros retries delay H; cbn.
  - destruct (Z.ltb_spec retries maxRetries); [lia | discriminate].
  - destruct (Z.ltb_spec retries maxRetries); [| discriminate].
    destruct (fn (Z.to_nat retries)) as [value | error]; [discriminate |].
    destruct (negb _); [discriminate |].
    destruct (Z.eqb_spec retries (maxRetries - 1)); [discriminate |].
    specialize (IH (retries + 1) (delay * 2)).
    destruct (retryLoop fn fuel maxRetries (retries + 1) (delay * 2)) as [[events outcome] |];
      [discriminate | apply IH; lia].
Qed.

Lemma waits_shift (delay : Z) (n : nat) :
  delay :: map (fun j => delay * 2 * 2 ^ Z.of_nat j) (seq 0 n)
  = map (fun j => delay * 2 ^ Z.of_nat j) (seq 0 (S n)).
Proof.
  cbn [seq map]. rewrite <- seq_shift, map_map. f_equal; [cbn; lia |].
  apply map_ext. intros j. rewrite Nat2Z.inj_succ, Z.pow_succ_r; lia.
Qed.

(** The shape of every run of the loop from [retries = r]. *)
Lemma retryLoop_shape (fuel : nat) (maxRetries delay : Z) (r : nat)
    (events : list Event) (outcome : JSResult (option A)) :
  retryLoop fn fuel maxRetries (Z.of_nat r) delay = Some (events, outcome) ->
  exists n,
    calls events = seq r n
    /\ waits events = map (fun j => delay * 2 ^ Z.of_nat j) (seq 0 (n - 1))
    /\ shown events
       = map (fun j => retryMessage (Z.of_nat (r + j) + 1) maxRetries) (seq 0 (n - 1))
    /\ (n = 0%nat <-> maxRetries <= Z.of_nat r)
    /\ Z.of_nat (r + n) <= Z.max maxRetries (Z.of_nat r)
    /\ (outcome = Returns None <-> n = 0%nat).
Proof.
  revert r delay events outcome.
  induction fuel as [| fuel IH]; intros r delay events outcome; cbn [retryLoop].
  - destruct (Z.ltb_spec (Z.of_nat r) maxRetries); [discriminate |].
    intros [= <- <-]. exists 0%nat. cbn. repeat split; trivial; lia.
  - destruct (Z.ltb_spec (Z.of_nat r) maxRetries) as [Lt | Ge].
    2: { intros [= <- <-]. exists 0%nat. cbn. repeat split; trivial; lia. }
    rewrite Nat2Z.id.
    assert (One : forall o : JSResult (option A),
               o <> Returns None ->
               exists n,
                 calls [Called r] = seq r n
                 /\ waits [Called r] = map (fun j => delay * 2 ^ Z.of_nat j) (seq 0 (n - 1))
                 /\ shown [Called r]
                    = map (fun j => retryMessage (Z.of_nat (r + j) + 1) maxRetries)
                          (seq 0 (n - 1))
                 /\ (n = 0%nat <-> maxRetries <= Z.of_nat r)
                 /\ Z.of_nat (r + n) <= Z.max maxRetries (Z.of_nat r)
                 /\ (o = Returns None <-> n = 0%nat)).
    { intros o NU. exists 1%nat. cbn. repeat split; trivial; try lia; try discriminate.
      intros E. contradiction. }
    destruct (fn r) as [value | error].
    { intros [= <- <-]. apply One. discriminate. }
    destruct (negb _).
    { intros [= <- <-]. apply One. discriminate. }
    destruct (Z.eqb_spec (Z.of_nat r) (maxRetries - 1)) as [Last | More].
    { intros [= <- <-]. apply One. discriminate. }
    replace (Z.of_nat r + 1) with (Z.of_nat (S r)) by lia.
    destruct (retryLoop fn fuel maxRetries (Z.of_nat (S r)) (delay * 2))
      as [[events' outcome'] |] eqn:L; [| discriminate].
    intros [= <- <-].
    destruct (IH (S r) (delay * 2) events' outcome' L)
      as (n & C & W & Sh & Zero & Bound & Undef).
    assert (Pos : (0 < n)%nat).
    { destruct n; [| lia]. assert (maxRetries <= Z.of_nat (S r)) by now apply Zero. lia. }
    exists (S n). cbn [calls waits shown flat_map app].
    fold (calls events') (waits events') (shown events').
    rewrite C, W, Sh. replace (S n - 1)%nat with (S (n - 1)) by lia.
    repeat split; try lia; try discriminate.
    + apply waits_shift.
    + cbn [seq map]. rewrite <- seq_shift, map_map. f_equal.
      * f_equal. lia.
      * apply map_ext. intros j. f_equal. lia.
    + intros U. apply Undef in U. lia.
Qed.

Lemma sum_waits (delay : Z) (n : nat) :
  fold_right Z.add 0 (map (fun j => delay * 2 ^ Z.of_nat j) (seq 0 n))
  = delay * (2 ^ Z.of_nat n - 1).
Proof.
  induction n as [| n IH].
  - cbn. lia.
  - rewrite seq_S, map_app, fold_right_app. cbn [map fold_right Nat.add].
    replace (fold_right Z.add (delay * 2 ^ Z.of_nat n + 0)
               (map (fun j => delay * 2 ^ Z.of_nat j) (seq 0 n)))
      with (fold_right Z.add 0 (map (fun j => delay * 2 ^ Z.of_nat j) (seq 0 n))
            + delay * 2 ^ Z.of_nat n).
    + rewrite IH, Nat2Z.inj_succ, Z.pow_succ_r; lia.
    + generalize (map (fun j => delay * 2 ^ Z.of_nat j) (seq 0 n)).
      intros l. induction l as [| x l IHl]; cbn; lia.
Qed.

End RetryFacts.

(** X11.  Every run of [retryWithBackoff] ends, and for any behaviour of the
    wrapped call: the call is made at most [maxRetries] times, one time
    after the other; between two calls the run waits, first
    [initialDelay] and then twice as long each time, so that after [n]
    calls it has waited [initialDelay * (2^(n-1) - 1)] in all.  The run
    makes no call at all, and returns [undefined], exactly when
    [maxRetries] is zero or negative. *)
Theorem retryWithBackoff_bounded {A : Type} (fn : nat -> JSResult A)
    (maxRetries initialDelay : Z) :
  let events := fst (StudyAssistant.retryWithBackoff fn maxRetries initialDelay) in
  let outcome := snd (StudyAssistant.retryWithBackoff fn maxRetries initialDelay) in
  StudyAssistant.retryLoop fn (Z.to_nat maxRetries) maxRetries 0 initialDelay
  = Some (events, outcome)
  /\ exists n,
      StudyAssistant.calls events = seq 0 n
      /\ Z.of_nat n <= Z.max maxRetries 0
      /\ StudyAssistant.waits events
         = map (fun j => initialDelay * 2 ^ Z.of_nat j) (seq 0 (n - 1))
      /\ fold_right Z.add 0 (StudyAssistant.waits events)
         = initialDelay * (2 ^ Z.of_nat (n - 1) - 1)
      /\ (n = 0%nat <-> maxRetries <= 0)
      /\ (outcome = Returns None <-> maxRetries <= 0).
Proof.
  intros events outcome. subst events outcome.
  unfold StudyAssistant.retryWithBackoff.
  pose proof (retryLoop_finishes fn (Z.to_nat maxRetries) maxRetries 0 initialDelay) as Fin.
  destruct (StudyAssistant.retryLoop fn (Z.to_nat maxRetries) maxRetries 0 initialDelay)
    as [[events outcome] |] eqn:L; [| exfalso; apply Fin; [lia | reflexivity]].
  cbn [fst snd]. split; [reflexivity |].
  destruct (retryLoop_shape fn _ _ _ 0 events outcome L)
    as (n & C & W & _ & Zero & Bound & Undef).
  exists n. cbn in Zero, Bound. repeat split; trivial.
  - rewrite W. apply sum_waits.
  - apply Zero.
  - apply Zero.
  - intros U. apply Zero, Undef, U.
  - intros M. apply Undef, Zero, M.
Qed.

Lemma retryWithBackoff_bounded_witness :
  exists n,
    StudyAssistant.calls
      (fst (StudyAssistant.retryWithBackoff (fun _ => Throws (A := string) (HttpError 429))
              3 1000))
    = seq 0 n
    /\ Z.of_nat n <= 3.
Proof.
  destruct (retryWithBackoff_bounded (fun _ => Throws (A := string) (HttpError 429)) 3 1000)
    as (_ & n & C & B & _).
  exists n. split; [exact C | exact B].
Defined.

Lemma retryLoop_until {A : Type} (fn : nat -> JSResult A) (maxRetries : Z)
    (k n : nat) :
  forall (r fuel : nat) (delay : Z),
    k = (r + n)%nat ->
    (forall j, (r <= j < k)%nat -> exists e, fn j = Throws e /\ JSError.status e = Some 429) ->
    Z.of_nat k < maxRetries ->
    match fn k with
    | Returns _ => True
    | Throws e => JSError.status e <> Some 429 \/ Z.of_nat k = maxRetries - 1
    end ->
    (n < fuel)%nat ->
    exists events,
      StudyAssistant.retryLoop fn fuel maxRetries (Z.of_nat r) delay
      = Some (events,
              match fn k with
              | Returns value => Returns (Some value)
              | Throws e => Throws e
              end)
      /\ StudyAssistant.calls events = seq r (S n).
Proof.
  induction n as [| n IH]; intros r fuel delay K Limited Lt Final Fuel;
    (destruct fuel as [| fuel]; [lia |]); cbn [StudyAssistant.retryLoop].
  - rewrite Nat.add_0_r in K. subst r.
    destruct (Z.ltb_spec (Z.of_nat k) maxRetries); [| lia]. rewrite Nat2Z.id.
    destruct (fn k) as [value | e]; [eexists; split; reflexivity |].
    destruct (JSError.status e) as [s |]; cbn [negb].
    + destruct (Z.eqb_spec s 429) as [-> | NE]; cbn [negb];
        [| eexists; split; reflexivity].
      destruct Final as [F | F]; [contradiction |].
      destruct (Z.eqb_spec (Z.of_nat k) (maxRetries - 1)); [| lia].
      eexists; split; reflexivity.
    + eexists; split; reflexivity.
  - destruct (Z.ltb_spec (Z.of_nat r) maxRetries); [| lia]. rewrite Nat2Z.id.
    destruct (Limited r) as (e & -> & St); [lia |]. rewrite St. cbn [negb Z.eqb Pos.eqb].
    destruct (Z.eqb_spec (Z.of_nat r) (maxRetries - 1)); [lia |].
    replace (Z.of_nat r + 1) with (Z.of_nat (S r)) by lia.
    destruct (IH (S r) fuel (delay * 2)) as (events & -> & C); trivial; try lia.
    { intros j J. apply Limited. lia. }
    eexists. split; [reflexivity |].
    cbn [StudyAssistant.calls flat_map app]. fold (StudyAssistant.calls events).
    now rewrite C.
Qed.

(** X12.  What a run of [retryWithBackoff] comes to.  Let the calls number
    0 to [k - 1] fail with status 429, and let call [k], one of the first
    [maxRetries], return, fail otherwise, or be the last one allowed.  Then
    the run makes exactly the calls 0 to [k], its result is that of call
    [k] (a value, or the error of that call thrown on), it has waited [k]
    times, [initialDelay * 2^j] after call [j], and it has announced each
    retry on the screen. *)
Theorem retryWithBackoff_outcome {A : Type} (fn : nat -> JSResult A)
    (maxRetries initialDelay : Z) (k : nat) :
  (forall j, (j < k)%nat -> exists e, fn j = Throws e /\ JSError.status e = Some 429) ->
  Z.of_nat k < maxRetries ->
  match fn k with
  | Returns _ => True
  | Throws e => JSError.status e <> Some 429 \/ Z.of_nat k = maxRetries - 1
  end ->
  let events := fst (StudyAssistant.retryWithBackoff fn maxRetries initialDelay) in
  let outcome := snd (StudyAssistant.retryWithBackoff fn maxRetries initialDelay) in
  outcome = match fn k with
            | Returns value => Returns (Some value)
            | Throws e => Throws e
            end
  /\ StudyAssistant.calls events = seq 0 (S k)
  /\ StudyAssistant.waits events
     = map (fun j => initialDelay * 2 ^ Z.of_nat j) (seq 0 k)
  /\ StudyAssistant.shown events
     = map (fun j => StudyAssistant.retryMessage (Z.of_nat j + 1) maxRetries) (seq 0 k).
Proof.
  intros Limited Lt Final events outcome. subst events outcome.
  unfold StudyAssistant.retryWithBackoff.
  destruct (retryLoop_until fn maxRetries k k 0 (Z.to_nat maxRetries) initialDelay)
    as (events & L & C); trivial; try lia.
  { intros j J. apply Limited. lia. }
  change (Z.of_nat 0) with 0 in L. rewrite L. cbn [fst snd].
  destruct (retryLoop_shape fn _ _ _ 0 events _ L) as (n & C' & W & Sh & _).
  assert (N : n = S k).
  { rewrite C in C'. apply (f_equal (@List.length nat)) in C'.
    now rewrite !length_seq in C'. }
  subst n. replace (S k - 1)%nat with k in * by lia.
  repeat split; trivial.
Qed.

(** X12 with the defaults, three tries and one second: two rate limits and
    then an answer cost three calls and waits of one and two seconds. *)
Lemma retryWithBackoff_outcome_witness :
  let fn := fun attempt : nat =>
              if (attempt <? 2)%nat then Throws (HttpError 429) else Returns "answer" in
  snd (StudyAssistant.retryWithBackoff fn 3 1000) = Returns (Some "answer")
  /\ StudyAssistant.calls (fst (StudyAssistant.retryWithBackoff fn 3 1000)) = [0; 1; 2]%nat
  /\ StudyAssistant.waits (fst (StudyAssistant.retryWithBackoff fn 3 1000)) = [1000; 2000].
Proof.
  intros fn.
  destruct (retryWithBackoff_outcome fn 3 1000 2) as (O & C & W & _).
  - intros j J. exists (HttpError 429). split; [| reflexivity].
    destruct j as [| [| j]]; [reflexivity | reflexivity | lia].
  - lia.
  - exact I.
  - repeat split; assumption.
Defined.

(** The two facts about a run that the assistant's handler relies on. *)
Lemma retryWithBackoff_calls {A : Type} (fn : nat -> JSResult A)
    (maxRetries initialDelay : Z) :
  0 < maxRetries ->
  exists n,
    (1 <= n)%nat /\ Z.of_nat n <= maxRetries
    /\ StudyAssistant.calls (fst (StudyAssistant.retryWithBackoff fn maxRetries initialDelay))
       = seq 0 n
    /\ fold_right Z.add 0
         (StudyAssistant.waits (fst (StudyAssistant.retryWithBackoff fn maxRetries initialDelay)))
       = initialDelay * (2 ^ Z.of_nat (n - 1) - 1).
Proof.
  intros Pos. unfold StudyAssistant.retryWithBackoff.
  pose proof (retryLoop_finishes fn (Z.to_nat maxRetries) maxRetries 0 initialDelay) as Fin.
  destruct (StudyAssistant.retryLoop fn (Z.to_nat maxRetries) maxRetries 0 initialDelay)
    as [[events outcome] |] eqn:L; [| exfalso; apply Fin; [lia | reflexivity]].
  cbn [fst snd].
  destruct (retryLoop_shape fn _ _ _ 0 events outcome L)
    as (n & C & W & _ & Zero & Bound & _).
  change (0 + n)%nat with n in Bound. change (Z.of_nat 0) with 0 in Zero, Bound.
  exists n. split; [| split; [| split]]; trivial.
  - destruct n; [| lia]. assert (maxRetries <= 0) by now apply Zero. lia.
  - lia.
  - rewrite W. apply sum_waits.
Qed.

Lemma retryWithBackoff_run {A : Type} (fn : nat -> JSResult A)
    (maxRetries initialDelay : Z) (k : nat) :
  (forall j, (j < k)%nat -> exists e, fn j = Throws e /\ JSError.status e = Some 429) ->
  Z.of_nat k < maxRetries ->
  match fn k with
  | Returns _ => True
  | Throws e => JSError.status e <> Some 429 \/ Z.of_nat k = maxRetries - 1
  end ->
  exists events,
    StudyAssistant.retryWithBackoff fn maxRetries initialDelay
    = (events,
       match fn k with
       | Returns value => Returns (Some value)
       | Throws e => Throws e
       end)
    /\ StudyAssistant.calls events = seq 0 (S k)
    /\ StudyAssistant.shown events
       = map (fun j => StudyAssistant.retryMessage (Z.of_nat j + 1) maxRetries) (seq 0 k).
Proof.
  intros Limited Lt Final. unfold StudyAssistant.retryWithBackoff.
  destruct (retryLoop_until fn maxRetries k k 0 (Z.to_nat maxRetries) initialDelay)
    as (events & L & C); trivial; try lia.
  { intros j J. apply Limited. lia. }
  change (Z.of_nat 0) with 0 in L. rewrite L. exists events.
  destruct (retryLoop_shape fn _ _ _ 0 events _ L) as (n & C' & _ & Sh & _).
  assert (N : n = S k).
  { rewrite C in C'. apply (f_equal (@List.length nat)) in C'.
    now rewrite !length_seq in C'. }
  subst n. replace (S k - 1)%nat with k in * by lia.
  repeat split; trivial.
Qed.

(** ** The study assistant *)

Lemma includes_unfold (s needle : string) :
  JSString.includes s needle
  = String.prefix needle s
    || match s with
       | EmptyString => false
       | String _ r => JSString.includes r needle
       end.
Proof. destruct s; reflexivity. Qed.

Lemma prefix_app (k rest : string) : String.prefix k (k ++ rest) = true.
Proof.
  induction k as [| c k IH]; cbn; [now destruct rest |].
  destruct (Ascii.ascii_dec c c); [exact IH | contradiction].
Qed.

Lemma includes_here (k rest : string) : JSString.includes (k ++ rest) k = true.
Proof. rewrite includes_unfold, prefix_app. reflexivity. Qed.

Lemma includes_self (k : string) : JSString.includes k k = true.
Proof.
  rewrite includes_unfold.
  replace (String.prefix k k) with true; trivial.
  symmetry. induction k as [| c k IH]; cbn; trivial.
  destruct (Ascii.ascii_dec c c); [exact IH | contradiction].
Qed.

Lemma includes_app_r (a s k : string) :
  JSString.includes s k = true -> JSString.includes (a ++ s) k = true.
Proof.
  intros H. induction a as [| c a IH]; cbn [append]; trivial.
  rewrite includes_unfold, IH. apply orb_true_r.
Qed.

Lemma prefix_app_l (k s rest : string) :
  String.prefix k s = true -> String.prefix k (s ++ rest) = true.
Proof.
  revert s. induction k as [| c k IH]; intros s; cbn; [now destruct (s ++ rest) |].
  destruct s as [| x s]; cbn; [discriminate |].
  destruct (Ascii.ascii_dec c x); [apply IH | discriminate].
Qed.

Lemma includes_app_l (s rest k : string) :
  JSString.includes s k = true -> JSString.includes (s ++ rest) k = true.
Proof.
  induction s as [| c s IH]; rewrite includes_unfold; intros H.
  - rewrite orb_false_r in H. destruct k; [| discriminate].
    rewrite includes_unfold. now destruct (_ ++ _).
  - apply orb_true_iff in H. rewrite includes_unfold.
    destruct H as [H | H].
    + now rewrite (prefix_app_l k (String c s) rest H).
    + cbn [append]. rewrite (IH H). apply orb_true_r.
Qed.

(** X13.  Whatever the mode and the subject, the prompt of the assistant
    holds the query of the user word for word, and the subject when one is
    given; an empty subject counts as none. *)
Theorem getModePrompt_holds_query (userQuery : string)
    (mode : StudyAssistant.AssistantMode) (subject : option string) :
  JSString.includes (StudyAssistant.getModePrompt userQuery mode subject) userQuery = true
  /\ (forall s, subject = Some s ->
                JSString.includes (StudyAssistant.getModePrompt userQuery mode subject) s
                = true)
  /\ StudyAssistant.getModePrompt userQuery mode (Some "")
     = StudyAssistant.getModePrompt userQuery mode None.
Proof.
  repeat apply conj.
  - unfold StudyAssistant.getModePrompt. set (ctx := match subject with _ => _ end).
    destruct mode;
      repeat first [ apply includes_self | apply includes_here | apply includes_app_r ].
  - intros s ->. unfold StudyAssistant.getModePrompt.
    destruct s as [| c s].
    + destruct mode; reflexivity.
    + destruct mode;
        apply includes_app_r, includes_app_l, includes_app_r, includes_self.
  - reflexivity.
Qed.

Lemma getModePrompt_holds_query_witness :
  JSString.includes
    (StudyAssistant.getModePrompt "entropy" StudyAssistant.flashcards (Some "Physics"))
    "Physics" = true.
Proof.
  apply (proj1 (proj2 (getModePrompt_holds_query "entropy" StudyAssistant.flashcards
                         (Some "Physics")))
           "Physics" eq_refl).
Defined.

Section AssistantFacts.

Import StudyAssistant.

Lemma last_nonempty {A : Type} (x : A) (xs : list A) (d d' : A) :
  last (x :: xs) d = last (x :: xs) d'.
Proof.
  revert x. induction xs as [| y ys IH]; intros x; [reflexivity |].
  change (last (y :: ys) d = last (y :: ys) d'). apply IH.
Qed.

Lemma fold_setError (messages : list string) (st : State) :
  let st' := fold_left (fun st m => setError m st) messages st in
  mode st' = mode st /\ query st' = query st /\ result st' = result st
  /\ isLoading st' = isLoading st /\ error st' = last messages (error st).
Proof.
  revert st. induction messages as [| m ms IH]; intros st; cbn [fold_left].
  - cbn. tauto.
  - destruct (IH (setError m st)) as (M & Qy & R & L & E). cbv zeta.
    rewrite M, Qy, R, L, E. cbn [setError mode query result isLoading error].
    repeat split. destruct ms as [| s ms]; [reflexivity |].
    change (last (m :: s :: ms) (error st)) with (last (s :: ms) (error st)).
    apply last_nonempty.
Qed.

Variable subject : option string.
Variable apiKey : option string.
Variable gemini : nat -> list ChatMessage -> JSResult Response.t.

(** The state in which the request is made, and the state at the end. *)
Lemma handleSubmit_unfold (st : State) :
  JSText.trim (query st) <> "" ->
  let started := setError "" (setIsLoading true st) in
  let events := fst (ask subject apiKey gemini started) in
  let outcome := snd (ask subject apiKey gemini started) in
  handleSubmit subject apiKey gemini st
  = (events,
     {| mode := mode st;
        query := query st;
        result := match outcome with
                  | Returns content => content
                  | Throws _ => result st
                  end;
        error := match outcome with
                 | Returns _ => last (shown events) ""
                 | Throws err => failureMessage err
                 end;
        isLoading := false |}).
Proof.
  intros NB started events outcome. unfold handleSubmit.
  destruct (String.eqb_spec (JSText.trim (query st)) ""); [contradiction |].
  fold started. subst events outcome.
  destruct (ask subject apiKey gemini started) as [events outcome]. cbn [fst snd].
  destruct (fold_setError (shown events) started) as (M & Qy & R & L & E).
  cbv zeta in *. f_equal.
  set (shownAll := fold_left _ (shown events) started) in *.
  clearbody shownAll.
  destruct outcome; unfold setIsLoading, setResult, setError;
    cbn [mode query result error isLoading]; rewrite ?M, ?Qy, ?R, ?E; reflexivity.
Qed.

End AssistantFacts.

(** X14.  A submission to the assistant never changes the mode or the
    query, calls the service at most three times and waits at most three
    seconds in between.  With a blank query it calls nothing and only puts
    up "Please enter a query"; with an invalid key it calls nothing
    either.  Otherwise it calls at least once, and the loading flag is off
    when it is done. *)
Theorem assistant_handleSubmit_frame (subject apiKey : option string)
    (gemini : nat -> list ChatMessage -> JSResult Response.t)
    (st : StudyAssistant.State) :
  let events := fst (StudyAssistant.handleSubmit subject apiKey gemini st) in
  let st' := snd (StudyAssistant.handleSubmit subject apiKey gemini st) in
  StudyAssistant.mode st' = StudyAssistant.mode st
  /\ StudyAssistant.query st' = StudyAssistant.query st
  /\ (List.length (StudyAssistant.calls events) <= 3)%nat
  /\ fold_right Z.add 0 (StudyAssistant.waits events) <= 3000
  /\ (JSText.trim (StudyAssistant.query st) = "" ->
      events = [] /\ st' = StudyAssistant.setError "Please enter a query" st)
  /\ (GeminiClient.valid (GeminiClient.validateApiKey apiKey) = false -> events = [])
  /\ (JSText.trim (StudyAssistant.query st) <> "" ->
      StudyAssistant.isLoading st' = false
      /\ (GeminiClient.valid (GeminiClient.validateApiKey apiKey) = true ->
          (1 <= List.length (StudyAssistant.calls events))%nat)).
Proof.
  intros events st'. subst events st'.
  destruct (String.eqb_spec (JSText.trim (StudyAssistant.query st)) "") as [Blank | NB].
  - unfold StudyAssistant.handleSubmit.
    destruct (String.eqb_spec (JSText.trim (StudyAssistant.query st)) "");
      [| contradiction].
    cbn. repeat split; trivial; try lia; contradiction.
  - rewrite (handleSubmit_unfold subject apiKey gemini st NB). cbn [fst snd].
    cbn [StudyAssistant.mode StudyAssistant.query StudyAssistant.isLoading].
    unfold StudyAssistant.ask.
    destruct (GeminiClient.valid (GeminiClient.validateApiKey apiKey)); cbn [negb].
    + match goal with
      | |- context [StudyAssistant.retryWithBackoff ?f 3 1000] =>
          destruct (retryWithBackoff_calls f 3 1000) as (n & N1 & N3 & C & Sum); [lia |];
          destruct (StudyAssistant.retryWithBackoff f 3 1000) as [events outcome]
      end.
      cbn [fst snd] in *.
      rewrite C, length_seq, Sum.
      repeat split; trivial; try lia; try contradiction; try discriminate.
      destruct n as [| [| [| [| n]]]]; cbn; lia.
    + cbn. repeat split; trivial; try lia; try contradiction; discriminate.
Qed.

Lemma assistant_handleSubmit_frame_witness :
  fst (StudyAssistant.handleSubmit None (Some "key") (fun _ _ => Throws (HttpError 500))
         {| StudyAssistant.mode := StudyAssistant.summary;
            StudyAssistant.query := "   ";
            StudyAssistant.result := "";
            StudyAssistant.error := "";
            StudyAssistant.isLoading := false |})
  = [].
Proof.
  destruct (assistant_handleSubmit_frame None (Some "key")
              (fun _ _ => Throws (HttpError 500))
              {| StudyAssistant.mode := StudyAssistant.summary;
                 StudyAssistant.query := "   ";
                 StudyAssistant.result := "";
                 StudyAssistant.error := "";
                 StudyAssistant.isLoading := false |})
    as (_ & _ & _ & _ & Blank & _).
  apply Blank. reflexivity.
Defined.

Lemma append_nonempty_r (a b : string) : b <> "" -> a ++ b <> "".
Proof. intros B. destruct a; cbn; [exact B | discriminate]. Qed.

Lemma failureMessage_nonempty (err : Error) : StudyAssistant.failureMessage err <> "".
Proof.
  unfold StudyAssistant.failureMessage.
  destruct (GeminiClient.type _); try (apply append_nonempty_r; discriminate).
  destruct (JSString.includes _ _); [discriminate |].
  apply append_nonempty_r, append_nonempty_r. discriminate.
Qed.

Lemma validateApiKey_invalid (apiKey : option string) :
  GeminiClient.valid (GeminiClient.validateApiKey apiKey) = false ->
  GeminiClient.error (GeminiClient.validateApiKey apiKey) = Some "API key is missing"
  \/ GeminiClient.error (GeminiClient.validateApiKey apiKey)
     = Some "API key is a placeholder".
Proof.
  unfold GeminiClient.validateApiKey.
  destruct apiKey as [[| c key] |]; auto.
  destruct (_ || _); auto. discriminate.
Qed.

(** X15.  An answer that comes after rate limits.  With a query and a valid
    key, let the first [k] calls (none, one or two) be rejected with status
    429 and let the next one answer with a text.  Then the handler has made
    [k + 1] calls and shows the text as the result; the loading flag is
    off; and the notice of the last retry, "Rate limit reached. Retrying
    (k/3)...", is still in the error field when [k] is not zero: nothing
    clears it once the answer is there. *)
Theorem assistant_answer_after_rate_limits (subject apiKey : option string)
    (gemini : nat -> list ChatMessage -> JSResult Response.t)
    (st : StudyAssistant.State) (k : nat) (response : Response.t) (text : string) :
  let messages :=
    [ {| role := "system";
         content := "You are an expert study assistant helping students learn effectively." |};
      {| role := "user";
         content := StudyAssistant.getModePrompt (StudyAssistant.query st)
                      (StudyAssistant.mode st) subject |} ] in
  JSText.trim (StudyAssistant.query st) <> "" ->
  GeminiClient.valid (GeminiClient.validateApiKey apiKey) = true ->
  (forall j, (j < k)%nat ->
     exists e, gemini j messages = Throws e /\ JSError.status e = Some 429) ->
  (k < 3)%nat ->
  gemini k messages = Returns response ->
  firstContent response = Some text ->
  text <> "" ->
  StudyAssistant.calls (fst (StudyAssistant.handleSubmit subject apiKey gemini st))
  = seq 0 (S k)
  /\ snd (StudyAssistant.handleSubmit subject apiKey gemini st)
     = {| StudyAssistant.mode := StudyAssistant.mode st;
          StudyAssistant.query := StudyAssistant.query st;
          StudyAssistant.result := text;
          StudyAssistant.error :=
            match k with
            | O => ""
            | S _ => StudyAssistant.retryMessage (Z.of_nat k) 3
            end;
          StudyAssistant.isLoading := false |}.
Proof.
  intros messages NB V Limited Lt Ret FC NE.
  rewrite (handleSubmit_unfold subject apiKey gemini st NB). cbn [fst snd].
  unfold StudyAssistant.ask. rewrite V. cbn [negb].
  cbn [StudyAssistant.query StudyAssistant.mode StudyAssistant.setError
       StudyAssistant.setIsLoading].
  fold messages.
  destruct (retryWithBackoff_run (fun attempt => gemini attempt messages) 3 1000 k)
    as (events & R & C & Sh).
  { exact Limited. }
  { lia. }
  { cbv beta. rewrite Ret. exact I. }
  cbv beta in R. rewrite Ret in R. rewrite R. cbn [fst snd bind].
  rewrite FC. destruct text as [| c text]; [contradiction |].
  split; [exact C |]. f_equal. rewrite Sh.
  destruct k as [| [| [| k]]]; [reflexivity | reflexivity | reflexivity | lia].
Qed.

Lemma assistant_answer_after_rate_limits_witness :
  snd (StudyAssistant.handleSubmit None (Some "key")
         (fun attempt _ =>
            match attempt with
            | O => Throws (HttpError 429)
            | S _ => Returns (GeminiClient.completion "Mitosis has four phases.")
            end)
         {| StudyAssistant.mode := StudyAssistant.summary;
            StudyAssistant.query := "mitosis";
            StudyAssistant.result := "";
            StudyAssistant.error := "";
            StudyAssistant.isLoading := false |})
  = {| StudyAssistant.mode := StudyAssistant.summary;
       StudyAssistant.query := "mitosis";
       StudyAssistant.result := "Mitosis has four phases.";
       StudyAssistant.error := "Rate limit reached. Retrying (1/3)...";
       StudyAssistant.isLoading := false |}.
Proof.
  apply (assistant_answer_after_rate_limits None (Some "key")
           (fun attempt _ =>
              match attempt with
              | O => Throws (HttpError 429)
              | S _ => Returns (GeminiClient.completion "Mitosis has four phases.")
              end)
           {| StudyAssistant.mode := StudyAssistant.summary;
              StudyAssistant.query := "mitosis";
              StudyAssistant.result := "";
              StudyAssistant.error := "";
              StudyAssistant.isLoading := false |}
           1 (GeminiClient.completion "Mitosis has four phases.")
           "Mitosis has four phases.").
  - vm_compute. discriminate.
  - reflexivity.
  - intros j J. exists (HttpError 429). destruct j; [split; reflexivity | lia].
  - lia.
  - reflexivity.
  - reflexivity.
  - discriminate.
Defined.

(** X16.  A call that fails for good.  With a query and a valid key, let
    the first [k] calls be rejected with status 429 and let the next one
    fail with an error [e] that is no rate limit, or be the third.  Then
    the handler has made [k + 1] calls, the result on the screen is the one
    that was there before, the error field holds the explanation of [e],
    which is never empty, and the loading flag is off.  When [e] is the
    third rate limit itself the explanation begins with that of the
    client, "Rate limit exceeded. Please try again in a few minutes." *)
Theorem assistant_call_failure (subject apiKey : option string)
    (gemini : nat -> list ChatMessage -> JSResult Response.t)
    (st : StudyAssistant.State) (k : nat) (e : Error) :
  let messages :=
    [ {| role := "system";
         content := "You are an expert study assistant helping students learn effectively." |};
      {| role := "user";
         content := StudyAssistant.getModePrompt (StudyAssistant.query st)
                      (StudyAssistant.mode st) subject |} ] in
  JSText.trim (StudyAssistant.query st) <> "" ->
  GeminiClient.valid (GeminiClient.validateApiKey apiKey) = true ->
  (forall j, (j < k)%nat ->
     exists e', gemini j messages = Throws e' /\ JSError.status e' = Some 429) ->
  (k < 3)%nat ->
  gemini k messages = Throws e ->
  JSError.status e <> Some 429 \/ k = 2%nat ->
  StudyAssistant.calls (fst (StudyAssistant.handleSubmit subject apiKey gemini st))
  = seq 0 (S k)
  /\ snd (StudyAssistant.handleSubmit subject apiKey gemini st)
     = {| StudyAssistant.mode := StudyAssistant.mode st;
          StudyAssistant.query := StudyAssistant.query st;
          StudyAssistant.result := StudyAssistant.result st;
          StudyAssistant.error := StudyAssistant.failureMessage e;
          StudyAssistant.isLoading := false |}
  /\ StudyAssistant.failureMessage e <> ""
  /\ (JSError.status e = Some 429 ->
      String.prefix "Rate limit exceeded. Please try again in a few minutes."
        (StudyAssistant.failureMessage e) = true).
Proof.
  intros messages NB V Limited Lt Fails Final.
  rewrite (handleSubmit_unfold subject apiKey gemini st NB). cbn [fst snd].
  unfold StudyAssistant.ask. rewrite V. cbn [negb].
  cbn [StudyAssistant.query StudyAssistant.mode StudyAssistant.setError
       StudyAssistant.setIsLoading].
  fold messages.
  destruct (retryWithBackoff_run (fun attempt => gemini attempt messages) 3 1000 k)
    as (events & R & C & Sh).
  { exact Limited. }
  { lia. }
  { cbv beta. rewrite Fails. destruct Final; [left; trivial | right; lia]. }
  cbv beta in R. rewrite Fails in R. rewrite R. cbn [fst snd bind].
  repeat split; trivial.
  - apply failureMessage_nonempty.
  - intros St. unfold StudyAssistant.failureMessage, GeminiClient.handleGeminiError.
    rewrite St. cbn [Z.eqb Pos.eqb GeminiClient.type GeminiClient.message].
    apply prefix_app.
Qed.

Lemma assistant_call_failure_witness :
  StudyAssistant.error
    (snd (StudyAssistant.handleSubmit None (Some "key")
            (fun _ _ => Throws (HttpError 503))
            {| StudyAssistant.mode := StudyAssistant.practice;
               StudyAssistant.query := "mitosis";
               StudyAssistant.result := "An earlier answer";
               StudyAssistant.error := "";
               StudyAssistant.isLoading := false |}))
  = "Gemini servers are experiencing issues. Please try again later. This is an issue with Google's servers and not with your request."
  /\ StudyAssistant.result
       (snd (StudyAssistant.handleSubmit None (Some "key")
               (fun _ _ => Throws (HttpError 503))
               {| StudyAssistant.mode := StudyAssistant.practice;
                  StudyAssistant.query := "mitosis";
                  StudyAssistant.result := "An earlier answer";
                  StudyAssistant.error := "";
                  StudyAssistant.isLoading := false |}))
     = "An earlier answer".
Proof.
  destruct (assistant_call_failure None (Some "key")
              (fun _ _ => Throws (HttpError 503))
              {| StudyAssistant.mode := StudyAssistant.practice;
                 StudyAssistant.query := "mitosis";
                 StudyAssistant.result := "An earlier answer";
                 StudyAssistant.error := "";
                 StudyAssistant.isLoading := false |}
              0 (HttpError 503)) as (_ & Final & _).
  - vm_compute. discriminate.
  - reflexivity.
  - intros j J. lia.
  - lia.
  - reflexivity.
  - left. discriminate.
  - rewrite Final. split; reflexivity.
Defined.

(** X17.  Failures before and after the calls.  With a query but without a
    usable key (none, an empty one or a placeholder) the handler makes no
    call, keeps the result and tells the user to check the key
    configuration.  With a valid key and a first answer that holds no
    text, it has made one call, keeps the result and reports
    "No response from AI". *)
Theorem assistant_failure_without_answer (subject apiKey : option string)
    (gemini : nat -> list ChatMessage -> JSResult Response.t)
    (st : StudyAssistant.State) :
  JSText.trim (StudyAssistant.query st) <> "" ->
  (GeminiClient.valid (GeminiClient.validateApiKey apiKey) = false ->
   StudyAssistant.handleSubmit subject apiKey gemini st
   = ([],
      {| StudyAssistant.mode := StudyAssistant.mode st;
         StudyAssistant.query := StudyAssistant.query st;
         StudyAssistant.result := StudyAssistant.result st;
         StudyAssistant.error :=
           "Gemini API key error: Please check your API key configuration in the .env file. You can get an API key from Google AI Studio.";
         StudyAssistant.isLoading := false |}))
  /\ (forall response,
        GeminiClient.valid (GeminiClient.validateApiKey apiKey) = true ->
        gemini 0%nat
          [ {| role := "system";
               content := "You are an expert study assistant helping students learn effectively." |};
            {| role := "user";
               content := StudyAssistant.getModePrompt (StudyAssistant.query st)
                            (StudyAssistant.mode st) subject |} ]
        = Returns response ->
        firstContent response = None \/ firstContent response = Some "" ->
        StudyAssistant.calls (fst (StudyAssistant.handleSubmit subject apiKey gemini st))
        = [0%nat]
        /\ snd (StudyAssistant.handleSubmit subject apiKey gemini st)
           = {| StudyAssistant.mode := StudyAssistant.mode st;
                StudyAssistant.query := StudyAssistant.query st;
                StudyAssistant.result := StudyAssistant.result st;
                StudyAssistant.error :=
                  "Failed to get a response: No response from AI. Please try again later.";
                StudyAssistant.isLoading := false |}).
Proof.
  intros NB. split.
  - intros V. rewrite (handleSubmit_unfold subject apiKey gemini st NB).
    unfold StudyAssistant.ask. rewrite V. cbn [negb fst snd].
    destruct (validateApiKey_invalid apiKey V) as [-> | ->]; reflexivity.
  - intros response V Ret Empty.
    rewrite (handleSubmit_unfold subject apiKey gemini st NB). cbn [fst snd].
    unfold StudyAssistant.ask. rewrite V. cbn [negb].
    cbn [StudyAssistant.query StudyAssistant.mode StudyAssistant.setError
         StudyAssistant.setIsLoading].
    match goal with
    | |- context [StudyAssistant.retryWithBackoff ?f 3 1000] =>
        destruct (retryWithBackoff_run f 3 1000 0) as (events & R & C & Sh)
    end.
    { intros j J. lia. }
    { lia. }
    { cbv beta. rewrite Ret. exact I. }
    cbv beta in R. rewrite Ret in R. rewrite R. cbn [fst snd bind].
    split; [exact C |].
    destruct Empty as [-> | ->]; reflexivity.
Qed.

Lemma assistant_failure_without_answer_witness :
  StudyAssistant.handleSubmit None (Some "your-api-key-here")
    (fun _ _ => Returns (GeminiClient.completion "unused"))
    {| StudyAssistant.mode := StudyAssistant.strategy;
       StudyAssistant.query := "exam in two days";
       StudyAssistant.result := "";
       StudyAssistant.error := "";
       StudyAssistant.isLoading := false |}
  = ([],
     {| StudyAssistant.mode := StudyAssistant.strategy;
        StudyAssistant.query := "exam in two days";
        StudyAssistant.result := "";
        StudyAssistant.error :=
          "Gemini API key error: Please check your API key configuration in the .env file. You can get an API key from Google AI Studio.";
        StudyAssistant.isLoading := false |}).
Proof.
  apply (assistant_failure_without_answer None (Some "your-api-key-here")
           (fun _ _ => Returns (GeminiClient.completion "unused"))
           {| StudyAssistant.mode := StudyAssistant.strategy;
              StudyAssistant.query := "exam in two days";
              StudyAssistant.result := "";
              StudyAssistant.error := "";
              StudyAssistant.isLoading := false |}).
  - vm_compute. discriminate.
  - reflexivity.
Defined.

(** ** The form *)

Lemma length_gt_one {A : Type} (l : list A) :
  JSNumber.gtb (JSArray.length l) (Int 1) = (1 <? List.length l)%nat.
Proof.
  unfold JSArray.length, JSNumber.gtb.
  destruct (Nat.ltb_spec 1 (List.length l)), (Z.ltb_spec 1 (Z.of_nat (List.length l)));
    trivial; lia.
Qed.

Lemma length_is_zero {A : Type} (l : list A) :
  JSNumber.strictEq (JSArray.length l) (Int 0) = true <-> l = [].
Proof.
  unfold JSArray.length, JSNumber.strictEq. rewrite Z.eqb_eq.
  destruct l; cbn [List.length]; split; trivial; try discriminate; lia.
Qed.

(** Taking out an id that occurs once takes out one row. *)
Lemma filter_out_id (i : string) (l : list Subject) :
  NoDup (map id l) ->
  let kept := filter (fun subject => negb (String.eqb (id subject) i)) l in
  (List.length l <= S (List.length kept))%nat
  /\ (In i (map id l) -> List.length l = S (List.length kept))
  /\ ~ In i (map id kept).
Proof.
  induction l as [| s l IH]; intros ND; cbn [map filter List.length In].
  - repeat split; try lia; tauto.
  - inversion ND as [| ? ? NI ND']. subst.
    destruct (IH ND') as (Le & Eq & Out). cbv zeta in *.
    destruct (String.eqb_spec (id s) i) as [<- | NE]; cbn [negb List.length map In].
    + assert (All : filter (fun subject => negb (String.eqb (id subject) (id s))) l = l).
      { clear - NI. induction l as [| x l IH]; cbn [filter]; trivial.
        cbn [map In] in NI.
        destruct (String.eqb_spec (id x) (id s)) as [E | _]; cbn [negb].
        - exfalso. apply NI. left. exact E.
        - f_equal. apply IH. tauto. }
      rewrite All. repeat split; try lia. exact NI.
    + repeat split; try lia.
      * intros [E | I]; [contradiction | ]. apply Eq in I. lia.
      * intros [E | I]; [contradiction | auto].
Qed.

(** X18.  Removing a row of the form.  While the ids of the rows are
    distinct, a form with a row keeps at least one row whatever is
    removed: removing from a single row changes nothing, and removing from
    more rows takes out the one row with that id and leaves the daily
    hours alone.  Distinct ids are needed for this: an id is the reading of
    the clock when the row was added, two rows added at one reading share
    it, and removing it then takes both rows, which can leave the form
    without any row. *)
Theorem removeSubject_keeps_a_row (i : string) (st : StudyPlanForm.State) :
  (NoDup (map id (StudyPlanForm.subjects st)) ->
   StudyPlanForm.subjects st <> [] ->
   StudyPlanForm.subjects (StudyPlanForm.removeSubject i st) <> []
   /\ StudyPlanForm.dailyHours (StudyPlanForm.removeSubject i st)
      = StudyPlanForm.dailyHours st
   /\ (List.length (StudyPlanForm.subjects st) = 1%nat ->
       StudyPlanForm.removeSubject i st = st)
   /\ (In i (map id (StudyPlanForm.subjects st)) ->
       (1 < List.length (StudyPlanForm.subjects st))%nat ->
       S (List.length (StudyPlanForm.subjects (StudyPlanForm.removeSubject i st)))
       = List.length (StudyPlanForm.subjects st)
       /\ ~ In i (map id (StudyPlanForm.subjects (StudyPlanForm.removeSubject i st)))))
  /\ (forall t : Z,
        StudyPlanForm.subjects
          (StudyPlanForm.removeSubject (JSString.ofZ t)
             (StudyPlanForm.removeSubject "1"
                (StudyPlanForm.addSubject t
                   (StudyPlanForm.addSubject t StudyPlanForm.initial))))
        = []).
Proof.
  split.
  - intros ND NE. unfold StudyPlanForm.removeSubject. rewrite length_gt_one.
    destruct (filter_out_id i (StudyPlanForm.subjects st) ND) as (Le & Eq & Out).
    cbv zeta in *.
    destruct (Nat.ltb_spec 1 (List.length (StudyPlanForm.subjects st))) as [Many | Few];
      cbn [StudyPlanForm.subjects StudyPlanForm.dailyHours StudyPlanForm.setSubjects].
    + split; [| split; [| split]]; trivial.
      * intros E. rewrite E in Le. cbn in Le. lia.
      * intros One. lia.
      * intros I _. split; [symmetry; auto | exact Out].
    + split; [| split; [| split]]; trivial. intros _ Many. lia.
  - intros t. unfold StudyPlanForm.addSubject, StudyPlanForm.initial.
    cbn [StudyPlanForm.subjects StudyPlanForm.setSubjects StudyPlanForm.dailyHours app].
    unfold StudyPlanForm.removeSubject at 2.
    cbn [StudyPlanForm.subjects StudyPlanForm.setSubjects StudyPlanForm.dailyHours].
    rewrite length_gt_one. cbn [List.length Nat.ltb Nat.leb filter id].
    change (String.eqb "1" "1") with true. cbn [negb].
    unfold StudyPlanForm.removeSubject.
    destruct (String.eqb (JSString.ofZ t) "1");
      cbn [negb StudyPlanForm.subjects StudyPlanForm.setSubjects StudyPlanForm.dailyHours];
      rewrite length_gt_one; cbn [List.length Nat.ltb Nat.leb]; [reflexivity |].
    cbn [StudyPlanForm.subjects StudyPlanForm.setSubjects filter id].
    rewrite String.eqb_refl. reflexivity.
Qed.

Lemma removeSubject_keeps_a_row_witness :
  StudyPlanForm.subjects
    (StudyPlanForm.removeSubject "1"
       (StudyPlanForm.addSubject 1700000000000 StudyPlanForm.initial))
  <> [].
Proof.
  apply (proj1 (removeSubject_keeps_a_row "1"
                  (StudyPlanForm.addSubject 1700000000000 StudyPlanForm.initial))).
  - vm_compute. repeat constructor; cbn; intuition discriminate.
  - discriminate.
Defined.

(** The test of [handleSubmit] on a row. *)
Lemma form_row_valid (s : Subject) :
  negb (String.eqb (JSText.trim (name s)) "")
  && match deadline s with
     | Some _ => true
     | None => false
     end = true
  <-> JSText.trim (name s) <> "" /\ exists d, deadline s = Some d.
Proof.
  destruct (String.eqb_spec (JSText.trim (name s)) "") as [E | NE], (deadline s) as [d |];
    cbn; split; try discriminate; try tauto; eauto;
    intros (_ & d' & D); discriminate.
Qed.

Lemma form_handleSubmit_cases (st : StudyPlanForm.State) :
  let validSubjects :=
    filter (fun subject =>
              negb (String.eqb (JSText.trim (name subject)) "")
              && match deadline subject with
                 | Some _ => true
                 | None => false
                 end)
           (StudyPlanForm.subjects st) in
  match validSubjects with
  | [] =>
      StudyPlanForm.handleSubmit st
      = StudyPlanForm.Alert "Please add at least one subject with a deadline"
  | _ :: _ =>
      StudyPlanForm.handleSubmit st
      = StudyPlanForm.Submit {| subjects := validSubjects;
                                dailyHours := StudyPlanForm.dailyHours st |}
  end.
Proof.
  intros validSubjects. unfold StudyPlanForm.handleSubmit. fold validSubjects.
  pose proof (length_is_zero validSubjects) as Z0.
  destruct (JSNumber.strictEq (JSArray.length validSubjects) (Int 0)).
  - rewrite (proj1 Z0 eq_refl). reflexivity.
  - destruct validSubjects; [| reflexivity].
    assert (false = true) by now apply Z0. discriminate.
Qed.

(** X19.  What the form submits.  It raises the alert exactly when no row
    has both a name that is not blank and a deadline.  Otherwise it submits
    the daily hours as they are and the rows that have both, at least one,
    and no other row.  Rows that were added and left empty make no
    difference to either. *)
Theorem form_submits_complete_rows (st : StudyPlanForm.State) :
  (forall message,
      StudyPlanForm.handleSubmit st = StudyPlanForm.Alert message ->
      forall s, In s (StudyPlanForm.subjects st) ->
                JSText.trim (name s) = "" \/ deadline s = None)
  /\ ((forall s, In s (StudyPlanForm.subjects st) ->
                 JSText.trim (name s) = "" \/ deadline s = None) ->
      StudyPlanForm.handleSubmit st
      = StudyPlanForm.Alert "Please add at least one subject with a deadline")
  /\ (forall data,
        StudyPlanForm.handleSubmit st = StudyPlanForm.Submit data ->
        subjects data <> []
        /\ dailyHours data = StudyPlanForm.dailyHours st
        /\ forall s,
            In s (subjects data)
            <-> In s (StudyPlanForm.subjects st)
                /\ JSText.trim (name s) <> "" /\ exists d, deadline s = Some d)
  /\ (forall t,
        StudyPlanForm.handleSubmit (StudyPlanForm.addSubject t st)
        = StudyPlanForm.handleSubmit st).
Proof.
  pose proof (form_handleSubmit_cases st) as C. cbv zeta in C.
  split; [| split; [| split]].
  - intros message A s I.
    destruct (filter _ (StudyPlanForm.subjects st)) as [| v vs] eqn:F;
      [| rewrite C in A; discriminate].
    destruct (String.eqb_spec (JSText.trim (name s)) "") as [E | NE]; [now left |].
    destruct (deadline s) as [d |] eqn:D; [| now right].
    assert (V : In s []).
    { rewrite <- F. apply filter_In. split; [exact I |].
      apply form_row_valid. eauto. }
    contradiction.
  - intros None.
    destruct (filter _ (StudyPlanForm.subjects st)) as [| v vs] eqn:F; [exact C |].
    assert (V : In v (v :: vs)) by now left.
    rewrite <- F in V. apply filter_In in V. destruct V as (I & V).
    apply form_row_valid in V. destruct V as (NB & d & D).
    destruct (None v I) as [B | B]; [contradiction | congruence].
  - intros data Sub.
    destruct (filter _ (StudyPlanForm.subjects st)) as [| v vs] eqn:F;
      [rewrite C in Sub; discriminate |].
    rewrite C in Sub. injection Sub as <-. cbn [subjects dailyHours].
    split; [discriminate |]. split; [reflexivity |].
    intros s. rewrite <- F, filter_In, form_row_valid. reflexivity.
  - intros t. unfold StudyPlanForm.handleSubmit, StudyPlanForm.addSubject.
    cbn [StudyPlanForm.subjects StudyPlanForm.setSubjects StudyPlanForm.dailyHours].
    rewrite filter_app. cbn [filter name deadline andb].
    rewrite andb_false_r, app_nil_r. reflexivity.
Qed.

Lemma form_submits_complete_rows_witness :
  StudyPlanForm.handleSubmit StudyPlanForm.initial
  = StudyPlanForm.Alert "Please add at least one subject with a deadline".
Proof.
  apply (form_submits_complete_rows StudyPlanForm.initial).
  intros s [<- | []]. left. reflexivity.
Defined.

Lemma updateSubject_ids (i : string) (u : StudyPlanForm.Update) (st : StudyPlanForm.State) :
  map id (StudyPlanForm.subjects (StudyPlanForm.updateSubject i u st))
  = map id (StudyPlanForm.subjects st).
Proof.
  unfold StudyPlanForm.updateSubject. cbn [StudyPlanForm.subjects StudyPlanForm.setSubjects].
  rewrite map_map. apply map_ext. intros s.
  destruct (String.eqb (id s) i); [destruct u |]; reflexivity.
Qed.

(** X20.  Filling a row in.  Typing a name that is not blank into a row of
    the form and picking a date for it, in either order, makes the form
    submit, and the submitted subjects hold that row with this name and
    this date.  Neither edit adds, removes, moves or renames the id of a
    row, and rows with another id are as they were. *)
Theorem form_filled_row_is_submitted (i value : string) (date : Z)
    (st : StudyPlanForm.State) :
  In i (map id (StudyPlanForm.subjects st)) ->
  JSText.trim value <> "" ->
  let named :=
    StudyPlanForm.updateSubject i (StudyPlanForm.Deadline date)
      (StudyPlanForm.updateSubject i (StudyPlanForm.Name value) st) in
  let dated :=
    StudyPlanForm.updateSubject i (StudyPlanForm.Name value)
      (StudyPlanForm.updateSubject i (StudyPlanForm.Deadline date) st) in
  named = dated
  /\ map id (StudyPlanForm.subjects named) = map id (StudyPlanForm.subjects st)
  /\ (forall s, In s (StudyPlanForm.subjects st) -> id s <> i ->
                In s (StudyPlanForm.subjects named))
  /\ exists data,
      StudyPlanForm.handleSubmit named = StudyPlanForm.Submit data
      /\ In {| id := i; name := value; deadline := Some date |} (subjects data).
Proof.
  intros Member NB named dated.
  assert (Rows : StudyPlanForm.subjects named
                 = map (fun s => if String.eqb (id s) i
                                 then {| id := id s; name := value; deadline := Some date |}
                                 else s)
                       (StudyPlanForm.subjects st)).
  { subst named. unfold StudyPlanForm.updateSubject.
    cbn [StudyPlanForm.subjects StudyPlanForm.setSubjects]. rewrite map_map.
    apply map_ext. intros s.
    destruct (String.eqb (id s) i) eqn:E; cbn [id name deadline]; rewrite ?E; reflexivity. }
  assert (Rows' : StudyPlanForm.subjects dated = StudyPlanForm.subjects named).
  { rewrite Rows. subst dated. unfold StudyPlanForm.updateSubject.
    cbn [StudyPlanForm.subjects StudyPlanForm.setSubjects]. rewrite map_map.
    apply map_ext. intros s.
    destruct (String.eqb (id s) i) eqn:E; cbn [id name deadline]; rewrite ?E; reflexivity. }
  assert (Filled : In {| id := i; name := value; deadline := Some date |}
                      (StudyPlanForm.subjects named)).
  { rewrite Rows. apply in_map_iff in Member. destruct Member as (s & <- & I).
    apply in_map_iff. exists s. split; [| exact I]. now rewrite String.eqb_refl. }
  split; [| split; [| split]].
  - destruct named as [rows hours] eqn:N, dated as [rows' hours'] eqn:D.
    cbn [StudyPlanForm.subjects] in Rows'. subst rows'. f_equal.
    transitivity (StudyPlanForm.dailyHours st).
    + change hours with (StudyPlanForm.dailyHours {| StudyPlanForm.subjects := rows;
                                                     StudyPlanForm.dailyHours := hours |}).
      rewrite <- N. reflexivity.
    + change hours' with (StudyPlanForm.dailyHours {| StudyPlanForm.subjects := rows;
                                                      StudyPlanForm.dailyHours := hours' |}).
      rewrite <- D. reflexivity.
  - subst named. now rewrite !updateSubject_ids.
  - intros s I NE. rewrite Rows. apply in_map_iff. exists s. split; [| exact I].
    destruct (String.eqb_spec (id s) i); [contradiction | reflexivity].
  - pose proof (form_handleSubmit_cases named) as C. cbv zeta in C.
    assert (V : In {| id := i; name := value; deadline := Some date |}
                   (filter (fun subject =>
                              negb (String.eqb (JSText.trim (name subject)) "")
                              && match deadline subject with
                                 | Some _ => true
                                 | None => false
                                 end)
                           (StudyPlanForm.subjects named))).
    { apply filter_In. split; [exact Filled |]. apply form_row_valid.
      cbn [name deadline]. eauto. }
    destruct (filter _ (StudyPlanForm.subjects named)) as [| v vs]; [contradiction |].
    eexists. split; [exact C | exact V].
Qed.

Lemma form_filled_row_is_submitted_witness :
  exists data,
    StudyPlanForm.handleSubmit
      (StudyPlanForm.updateSubject "1" (StudyPlanForm.Deadline 1700000000000)
         (StudyPlanForm.updateSubject "1" (StudyPlanForm.Name "Algebra")
            StudyPlanForm.initial))
    = StudyPlanForm.Submit data
    /\ In {| id := "1"; name := "Algebra"; deadline := Some 1700000000000 |}
          (subjects data).
Proof.
  apply (form_filled_row_is_submitted "1" "Algebra" 1700000000000 StudyPlanForm.initial).
  - left. reflexivity.
  - vm_compute. discriminate.
Defined.

(** X21.  From the form to the fallback plan.  Whatever the form submits,
    the planner works on the submitted rows themselves and never on its
    placeholder, and each of the five days of the plan bears the name of a
    row of the form that has a name and a deadline, or two such names
    joined by a comma and a space. *)
Theorem form_plan_names_form_rows (host : Host) (st : StudyPlanForm.State)
    (data : StudyFormData) (plan : StudyPlanResult) :
  StudyPlanForm.handleSubmit st = StudyPlanForm.Submit data ->
  generateFallbackStudyPlan host data = Returns plan ->
  availableSubjects host (sortedSubjects host data) = sortedSubjects host data
  /\ forall i d,
      nth_error (studyPlan plan) i = Some d ->
      exists s,
        In s (StudyPlanForm.subjects st)
        /\ JSText.trim (name s) <> ""
        /\ deadline s <> None
        /\ (subject d = name s
            \/ exists s',
                In s' (StudyPlanForm.subjects st)
                /\ JSText.trim (name s') <> ""
                /\ deadline s' <> None
                /\ subject d = name s ++ ", " ++ name s').
Proof.
  intros Sub G.
  pose proof (form_handleSubmit_cases st) as C. cbv zeta in C.
  destruct (filter _ (StudyPlanForm.subjects st)) as [| v vs] eqn:F;
    rewrite C in Sub; [discriminate |].
  injection Sub as <-.
  set (data := {| subjects := v :: vs; dailyHours := StudyPlanForm.dailyHours st |}) in *.
  pose proof (sort_Permutation (byDeadline host) (subjects data)) as P.
  fold (sortedSubjects host data) in P.
  assert (Row : forall k s,
             nth_error (sortedSubjects host data) k = Some s ->
             In s (StudyPlanForm.subjects st)
             /\ JSText.trim (name s) <> "" /\ deadline s <> None).
  { intros k s N. apply nth_error_In in N.
    apply (Permutation_in _ (Permutation_sym P)) in N.
    cbn [subjects data] in N. rewrite <- F in N. apply filter_In in N.
    destruct N as (I & V). apply form_row_valid in V. destruct V as (NB & dl & D).
    repeat split; trivial. congruence. }
  assert (A : availableSubjects host (sortedSubjects host data) = sortedSubjects host data).
  { destruct (sortedSubjects host data) as [| first rest] eqn:E.
    - apply Permutation_sym, Permutation_nil in P. discriminate.
    - apply availableSubjects_cons. }
  split; [exact A |].
  intros i d N.
  pose proof (fallback_day_cases host data plan i d G N) as D. cbv zeta in D.
  rewrite A in D.
  destruct (Nat.even i && _).
  - destruct D as (s1 & s2 & N1 & N2 & ->).
    destruct (Row _ _ N1) as (I1 & B1 & D1), (Row _ _ N2) as (I2 & B2 & D2).
    exists s1. repeat split; trivial. right. exists s2. repeat split; trivial.
  - destruct D as (s & N1 & ->).
    destruct (Row _ _ N1) as (I1 & B1 & D1).
    exists s. repeat split; trivial. now left.
Qed.

Lemma form_plan_names_form_rows_witness :
  let data := {| subjects := [Sample.essay; Sample.math; Sample.history];
                 dailyHours := 4 |} in
  availableSubjects Sample.host (sortedSubjects Sample.host data)
  = sortedSubjects Sample.host data.
Proof.
  intros data.
  destruct (generateFallbackStudyPlan Sample.host data) as [plan | e] eqn:G.
  - apply (form_plan_names_form_rows Sample.host
             {| StudyPlanForm.subjects := subjects Sample.form;
                StudyPlanForm.dailyHours := dailyHours Sample.form |}
             data plan).
    + vm_compute. reflexivity.
    + exact G.
  - vm_compute in G. discriminate.
Defined.

(** ** The dashboard *)

Lemma fold_hours (l : list StudyPlanDay) (k : list Z) (acc : Z) :
  Forall2 (fun d z => hours d = inject_Z z) l k ->
  fold_left (fun total session => (total + hours session)%Q) l (inject_Z acc)
  == inject_Z (fold_left Z.add k acc).
Proof.
  intros F. revert acc. induction F as [| d z l k E F IH]; intros acc; cbn [fold_left].
  - reflexivity.
  - rewrite <- IH. rewrite E.
    assert (Acc : forall (l : list StudyPlanDay) (a b : Q),
               a == b ->
               fold_left (fun total session => (total + hours session)%Q) l a
               == fold_left (fun total session => (total + hours session)%Q) l b).
    { clear. induction l as [| x l IH]; intros a b E; cbn [fold_left]; trivial.
      apply IH. now rewrite E. }
    apply Acc. now rewrite inject_Z_plus.
Qed.

(** X22.  The total that the dashboard shows for a fallback plan.  With a
    positive whole number [h] of daily hours, the total of the five days
    is a whole number of hours between 5 and [5 * h]. *)
Theorem dashboard_totalHours_of_fallback (host : Host) (data : StudyFormData)
    (h : Z) (plan : StudyPlanResult) :
  0 < h ->
  dailyHours data = inject_Z h ->
  generateFallbackStudyPlan host data = Returns plan ->
  exists total,
    StudyDashboard.totalHours (studyPlan plan) == inject_Z total
    /\ 5 <= total <= 5 * h.
Proof.
  intros Hh Hd G.
  assert (Day : forall i d,
             nth_error (studyPlan plan) i = Some d ->
             exists k, hours d = inject_Z k /\ 1 <= k <= h).
  { intros i d N.
    pose proof (fallback_day_cases host data plan i d G N) as C. cbv zeta in C.
    destruct (Nat.even i && _).
    - destruct C as (s1 & s2 & _ & _ & ->). exists h. cbn [hours multiSubjectDay].
      split; [exact Hd | lia].
    - destruct C as (s & _ & ->). cbn [hours singleSubjectDay]. unfold ceilHours.
      rewrite Hd. eexists. split; [reflexivity |].
      destruct (Priority_eqb _ _).
      + split; [apply (ceil_fraction_pos h 8 10) | apply (ceil_fraction_le h 8 10)]; lia.
      + split; [apply (ceil_fraction_pos h 5 10) | apply (ceil_fraction_le h 5 10)]; lia. }
  destruct (generateFallbackStudyPlan_days host data)
    as (d0 & d1 & d2 & d3 & d4 & E & _).
  rewrite E in G. injection G as <-. cbn [studyPlan] in *.
  destruct (Day 0%nat d0 eq_refl) as (k0 & E0 & B0).
  destruct (Day 1%nat d1 eq_refl) as (k1 & E1 & B1).
  destruct (Day 2%nat d2 eq_refl) as (k2 & E2 & B2).
  destruct (Day 3%nat d3 eq_refl) as (k3 & E3 & B3).
  destruct (Day 4%nat d4 eq_refl) as (k4 & E4 & B4).
  exists (fold_left Z.add [k0; k1; k2; k3; k4] 0). split.
  - unfold StudyDashboard.totalHours. apply (fold_hours _ _ 0).
    repeat constructor; assumption.
  - cbn [fold_left]. lia.
Qed.

Lemma dashboard_totalHours_of_fallback_witness :
  exists total,
    StudyDashboard.totalHours (studyPlan Sample.plan) == inject_Z total
    /\ 5 <= total <= 5 * 4.
Proof.
  apply (dashboard_totalHours_of_fallback Sample.host Sample.form 4 Sample.plan);
    [lia | reflexivity | vm_compute; reflexivity].
Defined.

Lemma split_whole (sep : ascii) (s : string) :
  ~ In sep (list_ascii_of_string s) -> JSText.split sep s = [s].
Proof.
  induction s as [| c s IH]; cbn [JSText.split list_ascii_of_string In]; trivial.
  intros NI. destruct (Ascii.eqb_spec c sep) as [E | NE]; [tauto |].
  rewrite IH by tauto. reflexivity.
Qed.

Lemma split_at (sep : ascii) (a b : string) :
  ~ In sep (list_ascii_of_string a) ->
  JSText.split sep (a ++ String sep b) = a :: JSText.split sep b.
Proof.
  induction a as [| c a IH]; cbn [append JSText.split list_ascii_of_string In].
  - intros _. now rewrite Ascii.eqb_refl.
  - intros NI. destruct (Ascii.eqb_spec c sep) as [E | NE]; [tauto |].
    rewrite IH by tauto. reflexivity.
Qed.

Lemma length_split (sep : ascii) (s : string) :
  List.length (JSText.split sep s)
  = S (count_occ Ascii.ascii_dec (list_ascii_of_string s) sep).
Proof.
  induction s as [| c s IH]; cbn [JSText.split list_ascii_of_string count_occ]; trivial.
  destruct (Ascii.eqb_spec c sep) as [E | NE], (Ascii.ascii_dec c sep) as [E' | NE'];
    try contradiction.
  - cbn [List.length]. now rewrite IH.
  - destruct (JSText.split sep s); [discriminate | exact IH].
Qed.

Lemma trim_space (s : string) : JSText.trim (String " " s) = JSText.trim s.
Proof. reflexivity. Qed.

Lemma getSubjectIcon_space (s : string) :
  StudyDashboard.getSubjectIcon (String " " s) = StudyDashboard.getSubjectIcon s.
Proof. reflexivity. Qed.

Lemma available_from_data (host : Host) (data : StudyFormData) (s : Subject) :
  In s (availableSubjects host (sortedSubjects host data)) ->
  In s (subjects data) \/ name s = "General Study".
Proof.
  pose proof (sort_Permutation (byDeadline host) (subjects data)) as P.
  fold (sortedSubjects host data) in P.
  destruct (sortedSubjects host data) as [| first rest] eqn:E.
  - rewrite availableSubjects_nil. intros [<- | []]. now right.
  - rewrite availableSubjects_cons. intros I. left.
    apply (Permutation_in _ (Permutation_sym P)), I.
Qed.

(** X23.  The badges of the subject column.  The dashboard cuts the
    subject of a session at its commas, so a session shows one badge more
    than its subject has commas.  For a day of a fallback plan made from
    names without a comma this gives back the submitted names: a day of
    one subject shows the badge of that subject, and a day of two subjects
    shows the two badges of the two subjects, each with the icon and the
    trimmed text of its own name. *)
Theorem dashboard_badges_of_fallback_day :
  (forall session,
      List.length (StudyDashboard.subjectBadges session)
      = S (count_occ Ascii.ascii_dec (list_ascii_of_string (subject session)) ","%char))
  /\ (forall host data plan i d,
         generateFallbackStudyPlan host data = Returns plan ->
         nth_error (studyPlan plan) i = Some d ->
         (forall s, In s (subjects data) ->
                    ~ In ","%char (list_ascii_of_string (name s))) ->
         exists s1,
           (In s1 (subjects data) \/ name s1 = "General Study")
           /\ (StudyDashboard.subjectBadges d
               = [ (StudyDashboard.getSubjectIcon (name s1), JSText.trim (name s1)) ]
               \/ exists s2,
                   (In s2 (subjects data) \/ name s2 = "General Study")
                   /\ StudyDashboard.subjectBadges d
                      = [ (StudyDashboard.getSubjectIcon (name s1), JSText.trim (name s1));
                          (StudyDashboard.getSubjectIcon (name s2), JSText.trim (name s2)) ])).
Proof.
  split.
  - intros session. unfold StudyDashboard.subjectBadges.
    rewrite length_map. apply length_split.
  - intros host data plan i d G N Free.
    assert (Free' : forall s,
               In s (availableSubjects host (sortedSubjects host data)) ->
               ~ In ","%char (list_ascii_of_string (name s))).
    { intros s I. destruct (available_from_data host data s I) as [D | ->]; [auto |].
      cbn. intuition discriminate. }
    pose proof (fallback_day_cases host data plan i d G N) as C. cbv zeta in C.
    destruct (Nat.even i && _).
    + destruct C as (s1 & s2 & N1 & N2 & ->).
      apply nth_error_In in N1, N2.
      exists s1. split; [now apply (available_from_data host) |]. right.
      exists s2. split; [now apply (available_from_data host) |].
      unfold StudyDashboard.subjectBadges. cbn [subject multiSubjectDay].
      change (name s1 ++ ", " ++ name s2)
        with (name s1 ++ String "," (String " " (name s2))).
      rewrite split_at by auto. rewrite split_whole.
      * cbn [map]. now rewrite getSubjectIcon_space, trim_space.
      * cbn [list_ascii_of_string In]. intros [E | I]; [discriminate |].
        now apply (Free' s2).
    + destruct C as (s & N1 & ->). apply nth_error_In in N1.
      exists s. split; [now apply (available_from_data host) |]. left.
      unfold StudyDashboard.subjectBadges. cbn [subject singleSubjectDay].
      rewrite split_whole by auto. reflexivity.
Qed.

Lemma dashboard_badges_of_fallback_day_witness :
  exists s1,
    (In s1 (subjects Sample.form) \/ name s1 = "General Study")
    /\ (StudyDashboard.subjectBadges Sample.thursday
        = [ (StudyDashboard.getSubjectIcon (name s1), JSText.trim (name s1)) ]
        \/ exists s2,
            (In s2 (subjects Sample.form) \/ name s2 = "General Study")
            /\ StudyDashboard.subjectBadges Sample.thursday
               = [ (StudyDashboard.getSubjectIcon (name s1), JSText.trim (name s1));
                   (StudyDashboard.getSubjectIcon (name s2), JSText.trim (name s2)) ]).
Proof.
  apply (proj2 dashboard_badges_of_fallback_day Sample.host Sample.form Sample.plan
           1%nat Sample.thursday).
  - vm_compute. reflexivity.
  - reflexivity.
  - intros s I. vm_compute in I.
    repeat (destruct I as [<- | I]; [vm_compute; intuition discriminate |]).
    contradiction.
Defined.

(** *** Trimming and the keyword tests

    The bytes that [trim] takes away are control bytes, the space, or
    bytes of a multi-byte character; a keyword is made of letters. *)

Ltac booleans H :=
  repeat first
    [ rewrite orb_true_iff in H | rewrite andb_true_iff in H
    | rewrite Nat.eqb_eq in H | rewrite Nat.leb_le in H ].

Lemma white1_byte (a : ascii) :
  JSText.white1 a = true -> (nat_of_ascii a <= 32)%nat.
Proof. unfold JSText.white1. cbv zeta. intros W. booleans W. lia. Qed.

Lemma white2_bytes (a b : ascii) :
  JSText.white2 a b = true -> (128 <= nat_of_ascii a)%nat /\ (128 <= nat_of_ascii b)%nat.
Proof. unfold JSText.white2. intros W. booleans W. lia. Qed.

Lemma white3_bytes (a b c : ascii) :
  JSText.white3 a b c = true ->
  (128 <= nat_of_ascii a)%nat /\ (128 <= nat_of_ascii b)%nat /\ (128 <= nat_of_ascii c)%nat.
Proof. unfold JSText.white3. cbv zeta. intros W. booleans W. lia. Qed.

Lemma trimStart_split (n : nat) :
  forall s,
    (String.length s <= n)%nat ->
    exists w,
      s = w ++ JSText.trimStart s
      /\ Forall (fun c => (nat_of_ascii c <= 32 \/ 128 <= nat_of_ascii c)%nat)
                (list_ascii_of_string w).
Proof.
  induction n as [| n IH]; intros s L.
  - destruct s; [| cbn in L; lia]. exists "". split; [reflexivity | constructor].
  - destruct s as [| a r1]; [exists ""; split; [reflexivity | constructor] |].
    cbn [JSText.trimStart]. cbn [String.length] in L.
    destruct (JSText.white1 a) eqn:W1.
    { destruct (IH r1) as (w & E & B); [lia |].
      exists (String a w). cbn [append list_ascii_of_string]. split; [now f_equal |].
      constructor; [| exact B]. left. now apply white1_byte. }
    destruct r1 as [| b r2]; [exists ""; split; [reflexivity | constructor] |].
    cbn [String.length] in L.
    destruct (JSText.white2 a b) eqn:W2.
    { destruct (IH r2) as (w & E & B); [lia |].
      destruct (white2_bytes a b W2) as (Ba & Bb).
      exists (String a (String b w)). cbn [append list_ascii_of_string].
      split; [now do 2 f_equal |].
      constructor; [now right |]. constructor; [now right | exact B]. }
    destruct r2 as [| c r3]; [exists ""; split; [reflexivity | constructor] |].
    cbn [String.length] in L.
    destruct (JSText.white3 a b c) eqn:W3.
    { destruct (IH r3) as (w & E & B); [lia |].
      destruct (white3_bytes a b c W3) as (Ba & Bb & Bc).
      exists (String a (String b (String c w))). cbn [append list_ascii_of_string].
      split; [now do 3 f_equal |].
      constructor; [now right |]. constructor; [now right |].
      constructor; [now right | exact B]. }
    exists "". split; [reflexivity | constructor].
Qed.

Lemma allWhite_bytes (n : nat) :
  forall s,
    (String.length s <= n)%nat ->
    JSText.allWhite s = true ->
    Forall (fun c => (nat_of_ascii c <= 32 \/ 128 <= nat_of_ascii c)%nat)
           (list_ascii_of_string s).
Proof.
  induction n as [| n IH]; intros s L.
  - destruct s; [constructor | cbn in L; lia].
  - destruct s as [| a r1]; [constructor |].
    cbn [JSText.allWhite list_ascii_of_string]. cbn [String.length] in L.
    destruct (JSText.white1 a) eqn:W1.
    { intros W. constructor; [left; now apply white1_byte | apply IH; [lia | exact W]]. }
    destruct r1 as [| b r2]; [discriminate |].
    cbn [String.length list_ascii_of_string] in *.
    destruct (JSText.white2 a b) eqn:W2.
    { intros W. destruct (white2_bytes a b W2) as (Ba & Bb).
      constructor; [now right |]. constructor; [now right |].
      apply IH; [lia | exact W]. }
    destruct r2 as [| c r3]; [discriminate |].
    cbn [String.length list_ascii_of_string] in *.
    destruct (JSText.white3 a b c) eqn:W3; [| discriminate].
    intros W. destruct (white3_bytes a b c W3) as (Ba & Bb & Bc).
    constructor; [now right |]. constructor; [now right |]. constructor; [now right |].
    apply IH; [lia | exact W].
Qed.

Lemma trimEnd_split (s : string) :
  exists w,
    s = JSText.trimEnd s ++ w
    /\ Forall (fun c => (nat_of_ascii c <= 32 \/ 128 <= nat_of_ascii c)%nat)
              (list_ascii_of_string w).
Proof.
  induction s as [| a r IH]; [exists ""; split; [reflexivity | constructor] |].
  cbn [JSText.trimEnd].
  destruct (JSText.allWhite (String a r)) eqn:W.
  - exists (String a r). split; [reflexivity |].
    apply (allWhite_bytes (String.length (String a r))); [lia | exact W].
  - destruct IH as (w & E & B). exists w. cbn [append]. split; [now f_equal | exact B].
Qed.

Section Keyword.

Variable k : string.
Hypothesis k_letters :
  Forall (fun c => (32 < nat_of_ascii c < 128)%nat) (list_ascii_of_string k).
Hypothesis k_nonempty : k <> "".

Lemma prefix_blank (w : string) :
  Forall (fun c => (nat_of_ascii c <= 32 \/ 128 <= nat_of_ascii c)%nat)
         (list_ascii_of_string w) ->
  String.prefix k w = false.
Proof.
  destruct k as [| c k']; [contradiction |]. destruct w as [| a w']; [reflexivity |].
  cbn [list_ascii_of_string String.prefix]. intros B.
  inversion B as [| ? ? Ba _]. inversion k_letters as [| ? ? Lc _]. subst.
  destruct (Ascii.ascii_dec c a) as [-> | _]; [lia | reflexivity].
Qed.

Lemma includes_blank (w : string) :
  Forall (fun c => (nat_of_ascii c <= 32 \/ 128 <= nat_of_ascii c)%nat)
         (list_ascii_of_string w) ->
  JSString.includes w k = false.
Proof.
  induction w as [| a w IH]; intros B; rewrite includes_unfold, prefix_blank by exact B.
  - reflexivity.
  - cbn [list_ascii_of_string] in B. inversion B. auto.
Qed.

Lemma includes_after_blank (w s : string) :
  Forall (fun c => (nat_of_ascii c <= 32 \/ 128 <= nat_of_ascii c)%nat)
         (list_ascii_of_string w) ->
  JSString.includes (w ++ s) k = JSString.includes s k.
Proof.
  induction w as [| a w IH]; intros B; [reflexivity |].
  cbn [append]. rewrite includes_unfold.
  cbn [list_ascii_of_string] in B. inversion B as [| ? ? Ba B']. subst.
  rewrite IH by exact B'.
  destruct k as [| c k']; [contradiction |]. cbn [String.prefix].
  inversion k_letters as [| ? ? Lc _]. subst.
  destruct (Ascii.ascii_dec c a) as [-> | _]; [lia | reflexivity].
Qed.

End Keyword.

Lemma prefix_before_blank (k : string) :
  Forall (fun c => (32 < nat_of_ascii c < 128)%nat) (list_ascii_of_string k) ->
  forall x w,
    Forall (fun c => (nat_of_ascii c <= 32 \/ 128 <= nat_of_ascii c)%nat)
           (list_ascii_of_string w) ->
    String.prefix k (x ++ w) = String.prefix k x.
Proof.
  induction k as [| c k IH]; intros K x w B.
  - now destruct x, w.
  - cbn [list_ascii_of_string] in K. inversion K as [| ? ? Lc K']. subst.
    destruct x as [| b x]; cbn [append String.prefix].
    + destruct w as [| a w]; [reflexivity |].
      cbn [list_ascii_of_string] in B. inversion B as [| ? ? Ba _]. subst.
      cbn [String.prefix].
      destruct (Ascii.ascii_dec c a) as [-> | _]; [lia | reflexivity].
    + destruct (Ascii.ascii_dec c b); [apply IH; assumption | reflexivity].
Qed.

Lemma includes_before_blank (k : string) :
  Forall (fun c => (32 < nat_of_ascii c < 128)%nat) (list_ascii_of_string k) ->
  k <> "" ->
  forall s w,
    Forall (fun c => (nat_of_ascii c <= 32 \/ 128 <= nat_of_ascii c)%nat)
           (list_ascii_of_string w) ->
    JSString.includes (s ++ w) k = JSString.includes s k.
Proof.
  intros K NE s w B. induction s as [| a s IH].
  - cbn [append]. rewrite (includes_blank k K NE w B).
    destruct k; [contradiction | reflexivity].
  - rewrite (includes_unfold (String a s ++ w)), (includes_unfold (String a s)).
    rewrite prefix_before_blank by assumption. cbn [append]. now rewrite IH.
Qed.

(** Trimming a text does not change whether it holds a keyword. *)
Lemma includes_trim (s k : string) :
  Forall (fun c => (32 < nat_of_ascii c < 128)%nat) (list_ascii_of_string k) ->
  k <> "" ->
  JSString.includes (JSText.trim s) k = JSString.includes s k.
Proof.
  intros K NE. unfold JSText.trim.
  destruct (trimStart_split (String.length s) s (Nat.le_refl _)) as (w1 & E1 & B1).
  destruct (trimEnd_split (JSText.trimStart s)) as (w2 & E2 & B2).
  rewrite E1 at 2. rewrite (includes_after_blank k K NE w1 _ B1).
  rewrite E2 at 2. now rewrite (includes_before_blank k K NE _ w2 B2).
Qed.

Ltac keyword := first [discriminate | repeat constructor; cbn; lia].

(** X24.  The dashboard and the planner sort a subject alike.  The icon of
    a name on the dashboard and the notes and tools that the fallback
    planner writes for it belong to the same category, decided by the same
    keywords in the same order; the white space that only the dashboard
    trims away never changes the outcome.  So a name has the light bulb,
    the icon of no category, exactly when its notes are the general
    ones. *)
Theorem icon_agrees_with_notes (subject : string) :
  (exists category,
      In category ["math"; "physics"; "chemistry"; "biology"; "history"; "english";
                   "computer"; ""]
      /\ StudyDashboard.getSubjectIcon subject = StudyDashboard.getSubjectIcon category
      /\ getSubjectNotes subject = getSubjectNotes category
      /\ getSubjectResources subject = getSubjectResources category)
  /\ (StudyDashboard.getSubjectIcon subject = StudyDashboard.Lightbulb
      <-> getSubjectNotes subject = getSubjectNotes "").
Proof.
  assert (Icon : StudyDashboard.getSubjectIcon subject
                 = let includes := JSString.includes (JSString.toLowerCase subject) in
                   if includes "math" then StudyDashboard.Calculator
                   else if includes "physics" then StudyDashboard.Atom
                   else if includes "chemistry" then StudyDashboard.Beaker
                   else if includes "biology" then StudyDashboard.Atom
                   else if includes "history" || includes "social"
                        then StudyDashboard.History
                   else if includes "english" || includes "literature" || includes "lang"
                        then StudyDashboard.BookText
                   else if includes "computer" || includes "programming"
                           || includes "coding"
                        then StudyDashboard.Code
                   else StudyDashboard.Lightbulb).
  { unfold StudyDashboard.getSubjectIcon. cbv zeta.
    rewrite !includes_trim by keyword. reflexivity. }
  rewrite Icon. clear Icon.
  unfold getSubjectNotes at 1 3, getSubjectResources at 1. cbv zeta.
  set (lower := JSString.toLowerCase subject).
  destruct (JSString.includes lower "math");
    [split; [exists "math"; cbn; tauto | split; discriminate] |].
  destruct (JSString.includes lower "physics");
    [split; [exists "physics"; cbn; tauto | split; discriminate] |].
  destruct (JSString.includes lower "chemistry");
    [split; [exists "chemistry"; cbn; tauto | split; discriminate] |].
  destruct (JSString.includes lower "biology");
    [split; [exists "biology"; cbn; tauto | split; discriminate] |].
  destruct (JSString.includes lower "history" || JSString.includes lower "social");
    [split; [exists "history"; cbn; tauto | split; discriminate] |].
  destruct (JSString.includes lower "english" || JSString.includes lower "literature"
            || JSString.includes lower "lang");
    [split; [exists "english"; cbn; tauto | split; discriminate] |].
  destruct (JSString.includes lower "computer" || JSString.includes lower "programming"
            || JSString.includes lower "coding");
    [split; [exists "computer"; cbn; tauto | split; discriminate] |].
  split; [exists ""; cbn; tauto | split; reflexivity].
Qed.

(** ** The prompt *)

Lemma includes_concat (sep x : string) (parts : list string) :
  In x parts -> JSString.includes (String.concat sep parts) x = true.
Proof.
  induction parts as [| p parts IH]; [contradiction |].
  intros [-> | I]; cbn [String.concat].
  - destruct parts; [apply includes_self | apply includes_app_l, includes_self].
  - destruct parts as [| p' parts]; [contradiction |].
    apply includes_app_r, includes_app_r, IH, I.
Qed.

(** X25.  The prompt leaves no subject out.  The request that
    [generateStudyPlan] makes carries one prompt, and for every submitted
    subject, however many there are, that prompt holds its line: a dash,
    the name, and either the days until the deadline with the date as the
    locale prints it, or "no specific deadline". *)
Theorem prompt_lists_every_subject (host : Host)
    (gemini : Request -> JSResult Response.t) (data : StudyFormData) :
  let sent :=
    prompt host data (subjectInfo host (sortedSubjects host data))
      (calendarDay (localToday host)) in
  callGemini host gemini data = gemini (completionRequest sent)
  /\ forall s,
      In s (subjects data) ->
      JSString.includes sent
        ("- " ++ name s ++ ": "
         ++ match deadline s with
            | Some d =>
                "deadline in "
                ++ JSNumber.toString (getDaysUntilDeadline host (Some d))
                ++ " days (" ++ toLocaleDateString host d ++ ")"
            | None => "no specific deadline"
            end)
      = true.
Proof.
  intros sent. split.
  - unfold callGemini. rewrite getNextFiveDays_today. reflexivity.
  - intros s I. subst sent. unfold prompt. cbv zeta.
    apply includes_app_r, includes_app_r, includes_app_l.
    unfold subjectInfo, JSString.join. apply includes_concat.
    apply in_map_iff. exists s. split.
    + cbv zeta. destruct (deadline s); reflexivity.
    + apply (Permutation_in _ (sort_Permutation (byDeadline host) (subjects data))), I.
Qed.

Lemma prompt_lists_every_subject_witness :
  JSString.includes
    (prompt Sample.host Sample.form
       (subjectInfo Sample.host (sortedSubjects Sample.host Sample.form))
       (calendarDay (localToday Sample.host)))
    "- Reading: no specific deadline"
  = true.
Proof.
  apply (proj2 (prompt_lists_every_subject Sample.host Sample.offline Sample.form)
           Sample.reading).
  vm_compute. tauto.
Defined.

(** ** The subjects that the dashboard counts *)

Lemma unique_again (x : string) (n : nat) :
  fold_left
    (fun seen value =>
       if existsb (String.eqb value) seen then seen else (seen ++ [value])%list)
    (repeat x n) [x]
  = [x].
Proof.
  induction n as [| n IH]; cbn [repeat fold_left existsb]; trivial.
  rewrite String.eqb_refl. exact IH.
Qed.

(** X26.  One subject on the form is one subject on the dashboard.  When
    the form submits a single subject, the five days of the fallback plan
    all bear its name, and the dashboard counts one subject, that name. *)
Theorem dashboard_counts_single_subject (host : Host) (s : Subject) (h : Q)
    (plan : StudyPlanResult) :
  generateFallbackStudyPlan host {| subjects := [s]; dailyHours := h |} = Returns plan ->
  map subject (studyPlan plan) = [name s; name s; name s; name s; name s]
  /\ StudyDashboard.uniqueSubjects (studyPlan plan) = [name s].
Proof.
  intros G.
  set (data := {| subjects := [s]; dailyHours := h |}) in *.
  assert (A : availableSubjects host (sortedSubjects host data) = [s]) by reflexivity.
  assert (Day : forall i d, nth_error (studyPlan plan) i = Some d -> subject d = name s).
  { intros i d N.
    pose proof (fallback_day_cases host data plan i d G N) as C. cbv zeta in C.
    rewrite A in C. cbn [List.length Nat.leb] in C. rewrite andb_false_r in C.
    destruct C as (s' & N' & ->). rewrite Nat.mod_1_r in N'. now injection N' as <-. }
  destruct (generateFallbackStudyPlan_days host data)
    as (d0 & d1 & d2 & d3 & d4 & E & _).
  rewrite E in G. injection G as <-. cbn [studyPlan] in *.
  assert (M : map subject [d0; d1; d2; d3; d4] = [name s; name s; name s; name s; name s]).
  { cbn [map].
    rewrite (Day 0%nat d0), (Day 1%nat d1), (Day 2%nat d2), (Day 3%nat d3),
      (Day 4%nat d4); reflexivity. }
  split; [exact M |].
  unfold StudyDashboard.uniqueSubjects, StudyDashboard.unique. rewrite M.
  change [name s; name s; name s; name s; name s] with (name s :: repeat (name s) 4).
  cbn [fold_left existsb app]. apply unique_again.
Qed.

Lemma dashboard_counts_single_subject_witness :
  match generateFallbackStudyPlan Sample.host
          {| subjects := [Sample.math]; dailyHours := 4 |} with
  | Returns plan => StudyDashboard.uniqueSubjects (studyPlan plan) = ["Math"]
  | Throws _ => False
  end.
Proof.
  destruct (generateFallbackStudyPlan Sample.host
              {| subjects := [Sample.math]; dailyHours := 4 |}) as [plan | e] eqn:G.
  - apply (dashboard_counts_single_subject Sample.host Sample.math 4 plan G).
  - vm_compute in G. discriminate.
Defined.
